(** * NeuroQuant-AI: the backtest engine of services/marketService.ts

    A shallow embedding of [calculateSMA], [calculateRSI] and [runBacktest]
    together with the properties of the engine's specification.

    Number models.  The engine is embedded over two models of the
    JavaScript [number].

    - Exact: a rational, extended with [Infinity], [-Infinity] and [NaN].
      Arithmetic on finite values is exact, division by zero, the
      infinities and the propagation of [NaN] follow IEEE 754, comparisons
      with [NaN] are false, zero is unsigned.  This is the model of the
      universally quantified properties.  Binary64 rounds and overflows
      where this model does not, so the properties are stated without
      relying on exactness: where a computation on finite values can
      overflow in binary64, the statement admits the values ([Infinity],
      [NaN]) that the overflow leads to.

    - Binary64 (module [Binary64]): the IEEE 754 double the program
      computes with, as primitive floats.  Every function of the engine is
      repeated over it.  Concrete runs are evaluated in it bit for bit, and
      the properties that follow from the shape of the code and from the
      special values of IEEE 754 are proved on it.

    Integer configuration fields (window sizes, the RSI period) and array
    indices are [Z]. *)

From Stdlib Require Import String.
From Stdlib Require Import QArith Qabs Qreduction Lqa ZArith List Bool Lia.
From Stdlib Require Import Morphisms Setoid.
From Stdlib Require PrimFloat FloatOps SpecFloat FloatAxioms Uint63.
Import ListNotations.

Set Implicit Arguments.

Abbreviation length := List.length.
Local Open Scope string_scope.
Local Open Scope list_scope.

(* ================================================================== *)
(** * JavaScript numbers *)
(* ================================================================== *)

Module JsNum.

Inductive number : Type :=
| Fin (q : Q)
| PInf
| NInf
| NaN.

(** Finite results are kept in lowest terms, so that concrete runs can be
    compared with [=]. *)
Definition fin (q : Q) : number := Fin (Qred q).

Definition of_Z (z : Z) : number := Fin (inject_Z z).
Definition of_nat (n : nat) : number := of_Z (Z.of_nat n).

Definition zero : number := Fin 0.
Definition one : number := Fin 1.
Definition hundred : number := Fin 100.

(** Sign of a finite value: [Lt] negative, [Eq] zero, [Gt] positive. *)
Definition sign (q : Q) : comparison := (q ?= 0)%Q.

Definition neg (x : number) : number :=
  match x with
  | Fin a => fin (- a)
  | PInf => NInf
  | NInf => PInf
  | NaN => NaN
  end.

(** [x + y] *)
Definition add (x y : number) : number :=
  match x, y with
  | NaN, _ | _, NaN => NaN
  | Fin a, Fin b => fin (a + b)
  | PInf, NInf | NInf, PInf => NaN
  | PInf, _ | _, PInf => PInf
  | NInf, _ | _, NInf => NInf
  end.

(** [x - y] *)
Definition sub (x y : number) : number :=
  match x, y with
  | NaN, _ | _, NaN => NaN
  | Fin a, Fin b => fin (a - b)
  | PInf, PInf | NInf, NInf => NaN
  | PInf, _ | _, NInf => PInf
  | NInf, _ | _, PInf => NInf
  end.

Definition inf_of_sign (s : comparison) : number :=
  match s with
  | Gt => PInf
  | Lt => NInf
  | Eq => NaN
  end.

(** [x * y]; [Infinity * 0] is [NaN]. *)
Definition mul (x y : number) : number :=
  match x, y with
  | NaN, _ | _, NaN => NaN
  | Fin a, Fin b => fin (a * b)
  | Fin a, PInf | PInf, Fin a => inf_of_sign (sign a)
  | Fin a, NInf | NInf, Fin a => inf_of_sign (CompOpp (sign a))
  | PInf, PInf | NInf, NInf => PInf
  | PInf, NInf | NInf, PInf => NInf
  end.

(** [x / y]; a non-zero value over zero is an infinity of its sign,
    [0 / 0] and [Infinity / Infinity] are [NaN]. *)
Definition div (x y : number) : number :=
  match x, y with
  | NaN, _ | _, NaN => NaN
  | Fin a, Fin b =>
      match sign b with
      | Eq => inf_of_sign (sign a)
      | _ => fin (a / b)
      end
  | Fin _, PInf | Fin _, NInf => zero
  | PInf, Fin b => match sign b with Lt => NInf | _ => PInf end
  | NInf, Fin b => match sign b with Lt => PInf | _ => NInf end
  | PInf, PInf | PInf, NInf | NInf, PInf | NInf, NInf => NaN
  end.

(** [Math.abs] *)
Definition abs (x : number) : number :=
  match x with
  | Fin a => fin (Qabs a)
  | PInf | NInf => PInf
  | NaN => NaN
  end.

(** The relational comparison of two numbers: undefined as soon as one
    operand is [NaN]. *)
Definition cmp (x y : number) : option comparison :=
  match x, y with
  | NaN, _ | _, NaN => None
  | Fin a, Fin b => Some (a ?= b)%Q
  | PInf, PInf | NInf, NInf => Some Eq
  | PInf, _ | _, NInf => Some Gt
  | NInf, _ | _, PInf => Some Lt
  end.

(** [x < y], [x <= y], [x > y], [x >= y], [x === y] *)
Definition ltb (x y : number) : bool :=
  match cmp x y with Some Lt => true | _ => false end.
Definition leb (x y : number) : bool :=
  match cmp x y with Some Lt | Some Eq => true | _ => false end.
Definition gtb (x y : number) : bool :=
  match cmp x y with Some Gt => true | _ => false end.
Definition geb (x y : number) : bool :=
  match cmp x y with Some Gt | Some Eq => true | _ => false end.
Definition eqb (x y : number) : bool :=
  match cmp x y with Some Eq => true | _ => false end.

Definition is_finite (x : number) : Prop :=
  match x with Fin _ => True | _ => False end.

Definition is_nan (x : number) : Prop :=
  match x with NaN => True | _ => False end.

(** Two numbers denote the same value: finite values are compared as
    rationals, the special values only match themselves ([NaN] included:
    this is identity of values, not [===]). *)
Definition same (x y : number) : Prop :=
  match x, y with
  | Fin a, Fin b => (a == b)%Q
  | PInf, PInf | NInf, NInf | NaN, NaN => True
  | _, _ => False
  end.

End JsNum.

Export JsNum.

Declare Scope js_scope.
Delimit Scope js_scope with js.
Bind Scope js_scope with number.
Infix "+" := add : js_scope.
Infix "-" := sub : js_scope.
Infix "*" := mul : js_scope.
Infix "/" := div : js_scope.
Infix "<?" := ltb : js_scope.
Infix "<=?" := leb : js_scope.
Infix ">?" := gtb (at level 70) : js_scope.
Infix ">=?" := geb (at level 70) : js_scope.
Infix "===" := eqb (at level 70) : js_scope.
Infix "~~" := same (at level 70) : js_scope.

(* ================================================================== *)
(** * JavaScript runtime: exceptions and arrays *)
(* ================================================================== *)

(** The only exception the engine can raise is the runtime's own
    [TypeError], on reading a property of [undefined]. *)
Inductive JsError : Type :=
| TypeError.

Definition error_name (e : JsError) : string :=
  match e with
  | TypeError => "TypeError"
  end.

Inductive Result (A : Type) : Type :=
| Return (a : A)
| Throw (e : JsError).

Arguments Return {A} a.
Arguments Throw {A} e.

Definition bind {A B : Type} (m : Result A) (k : A -> Result B) : Result B :=
  match m with
  | Return a => k a
  | Throw e => Throw e
  end.

Notation "x <- m ;; k" := (bind m (fun x => k))
  (at level 61, m at next level, right associativity).
Notation "' p <- m ;; k" := (bind m (fun x => match x with p => k end))
  (at level 61, p pattern, m at next level, right associativity).

(** The loop [for (let i = ...; ...; i++) body] over an explicit list of
    index values, threading the loop-carried variables and stopping at the
    first exception. *)
Fixpoint for_each {I S : Type} (body : I -> S -> Result S) (idxs : list I) (s : S)
  : Result S :=
  match idxs with
  | [] => Return s
  | i :: idxs' => s' <- body i s ;; for_each body idxs' s'
  end.

(** The integers [lo, lo+1, ..., hi-1] (none when [hi <= lo]). *)
Definition zrange (lo hi : Z) : list Z :=
  map (fun k => (lo + Z.of_nat k)%Z) (seq 0 (Z.to_nat (hi - lo))).

Module Array.

(** [arr[i]]: [None] stands for [undefined] (index negative or past the
    end). *)
Definition get {A : Type} (arr : list A) (i : Z) : option A :=
  if (i <? 0)%Z then None else nth_error arr (Z.to_nat i).

(** [arr[i]] for an array of numbers read into a relational comparison,
    where [undefined] converts to [NaN]. *)
Definition get_num (arr : list number) (i : Z) : number :=
  match get arr i with
  | Some x => x
  | None => NaN
  end.

Fixpoint set_nat {A : Type} (hole : A) (arr : list A) (i : nat) (v : A) : list A :=
  match i, arr with
  | O, [] => [v]
  | O, _ :: arr' => v :: arr'
  | S i', [] => hole :: set_nat hole [] i' v
  | S i', x :: arr' => x :: set_nat hole arr' i' v
  end.

(** [arr[i] = v].  A negative [i] names an ordinary property and leaves
    the elements alone; an index past the end extends the array, the
    holes in between reading as [hole]. *)
Definition set {A : Type} (hole : A) (arr : list A) (i : Z) (v : A) : list A :=
  if (i <? 0)%Z then arr else set_nat hole arr (Z.to_nat i) v.

(** Clamping of a relative index of [Array.prototype.slice]. *)
Definition rel_index (len : nat) (i : Z) : nat :=
  if (i <? 0)%Z then Z.to_nat (Z.max (Z.of_nat len + i) 0)
  else Z.to_nat (Z.min i (Z.of_nat len)).

(** [arr.slice(start, end)] *)
Definition slice {A : Type} (arr : list A) (start stop : Z) : list A :=
  let k := rel_index (length arr) start in
  let final := rel_index (length arr) stop in
  firstn (final - k) (skipn k arr).

Fixpoint mapi_from {A B : Type} (f : A -> nat -> B) (idx : nat) (arr : list A) : list B :=
  match arr with
  | [] => []
  | x :: arr' => f x idx :: mapi_from f (S idx) arr'
  end.

(** [arr.map((x, idx) => f x idx)] *)
Definition mapi {A B : Type} (f : A -> nat -> B) (arr : list A) : list B :=
  mapi_from f 0 arr.

Fixpoint filteri_from {A : Type} (f : A -> nat -> bool) (idx : nat) (arr : list A) : list A :=
  match arr with
  | [] => []
  | x :: arr' =>
      if f x idx then x :: filteri_from f (S idx) arr'
      else filteri_from f (S idx) arr'
  end.

(** [arr.filter((x, idx) => f x idx)] *)
Definition filteri {A : Type} (f : A -> nat -> bool) (arr : list A) : list A :=
  filteri_from f 0 arr.

(** The elements paired with their indices, in order. *)
Definition indexed {A : Type} (arr : list A) : list (nat * A) :=
  combine (seq 0 (length arr)) arr.

End Array.

(* ================================================================== *)
(** * types.ts *)
(* ================================================================== *)

Inductive SignalType : Type :=
| BUY
| SELL
| HOLD.

Definition SignalType_eqb (a b : SignalType) : bool :=
  match a, b with
  | BUY, BUY | SELL, SELL | HOLD, HOLD => true
  | _, _ => false
  end.

Inductive Mode : Type :=
| ALGO
| AI.

Definition Mode_eqb (a b : Mode) : bool :=
  match a, b with
  | ALGO, ALGO | AI, AI => true
  | _, _ => false
  end.

Module MarketData.
Record t : Type := mk {
  date : string;
  close : number;
  open : number;
  high : number;
  low : number;
  volume : number
}.
End MarketData.

Module Trade.
Record t : Type := mk {
  date : string;
  type : SignalType;
  price : number;
  amount : number;
  balanceAfter : number;
  reason : string
}.
End Trade.

(** [exchange] and [symbol] are not read by the engine and are left out. *)
Module StrategyConfig.
Record t : Type := mk {
  mode : Mode;
  initialCapital : number;
  shortWindow : Z;
  longWindow : Z;
  rsiPeriod : Z;
  rsiOverbought : number;
  rsiOversold : number;
  useRsiFilter : bool
}.
End StrategyConfig.

(** [confidence] and [strategySource] are not read by the engine. *)
Module AiSignal.
Record t : Type := mk {
  date : string;
  action : SignalType;
  reason : string
}.
End AiSignal.

Module HistoryEntry.
Record t : Type := mk {
  date : string;
  balance : number
}.
End HistoryEntry.

Module BacktestResult.
Record t : Type := mk {
  trades : list Trade.t;
  finalBalance : number;
  totalReturn : number;
  winRate : number;
  maxDrawdown : number;
  history : list HistoryEntry.t
}.
End BacktestResult.

(** [Map<string, AiSignal>]: keys are unique, [set] on a present key
    replaces its value. *)
Module SignalMap.
Definition t : Type := list (string * AiSignal.t).

Definition empty : t := [].

Fixpoint set (m : t) (k : string) (v : AiSignal.t) : t :=
  match m with
  | [] => [(k, v)]
  | (k', v') :: m' =>
      if String.eqb k' k then (k', v) :: m' else (k', v') :: set m' k v
  end.

Fixpoint get (m : t) (k : string) : option AiSignal.t :=
  match m with
  | [] => None
  | (k', v') :: m' => if String.eqb k' k then Some v' else get m' k
  end.
End SignalMap.

(* ================================================================== *)
(** * services/marketService.ts: indicators *)
(* ================================================================== *)

Local Open Scope js_scope.

(** [data[i].close]: reading [close] off [undefined] raises [TypeError]. *)
Definition close_at (data : list MarketData.t) (i : Z) : Result number :=
  match Array.get data i with
  | Some d => Return (MarketData.close d)
  | None => Throw TypeError
  end.

Definition calculateSMA (data : list MarketData.t) (windowSize : Z) : list number :=
  Array.mapi
    (fun _ idx =>
       if (Z.of_nat idx <? windowSize - 1)%Z then NaN
       else
         let slice :=
           Array.slice data (Z.of_nat idx - windowSize + 1) (Z.of_nat idx + 1) in
         let sum := fold_left (fun acc curr => acc + MarketData.close curr) slice zero in
         sum / of_Z windowSize)
    data.

(** [100 - (100 / (1 + avgGain / (avgLoss === 0 ? 1 : avgLoss)))], the
    expression of both the seed and the smoothing step. *)
Definition rsi_value (avgGain avgLoss : number) : number :=
  hundred - hundred / (one + avgGain / (if avgLoss === zero then one else avgLoss)).

(** Body of the seed loop [for (let i = 1; i <= period; i++)], carrying
    [(gains, losses)]. *)
Definition rsi_seed_body (data : list MarketData.t) (i : Z) (acc : number * number)
  : Result (number * number) :=
  let '(gains, losses) := acc in
  ci <- close_at data i ;;
  cp <- close_at data (i - 1) ;;
  let diff := ci - cp in
  if diff >? zero then Return (gains + diff, losses)
  else Return (gains, losses + abs diff).

Definition rsi_seed (data : list MarketData.t) (period : Z) : Result (number * number) :=
  for_each (rsi_seed_body data) (zrange 1 (period + 1)) (zero, zero).

Module Rsi.
(** The variables carried by the smoothing loop. *)
Record t : Type := mk {
  avgGain : number;
  avgLoss : number;
  rsiArray : list number
}.
End Rsi.

(** Body of the loop [for (let i = period + 1; i < data.length; i++)]. *)
Definition rsi_smooth_body (data : list MarketData.t) (period : Z) (i : Z) (st : Rsi.t)
  : Result Rsi.t :=
  ci <- close_at data i ;;
  cp <- close_at data (i - 1) ;;
  let diff := ci - cp in
  let gain := if diff >? zero then diff else zero in
  let loss := if diff <? zero then abs diff else zero in
  let avgGain := (Rsi.avgGain st * of_Z (period - 1) + gain) / of_Z period in
  let avgLoss := (Rsi.avgLoss st * of_Z (period - 1) + loss) / of_Z period in
  Return (Rsi.mk avgGain avgLoss (Array.set NaN (Rsi.rsiArray st) i (rsi_value avgGain avgLoss))).

(** The loop state right after the seed assignment [rsiArray[period] = ...]. *)
Definition rsi_seeded (data : list MarketData.t) (period : Z) : Result Rsi.t :=
  let rsiArray := repeat NaN (length data) in
  '(gains, losses) <- rsi_seed data period ;;
  let avgGain := gains / of_Z period in
  let avgLoss := losses / of_Z period in
  Return (Rsi.mk avgGain avgLoss (Array.set NaN rsiArray period (rsi_value avgGain avgLoss))).

Definition calculateRSI (data : list MarketData.t) (period : Z) : Result (list number) :=
  let rsiArray := repeat NaN (length data) in
  if (Z.of_nat (length data) <=? period)%Z then Return rsiArray
  else
    st <- rsi_seeded data period ;;
    st' <- for_each (rsi_smooth_body data period)
                    (zrange (period + 1) (Z.of_nat (length data))) st ;;
    Return (Rsi.rsiArray st').

(* ================================================================== *)
(** * services/marketService.ts: runBacktest *)
(* ================================================================== *)

Module State.
(** The variables [runBacktest] mutates in its loop. *)
Record t : Type := mk {
  cash : number;
  holdings : number;
  trades : list Trade.t;
  history : list HistoryEntry.t;
  peakBalance : number;
  maxDrawdown : number
}.
End State.

(** [0.99] *)
Definition reserve_factor : number := Fin (99 # 100).

(** [reason || 'Technical Signal']: the empty string is falsy. *)
Definition reason_or_default (reason : string) : string :=
  if String.eqb reason "" then "Technical Signal" else reason.

(** [aiSignals.forEach(s => aiSignalMap.set(s.date, s))], done only when
    [config.mode === 'AI' && aiSignals]. *)
Definition build_signal_map (config : StrategyConfig.t) (aiSignals : option (list AiSignal.t))
  : SignalMap.t :=
  match StrategyConfig.mode config, aiSignals with
  | AI, Some signals =>
      fold_left (fun m s => SignalMap.set m (AiSignal.date s) s) signals SignalMap.empty
  | _, _ => SignalMap.empty
  end.

(** The "Execute Trade" block. *)
Definition execute_trade (signal : SignalType) (reason : string)
    (price : number) (date : string) (st : State.t) : State.t :=
  let cash := State.cash st in
  let holdings := State.holdings st in
  if SignalType_eqb signal BUY && (cash >? price) then
    let amountToBuy := (cash * reserve_factor) / price in
    if amountToBuy >? zero then
      let cost := amountToBuy * price in
      if cost <=? cash then
        let cash' := cash - cost in
        let holdings' := holdings + amountToBuy in
        State.mk cash' holdings'
          (State.trades st ++
             [Trade.mk date BUY price amountToBuy (cash' + holdings' * price)
                       (reason_or_default reason)])
          (State.history st) (State.peakBalance st) (State.maxDrawdown st)
      else st
    else st
  else if SignalType_eqb signal SELL && (holdings >? zero) then
    let cash' := cash + holdings * price in
    State.mk cash' zero
      (State.trades st ++
         [Trade.mk date SELL price holdings cash' (reason_or_default reason)])
      (State.history st) (State.peakBalance st) (State.maxDrawdown st)
  else st.

(** The end of the loop body: equity, history and drawdown. *)
Definition record_equity (price : number) (date : string) (st : State.t) : State.t :=
  let currentTotalValue := State.cash st + State.holdings st * price in
  let peakBalance :=
    if currentTotalValue >? State.peakBalance st then currentTotalValue
    else State.peakBalance st in
  let drawdown := (peakBalance - currentTotalValue) / peakBalance in
  State.mk (State.cash st) (State.holdings st) (State.trades st)
    (State.history st ++ [HistoryEntry.mk date currentTotalValue])
    peakBalance
    (if drawdown >? State.maxDrawdown st then drawdown else State.maxDrawdown st).

Section Loop.

Variable config : StrategyConfig.t.
Variables shortSMA longSMA rsi : list number.
Variable aiSignalMap : SignalMap.t.

(** The decision of the bar at index [i]: the signal and its reason. *)
Definition decide (i : nat) (date : string) : SignalType * string :=
  if Mode_eqb (StrategyConfig.mode config) AI then
    match SignalMap.get aiSignalMap date with
    | Some aiDecision => (AiSignal.action aiDecision, AiSignal.reason aiDecision)
    | None => (HOLD, "")
    end
  else
    let prevShort := Array.get_num shortSMA (Z.of_nat i - 1) in
    let currShort := Array.get_num shortSMA (Z.of_nat i) in
    let prevLong := Array.get_num longSMA (Z.of_nat i - 1) in
    let currLong := Array.get_num longSMA (Z.of_nat i) in
    let currRSI := Array.get_num rsi (Z.of_nat i) in
    let crossoverBuy := (prevShort <=? prevLong) && (currShort >? currLong) in
    let crossoverSell := (prevShort >=? prevLong) && (currShort <? currLong) in
    let rsiBuyAllowed :=
      negb (StrategyConfig.useRsiFilter config)
      || (currRSI <? StrategyConfig.rsiOversold config) in
    let rsiSellForce :=
      StrategyConfig.useRsiFilter config
      && (currRSI >? StrategyConfig.rsiOverbought config) in
    if crossoverBuy && rsiBuyAllowed then (BUY, "")
    else if crossoverSell || rsiSellForce then (SELL, "")
    else (HOLD, "").

(** [i < Math.max(config.longWindow, config.rsiPeriod)] in ALGO mode. *)
Definition in_warmup (i : nat) : bool :=
  Mode_eqb (StrategyConfig.mode config) ALGO
  && (Z.of_nat i <? Z.max (StrategyConfig.longWindow config)
                          (StrategyConfig.rsiPeriod config))%Z.

(** One iteration of [for (let i = 0; i < data.length; i++)] on the bar
    [d = data[i]]. *)
Definition loop_body (st : State.t) (bar : nat * MarketData.t) : State.t :=
  let '(i, d) := bar in
  let price := MarketData.close d in
  let date := MarketData.date d in
  if in_warmup i then
    State.mk (State.cash st) (State.holdings st) (State.trades st)
      (State.history st ++ [HistoryEntry.mk date (State.cash st)])
      (State.peakBalance st) (State.maxDrawdown st)
  else
    let '(signal, reason) := decide i date in
    record_equity price date (execute_trade signal reason price date st).

Definition run_loop (bars : list (nat * MarketData.t)) (st : State.t) : State.t :=
  fold_left loop_body bars st.

End Loop.

Definition initial_state (config : StrategyConfig.t) : State.t :=
  State.mk (StrategyConfig.initialCapital config) zero [] []
           (StrategyConfig.initialCapital config) zero.

(** The state of the simulation after the first [n] iterations of the
    loop ([n = data.length]: after the whole loop). *)
Definition simulate (data : list MarketData.t) (config : StrategyConfig.t)
    (aiSignals : option (list AiSignal.t)) (rsi : list number) (n : nat) : State.t :=
  run_loop config
    (calculateSMA data (StrategyConfig.shortWindow config))
    (calculateSMA data (StrategyConfig.longWindow config))
    rsi
    (build_signal_map config aiSignals)
    (firstn n (Array.indexed data))
    (initial_state config).

(** The backward scan [for (let j = i - 1; j >= 0; j--)] for the matching
    buy of the trade at index [i]; [entryPrice] stays [0] when there is
    none.  ([j] never leaves the list.) *)
Fixpoint entryPrice (trades : list Trade.t) (i : nat) : number :=
  match i with
  | O => zero
  | S j =>
      match nth_error trades j with
      | Some t =>
          if SignalType_eqb (Trade.type t) BUY then Trade.price t
          else entryPrice trades j
      | None => entryPrice trades j
      end
  end.

Definition profitableTrades (trades : list Trade.t) : nat :=
  length
    (Array.filteri
       (fun t i =>
          if SignalType_eqb (Trade.type t) SELL
          then Trade.price t >? entryPrice trades i
          else false)
       trades).

Definition sellTradesCount (trades : list Trade.t) : nat :=
  length (filter (fun t => SignalType_eqb (Trade.type t) SELL) trades).

Definition winRate_of (trades : list Trade.t) : number :=
  if (0 <? sellTradesCount trades)%nat
  then (of_nat (profitableTrades trades) / of_nat (sellTradesCount trades)) * hundred
  else zero.

Definition runBacktest (data : list MarketData.t) (config : StrategyConfig.t)
    (aiSignals : option (list AiSignal.t)) : Result BacktestResult.t :=
  rsi <- calculateRSI data (StrategyConfig.rsiPeriod config) ;;
  let st := simulate data config aiSignals rsi (length data) in
  lastClose <- close_at data (Z.of_nat (length data) - 1) ;;
  let finalBalance := State.cash st + State.holdings st * lastClose in
  let totalReturn :=
    ((finalBalance - StrategyConfig.initialCapital config)
     / StrategyConfig.initialCapital config) * hundred in
  Return (BacktestResult.mk (State.trades st) finalBalance totalReturn
            (winRate_of (State.trades st))
            (State.maxDrawdown st * hundred)
            (State.history st)).

(* ================================================================== *)
(** * services/marketService.ts: symbol mapping *)
(* ================================================================== *)

Inductive Exchange : Type :=
| BINANCE
| OKX
| COINBASE.

Definition getExchangeSymbol (asset : string) (exchange : Exchange) : string :=
  match exchange with
  | OKX => String.append asset "-USDT"
  | COINBASE => String.append asset "-USD"
  | BINANCE => String.append asset "USDT"
  end.

(* ================================================================== *)
(** * components/Visualizer.tsx: chart data *)
(* ================================================================== *)

Module ChartPoint.
(** One point of the chart: the bar itself ([...d]) and what is drawn on
    it; [None] stands for [undefined]. *)
Record t : Type := mk {
  data : MarketData.t;
  shortMA : option number;
  longMA : option number;
  buySignal : option number;
  sellSignal : option number;
  tradeReason : option string
}.
End ChartPoint.

(** [results?.trades.find(t => t.date === date && t.type === ty)] *)
Definition find_trade (results : option BacktestResult.t) (date : string)
    (ty : SignalType) : option Trade.t :=
  match results with
  | Some r =>
      find (fun t => String.eqb (Trade.date t) date && SignalType_eqb (Trade.type t) ty)
           (BacktestResult.trades r)
  | None => None
  end.

(** [buyTrade?.reason || sellTrade?.reason]: [undefined] and the empty
    string are falsy. *)
Definition reason_of (buyTrade sellTrade : option Trade.t) : option string :=
  match buyTrade with
  | Some b =>
      if String.eqb (Trade.reason b) "" then option_map Trade.reason sellTrade
      else Some (Trade.reason b)
  | None => option_map Trade.reason sellTrade
  end.

Definition chartData (data : list MarketData.t) (shortMA longMA : list number)
    (results : option BacktestResult.t) : list ChartPoint.t :=
  Array.mapi
    (fun d i =>
       let buyTrade := find_trade results (MarketData.date d) BUY in
       let sellTrade := find_trade results (MarketData.date d) SELL in
       ChartPoint.mk d
         (Array.get shortMA (Z.of_nat i))
         (Array.get longMA (Z.of_nat i))
         (option_map Trade.price buyTrade)
         (option_map Trade.price sellTrade)
         (reason_of buyTrade sellTrade))
    data.


(* ================================================================== *)
(** * The engine on IEEE 754 binary64 numbers *)
(* ================================================================== *)

(** The same functions over the numbers JavaScript computes with:
    primitive binary64 floats, rounded to nearest even, overflowing to the
    infinities, with signed zeros and [NaN].  Every definition repeats the
    one above with the operations of binary64 in place of the exact ones.
    Integer configuration fields and indices are [Z], as above; [of_Z] is
    exact below [2^53]. *)
Module Binary64.

Import PrimFloat.
#[local] Set Warnings "-inexact-float".
Local Open Scope float_scope.

Definition number : Type := float.

Definition of_Z (z : Z) : number :=
  if (z <? 0)%Z then - of_uint63 (Uint63.of_Z (- z)) else of_uint63 (Uint63.of_Z z).
Definition of_nat (n : nat) : number := of_Z (Z.of_nat n).

(** [x > y] and [x >= y]; [<], [<=] and [===] are the primitive
    comparisons [<?], [<=?] and [=?]. *)
Definition gtb (x y : number) : bool := y <? x.
Definition geb (x y : number) : bool := y <=? x.
Infix ">?" := gtb (at level 70) : float_scope.
Infix ">=?" := geb (at level 70) : float_scope.

(** The value of a binary64 number in the exact model. *)
Definition to_number (x : number) : JsNum.number :=
  match FloatOps.Prim2SF x with
  | SpecFloat.S754_zero _ => JsNum.zero
  | SpecFloat.S754_infinity false => JsNum.PInf
  | SpecFloat.S754_infinity true => JsNum.NInf
  | SpecFloat.S754_nan => JsNum.NaN
  | SpecFloat.S754_finite s m e =>
      JsNum.fin ((if s then -1 else 1) * inject_Z (Z.pos m) * (2 ^ e))%Q
  end.

(** [arr[i]] read into a comparison: [undefined] converts to [NaN]. *)
Definition get_num (arr : list number) (i : Z) : number :=
  match Array.get arr i with
  | Some x => x
  | None => nan
  end.

Module MarketData.
Record t : Type := mk {
  date : string;
  close : number;
  open : number;
  high : number;
  low : number;
  volume : number
}.
End MarketData.

Module Trade.
Record t : Type := mk {
  date : string;
  type : SignalType;
  price : number;
  amount : number;
  balanceAfter : number;
  reason : string
}.
End Trade.

Module StrategyConfig.
Record t : Type := mk {
  mode : Mode;
  initialCapital : number;
  shortWindow : Z;
  longWindow : Z;
  rsiPeriod : Z;
  rsiOverbought : number;
  rsiOversold : number;
  useRsiFilter : bool
}.
End StrategyConfig.

Module HistoryEntry.
Record t : Type := mk {
  date : string;
  balance : number
}.
End HistoryEntry.

Module BacktestResult.
Record t : Type := mk {
  trades : list Trade.t;
  finalBalance : number;
  totalReturn : number;
  winRate : number;
  maxDrawdown : number;
  history : list HistoryEntry.t
}.
End BacktestResult.

Definition close_at (data : list MarketData.t) (i : Z) : Result number :=
  match Array.get data i with
  | Some d => Return (MarketData.close d)
  | None => Throw TypeError
  end.

Definition calculateSMA (data : list MarketData.t) (windowSize : Z) : list number :=
  Array.mapi
    (fun _ idx =>
       if (Z.of_nat idx <? windowSize - 1)%Z then nan
       else
         let slice :=
           Array.slice data (Z.of_nat idx - windowSize + 1) (Z.of_nat idx + 1) in
         let sum := fold_left (fun acc curr => acc + MarketData.close curr) slice 0 in
         sum / of_Z windowSize)
    data.

Definition rsi_value (avgGain avgLoss : number) : number :=
  100 - 100 / (1 + avgGain / (if avgLoss =? 0 then 1 else avgLoss)).

Definition rsi_seed_body (data : list MarketData.t) (i : Z) (acc : number * number)
  : Result (number * number) :=
  let '(gains, losses) := acc in
  ci <- close_at data i ;;
  cp <- close_at data (i - 1) ;;
  let diff := ci - cp in
  if diff >? 0 then Return (gains + diff, losses)
  else Return (gains, losses + abs diff).

Definition rsi_seed (data : list MarketData.t) (period : Z) : Result (number * number) :=
  for_each (rsi_seed_body data) (zrange 1 (period + 1)) (0, 0).

Module Rsi.
Record t : Type := mk {
  avgGain : number;
  avgLoss : number;
  rsiArray : list number
}.
End Rsi.

Definition rsi_smooth_body (data : list MarketData.t) (period : Z) (i : Z) (st : Rsi.t)
  : Result Rsi.t :=
  ci <- close_at data i ;;
  cp <- close_at data (i - 1) ;;
  let diff := ci - cp in
  let gain := if diff >? 0 then diff else 0 in
  let loss := if diff <? 0 then abs diff else 0 in
  let avgGain := (Rsi.avgGain st * of_Z (period - 1) + gain) / of_Z period in
  let avgLoss := (Rsi.avgLoss st * of_Z (period - 1) + loss) / of_Z period in
  Return (Rsi.mk avgGain avgLoss (Array.set nan (Rsi.rsiArray st) i (rsi_value avgGain avgLoss))).

Definition rsi_seeded (data : list MarketData.t) (period : Z) : Result Rsi.t :=
  let rsiArray := repeat nan (length data) in
  '(gains, losses) <- rsi_seed data period ;;
  let avgGain := gains / of_Z period in
  let avgLoss := losses / of_Z period in
  Return (Rsi.mk avgGain avgLoss (Array.set nan rsiArray period (rsi_value avgGain avgLoss))).

Definition calculateRSI (data : list MarketData.t) (period : Z) : Result (list number) :=
  let rsiArray := repeat nan (length data) in
  if (Z.of_nat (length data) <=? period)%Z then Return rsiArray
  else
    st <- rsi_seeded data period ;;
    st' <- for_each (rsi_smooth_body data period)
                    (zrange (period + 1) (Z.of_nat (length data))) st ;;
    Return (Rsi.rsiArray st').

Module State.
Record t : Type := mk {
  cash : number;
  holdings : number;
  trades : list Trade.t;
  history : list HistoryEntry.t;
  peakBalance : number;
  maxDrawdown : number
}.
End State.

(** [0.99], that is the binary64 number nearest to it. *)
Definition reserve_factor : number := 0.99.

Definition build_signal_map (config : StrategyConfig.t) (aiSignals : option (list AiSignal.t))
  : SignalMap.t :=
  match StrategyConfig.mode config, aiSignals with
  | AI, Some signals =>
      fold_left (fun m s => SignalMap.set m (AiSignal.date s) s) signals SignalMap.empty
  | _, _ => SignalMap.empty
  end.

Definition execute_trade (signal : SignalType) (reason : string)
    (price : number) (date : string) (st : State.t) : State.t :=
  let cash := State.cash st in
  let holdings := State.holdings st in
  if SignalType_eqb signal BUY && (cash >? price) then
    let amountToBuy := (cash * reserve_factor) / price in
    if amountToBuy >? 0 then
      let cost := amountToBuy * price in
      if cost <=? cash then
        let cash' := cash - cost in
        let holdings' := holdings + amountToBuy in
        State.mk cash' holdings'
          (State.trades st ++
             [Trade.mk date BUY price amountToBuy (cash' + holdings' * price)
                       (reason_or_default reason)])
          (State.history st) (State.peakBalance st) (State.maxDrawdown st)
      else st
    else st
  else if SignalType_eqb signal SELL && (holdings >? 0) then
    let cash' := cash + holdings * price in
    State.mk cash' 0
      (State.trades st ++
         [Trade.mk date SELL price holdings cash' (reason_or_default reason)])
      (State.history st) (State.peakBalance st) (State.maxDrawdown st)
  else st.

Definition record_equity (price : number) (date : string) (st : State.t) : State.t :=
  let currentTotalValue := State.cash st + State.holdings st * price in
  let peakBalance :=
    if currentTotalValue >? State.peakBalance st then currentTotalValue
    else State.peakBalance st in
  let drawdown := (peakBalance - currentTotalValue) / peakBalance in
  State.mk (State.cash st) (State.holdings st) (State.trades st)
    (State.history st ++ [HistoryEntry.mk date currentTotalValue])
    peakBalance
    (if drawdown >? State.maxDrawdown st then drawdown else State.maxDrawdown st).

Section Loop.

Variable config : StrategyConfig.t.
Variables shortSMA longSMA rsi : list number.
Variable aiSignalMap : SignalMap.t.

Definition decide (i : nat) (date : string) : SignalType * string :=
  if Mode_eqb (StrategyConfig.mode config) AI then
    match SignalMap.get aiSignalMap date with
    | Some aiDecision => (AiSignal.action aiDecision, AiSignal.reason aiDecision)
    | None => (HOLD, "")
    end
  else
    let prevShort := get_num shortSMA (Z.of_nat i - 1) in
    let currShort := get_num shortSMA (Z.of_nat i) in
    let prevLong := get_num longSMA (Z.of_nat i - 1) in
    let currLong := get_num longSMA (Z.of_nat i) in
    let currRSI := get_num rsi (Z.of_nat i) in
    let crossoverBuy := (prevShort <=? prevLong) && (currShort >? currLong) in
    let crossoverSell := (prevShort >=? prevLong) && (currShort <? currLong) in
    let rsiBuyAllowed :=
      negb (StrategyConfig.useRsiFilter config)
      || (currRSI <? StrategyConfig.rsiOversold config) in
    let rsiSellForce :=
      StrategyConfig.useRsiFilter config
      && (currRSI >? StrategyConfig.rsiOverbought config) in
    if crossoverBuy && rsiBuyAllowed then (BUY, "")
    else if crossoverSell || rsiSellForce then (SELL, "")
    else (HOLD, "").

Definition in_warmup (i : nat) : bool :=
  Mode_eqb (StrategyConfig.mode config) ALGO
  && (Z.of_nat i <? Z.max (StrategyConfig.longWindow config)
                          (StrategyConfig.rsiPeriod config))%Z.

Definition loop_body (st : State.t) (bar : nat * MarketData.t) : State.t :=
  let '(i, d) := bar in
  let price := MarketData.close d in
  let date := MarketData.date d in
  if in_warmup i then
    State.mk (State.cash st) (State.holdings st) (State.trades st)
      (State.history st ++ [HistoryEntry.mk date (State.cash st)])
      (State.peakBalance st) (State.maxDrawdown st)
  else
    let '(signal, reason) := decide i date in
    record_equity price date (execute_trade signal reason price date st).

Definition run_loop (bars : list (nat * MarketData.t)) (st : State.t) : State.t :=
  fold_left loop_body bars st.

End Loop.

Definition initial_state (config : StrategyConfig.t) : State.t :=
  State.mk (StrategyConfig.initialCapital config) 0 [] []
           (StrategyConfig.initialCapital config) 0.

Definition simulate (data : list MarketData.t) (config : StrategyConfig.t)
    (aiSignals : option (list AiSignal.t)) (rsi : list number) (n : nat) : State.t :=
  run_loop config
    (calculateSMA data (StrategyConfig.shortWindow config))
    (calculateSMA data (StrategyConfig.longWindow config))
    rsi
    (build_signal_map config aiSignals)
    (firstn n (Array.indexed data))
    (initial_state config).

Fixpoint entryPrice (trades : list Trade.t) (i : nat) : number :=
  match i with
  | O => 0
  | S j =>
      match nth_error trades j with
      | Some t =>
          if SignalType_eqb (Trade.type t) BUY then Trade.price t
          else entryPrice trades j
      | None => entryPrice trades j
      end
  end.

Definition profitableTrades (trades : list Trade.t) : nat :=
  length
    (Array.filteri
       (fun t i =>
          if SignalType_eqb (Trade.type t) SELL
          then Trade.price t >? entryPrice trades i
          else false)
       trades).

Definition sellTradesCount (trades : list Trade.t) : nat :=
  length (filter (fun t => SignalType_eqb (Trade.type t) SELL) trades).

Definition winRate_of (trades : list Trade.t) : number :=
  if (0 <? sellTradesCount trades)%nat
  then (of_nat (profitableTrades trades) / of_nat (sellTradesCount trades)) * 100
  else 0.

Definition runBacktest (data : list MarketData.t) (config : StrategyConfig.t)
    (aiSignals : option (list AiSignal.t)) : Result BacktestResult.t :=
  rsi <- calculateRSI data (StrategyConfig.rsiPeriod config) ;;
  let st := simulate data config aiSignals rsi (length data) in
  lastClose <- close_at data (Z.of_nat (length data) - 1) ;;
  let finalBalance := State.cash st + State.holdings st * lastClose in
  let totalReturn :=
    ((finalBalance - StrategyConfig.initialCapital config)
     / StrategyConfig.initialCapital config) * 100 in
  Return (BacktestResult.mk (State.trades st) finalBalance totalReturn
            (winRate_of (State.trades st))
            (State.maxDrawdown st * 100)
            (State.history st)).

(** ** Vocabulary of the specification on binary64 numbers *)

(** [x >= 0] as a proposition. *)
Definition nonneg (x : number) : Prop := (0 <=? x) = true.

Definition nonneg_closes (data : list MarketData.t) : Prop :=
  Forall (fun d => nonneg (MarketData.close d)) data.

(** The close at index [k] ([NaN] off the series). *)
Definition close_num (data : list MarketData.t) (k : nat) : number :=
  match nth_error data k with
  | Some d => MarketData.close d
  | None => nan
  end.

(** The closes at the [w] indices [i-w+1], ..., [i], added one by one to
    [0] in index order. *)
Definition window_sum (data : list MarketData.t) (i w : nat) : number :=
  fold_left (fun acc k => acc + close_num data k) (seq (i + 1 - w) w) 0.

(** The amount a BUY asks for, and what it costs. *)
Definition amount_to_buy (cash price : number) : number :=
  (cash * reserve_factor) / price.
Definition cost_of (cash price : number) : number :=
  amount_to_buy cash price * price.

(** The three guards of a purchase. *)
Definition purchase_made (cash price : number) : bool :=
  (cash >? price) && (amount_to_buy cash price >? 0) && (cost_of cash price <=? cash).

(** ** Sample inputs on binary64 numbers *)

(** A bar whose four prices are all [c], with no volume. *)
Definition bar (date : string) (c : number) : MarketData.t :=
  MarketData.mk date c c c c 0.

(** Rule mode, thresholds 70 and 30, no RSI filter. *)
Definition algo_config (initialCapital : number) (shortWindow longWindow rsiPeriod : Z)
  : StrategyConfig.t :=
  StrategyConfig.mk ALGO initialCapital shortWindow longWindow rsiPeriod 70 30 false.

(** The same configuration in AI mode. *)
Definition ai_config (initialCapital : number) (shortWindow longWindow rsiPeriod : Z)
  : StrategyConfig.t :=
  StrategyConfig.mk AI initialCapital shortWindow longWindow rsiPeriod 70 30 false.

Definition thousand : number := 1000.

Definition closes_10_to_40 : list MarketData.t :=
  [bar "2024-01-01" 10; bar "2024-01-02" 20; bar "2024-01-03" 30; bar "2024-01-04" 40].

(** Three closes of [0.1]. *)
Definition tenths : list MarketData.t :=
  [bar "2024-01-01" 0.1; bar "2024-01-02" 0.1; bar "2024-01-03" 0.1].

(** Prices that dip to zero right at a golden cross of the 2-bar average
    over the 3-bar average (bar 4). *)
Definition zero_close_cross : list MarketData.t :=
  [bar "2024-01-01" 1; bar "2024-01-02" 1; bar "2024-01-03" 0;
   bar "2024-01-04" 2; bar "2024-01-05" 0].

(** One bar at 7 and the signal to buy it. *)
Definition bar_at_seven : MarketData.t := bar "2024-01-01" 7.
Definition buy_signal : list AiSignal.t := [AiSignal.mk "2024-01-01" BUY "dip"].

(** A tiny close, a large one, an ordinary one, bought, sold and bought
    again. *)
Definition tiny_large_one : list MarketData.t :=
  [bar "2024-01-01" 1e-300; bar "2024-01-02" 1e10; bar "2024-01-03" 1].
Definition buy_sell_buy : list AiSignal.t :=
  [AiSignal.mk "2024-01-01" BUY "dip"; AiSignal.mk "2024-01-02" SELL "peak";
   AiSignal.mk "2024-01-03" BUY "dip"].

End Binary64.

(** Arithmetic of binary64 in statements. *)
Declare Scope b64_scope.
Delimit Scope b64_scope with b64.
Infix "+" := PrimFloat.add : b64_scope.
Infix "-" := PrimFloat.sub : b64_scope.
Infix "*" := PrimFloat.mul : b64_scope.
Infix "/" := PrimFloat.div : b64_scope.
Infix "<?" := PrimFloat.ltb : b64_scope.
Infix "<=?" := PrimFloat.leb : b64_scope.
Infix "=?" := PrimFloat.eqb : b64_scope.
Infix ">?" := Binary64.gtb (at level 70) : b64_scope.

(* ================================================================== *)
(** * Vocabulary of the specification *)
(* ================================================================== *)

(** ** Series and configurations *)

(** [x >= 0] as a proposition. *)
Definition nonneg (x : number) : Prop := (zero <=? x) = true.

(** The close of a bar as a rational (meaningful on finite closes). *)
Definition close_q (d : MarketData.t) : Q :=
  match MarketData.close d with
  | Fin q => q
  | _ => 0%Q
  end.

(** The close at index [k] as a rational. *)
Definition close_nth (data : list MarketData.t) (k : nat) : Q :=
  match nth_error data k with
  | Some d => close_q d
  | None => 0%Q
  end.

(** The close at index [k] as a number ([NaN] off the series). *)
Definition close_num (data : list MarketData.t) (k : nat) : number :=
  match nth_error data k with
  | Some d => MarketData.close d
  | None => NaN
  end.

(** [x] is not negative: a real number that is at least 0, [Infinity],
    or [NaN]. *)
Definition not_negative (x : number) : Prop := (x <? zero) = false.

(** [NaN], or a real number between 0 and 100. *)
Definition percentage_or_NaN (x : number) : Prop :=
  is_nan x \/ exists q, x = Fin q /\ (0 <= q <= 100)%Q.

(** The closes are real numbers. *)
Definition finite_closes (data : list MarketData.t) : Prop :=
  Forall (fun d => is_finite (MarketData.close d)) data.

Definition nonneg_closes (data : list MarketData.t) : Prop :=
  Forall (fun d => nonneg (MarketData.close d)) data.

(** A bar whose close is a real number that is not negative. *)
Definition priced (d : MarketData.t) : Prop :=
  exists p, MarketData.close d = Fin p /\ (0 <= p)%Q.

(** Each close is above the one before. *)
Definition strictly_rising (data : list MarketData.t) : Prop :=
  forall i d d',
    nth_error data i = Some d -> nth_error data (S i) = Some d' ->
    (MarketData.close d <? MarketData.close d') = true.

(** The configuration constraints of the specification. *)
Definition valid_config (config : StrategyConfig.t) : Prop :=
  (zero <? StrategyConfig.initialCapital config) = true /\
  (0 < StrategyConfig.shortWindow config)%Z /\
  (0 < StrategyConfig.longWindow config)%Z /\
  (0 < StrategyConfig.rsiPeriod config)%Z.

(** ** Moving average *)

(** Sum of rationals. *)
Definition Qsum (xs : list Q) : Q := fold_right Qplus 0%Q xs.

(** The closes at the [n] indices [lo, lo+1, ..., lo+n-1]. *)
Definition closes_between (data : list MarketData.t) (lo n : nat) : list Q :=
  map (close_nth data) (seq lo n).

(** The arithmetic mean of the closes at indices [i-w+1] through [i]. *)
Definition mean_close (data : list MarketData.t) (i w : nat) : Q :=
  (Qsum (closes_between data (i + 1 - w) w) / inject_Z (Z.of_nat w))%Q.

(** ** RSI on a rising series, period 2 *)

(** The average gain that [calculateRSI] computes with period 2, [k]
    steps after the seed: the first two day-over-day gains added to [0]
    and divided by 2, then [(avgGain * (2 - 1) + gain) / 2]. *)
Fixpoint average_gain (data : list MarketData.t) (k : nat) : number :=
  match k with
  | O => (zero + (close_num data 1 - close_num data 0)
               + (close_num data 2 - close_num data 1)) / of_Z 2
  | S k' =>
      (average_gain data k' * of_Z (2 - 1)
       + (close_num data (k' + 3) - close_num data (k' + 2))) / of_Z 2
  end.

(** The state of the smoothing loop of [calculateRSI data 2] on a rising
    series once index [i] is written: no loss so far, the average gain of
    index [i], above 0, and up to [i] the RSI values
    [100 - 100 / (1 + avgGain / 1)]. *)
Definition rsi_rising_state (data : list MarketData.t) (i : nat) (st : Rsi.t) : Prop :=
  Rsi.avgLoss st = zero /\
  Rsi.avgGain st = average_gain data (i - 2) /\
  (Rsi.avgGain st >? zero) = true /\
  length (Rsi.rsiArray st) = length data /\
  (forall j, (j < 2)%nat -> nth_error (Rsi.rsiArray st) j = Some NaN) /\
  (forall j, (2 <= j <= i)%nat ->
     nth_error (Rsi.rsiArray st) j
     = Some (hundred - hundred / (one + average_gain data (j - 2) / one)) /\
     exists q, nth_error (Rsi.rsiArray st) j = Some (Fin q) /\ (0 <= q <= 100)%Q).

(** ** Trades and win rate *)


(** Two consecutive trades of the list have the type [ty]. *)
Definition consecutive (ty : SignalType) (trades : list Trade.t) : Prop :=
  exists before a b after,
    trades = before ++ a :: b :: after /\ Trade.type a = ty /\ Trade.type b = ty.





(** ** Invariants of the simulation *)

(** The trade list has no two consecutive SELLs, and right after a SELL
    nothing is held. *)
Definition position_invariant (st : State.t) : Prop :=
  ~ consecutive SELL (State.trades st) /\
  (forall ts t, State.trades st = ts ++ [t] -> Trade.type t = SELL ->
                State.holdings st = zero).


(** Cash and holdings are finite and not negative. *)
Definition solvent (st : State.t) : Prop :=
  exists c h,
    State.cash st = Fin c /\ State.holdings st = Fin h /\ (0 <= c)%Q /\ (0 <= h)%Q.

(** Nothing is owed: the cash is not negative (it may be [NaN]) and the
    holdings are at least 0. *)
Definition never_short (st : State.t) : Prop :=
  not_negative (State.cash st) /\ nonneg (State.holdings st).

(** Every entry is [NaN] or [0]: what [calculateSMA] gives for a window
    that is not positive. *)
Definition undefined_or_zero (arr : list number) : Prop :=
  Forall (fun x => x = NaN \/ x = zero) arr.

(** ** Binary64 inputs in the exact model *)

(** The bar with the same values, as real numbers. *)
Definition to_exact (d : Binary64.MarketData.t) : MarketData.t :=
  MarketData.mk (Binary64.MarketData.date d)
    (Binary64.to_number (Binary64.MarketData.close d))
    (Binary64.to_number (Binary64.MarketData.open d))
    (Binary64.to_number (Binary64.MarketData.high d))
    (Binary64.to_number (Binary64.MarketData.low d))
    (Binary64.to_number (Binary64.MarketData.volume d)).

(** The binary64 number nearest to one tenth. *)
Definition binary64_tenth : Q := 3602879701896397 # 36028797018963968.

(** ** Sample inputs *)

(** A bar whose four prices are all [c], with no volume. *)
Definition bar (date : string) (c : Q) : MarketData.t :=
  MarketData.mk date (Fin c) (Fin c) (Fin c) (Fin c) zero.

(** Rule mode, thresholds 70 and 30, no RSI filter. *)
Definition algo_config (initialCapital : Q) (shortWindow longWindow rsiPeriod : Z)
  : StrategyConfig.t :=
  StrategyConfig.mk ALGO (Fin initialCapital) shortWindow longWindow rsiPeriod
                    (Fin 70) (Fin 30) false.

(** Capital [0], windows [0] and [-1], RSI period [0]. *)
Definition degenerate_config : StrategyConfig.t := algo_config 0 0 (-1) 0.

Definition one_bar : list MarketData.t := [bar "2024-01-01" 5].

Definition rising4 : list MarketData.t :=
  [bar "2024-01-01" 1; bar "2024-01-02" 2; bar "2024-01-03" 3; bar "2024-01-04" 4].

Definition closes_10_to_40 : list MarketData.t :=
  [bar "2024-01-01" 10; bar "2024-01-02" 20; bar "2024-01-03" 30; bar "2024-01-04" 40].

(** Flat, up, flat, up: two golden crosses of the 1-bar average over the
    2-bar average (bars 2 and 4) with no death cross in between. *)
Definition two_crosses : list MarketData.t :=
  [bar "2024-01-01" 1; bar "2024-01-02" 1; bar "2024-01-03" 2;
   bar "2024-01-04" 2; bar "2024-01-05" 3].

(** A golden cross at price 2 followed by a death cross at price 1. *)
Definition up_and_down : list MarketData.t :=
  [bar "2024-01-01" 1; bar "2024-01-02" 1; bar "2024-01-03" 2;
   bar "2024-01-04" 2; bar "2024-01-05" 1].

(** A golden cross at price 2 followed by a death cross at price 3. *)
Definition round_trip : list MarketData.t :=
  [bar "2024-01-01" 1; bar "2024-01-02" 1; bar "2024-01-03" 2;
   bar "2024-01-04" 4; bar "2024-01-05" 3].

(** Prices that dip to zero right at a golden cross of the 2-bar average
    over the 3-bar average (bar 4). *)
Definition zero_close_cross : list MarketData.t :=
  [bar "2024-01-01" 1; bar "2024-01-02" 1; bar "2024-01-03" 0;
   bar "2024-01-04" 2; bar "2024-01-05" 0].

(** ** Vocabulary of the further properties *)

(** [s] is obtained from [l] by dropping elements, the order kept. *)
Inductive subseq {A : Type} : list A -> list A -> Prop :=
| subseq_nil : forall l, subseq [] l
| subseq_take : forall x s l, subseq s l -> subseq (x :: s) (x :: l)
| subseq_skip : forall x s l, subseq s l -> subseq s (x :: l).

(** Where and at what price a trade was made. *)
Definition trade_key (t : Trade.t) : string * number := (Trade.date t, Trade.price t).

(** Date and close of a bar. *)
Definition bar_key (d : MarketData.t) : string * number :=
  (MarketData.date d, MarketData.close d).

(** A recorded trade is a BUY or a SELL and carries a reason. *)
Definition well_formed_trade (t : Trade.t) : Prop :=
  (Trade.type t = BUY \/ Trade.type t = SELL) /\ Trade.reason t <> "".

(** A solvent state whose peak is at least the capital [c0 > 0] and whose
    drawdown is a fraction between 0 and 1. *)
Definition drawdown_bounded (c0 : Q) (st : State.t) : Prop :=
  solvent st /\
  (exists p, State.peakBalance st = Fin p /\ (c0 <= p)%Q) /\
  (exists m, State.maxDrawdown st = Fin m /\ (0 <= m <= 1)%Q).

(** The same configuration in AI mode. *)
Definition ai_config (initialCapital : Q) (shortWindow longWindow rsiPeriod : Z)
  : StrategyConfig.t :=
  StrategyConfig.mk AI (Fin initialCapital) shortWindow longWindow rsiPeriod
                    (Fin 70) (Fin 30) false.

(** Two signals for the same day, then one for a day off the series. *)
Definition sample_signals : list AiSignal.t :=
  [AiSignal.mk "2024-01-03" SELL "first thought";
   AiSignal.mk "2024-01-03" BUY "second thought";
   AiSignal.mk "2023-12-31" BUY "too early"].


(** No close is above the one before. *)
Definition never_rising (data : list MarketData.t) : Prop :=
  forall i, (S i < length data)%nat -> (close_nth data (S i) <= close_nth data i)%Q.

(** The loop of [calculateRSI] before index [k] on a series that never
    rises: the average gain is 0, the average loss is real and not
    negative, and every entry from [period] up to [k] (excluded) is 0. *)
Definition rsi_no_gain_state (data : list MarketData.t) (period : Z) (k : nat)
    (st : Rsi.t) : Prop :=
  (exists g, Rsi.avgGain st = Fin g /\ (g == 0)%Q) /\
  (exists l, Rsi.avgLoss st = Fin l /\ (0 <= l)%Q) /\
  length (Rsi.rsiArray st) = length data /\
  (forall j, (period <= Z.of_nat j)%Z -> (j < k)%nat ->
     exists q, nth_error (Rsi.rsiArray st) j = Some (Fin q) /\ (q == 0)%Q).

(** Five closes that never rise. *)
Definition sliding : list MarketData.t :=
  [bar "2024-01-01" 9; bar "2024-01-02" 9; bar "2024-01-03" 7;
   bar "2024-01-04" 4; bar "2024-01-05" 4].


(* ================================================================== *)
(** * Properties *)
(* ================================================================== *)

(** ** The error monad and the loops *)

Lemma bind_Return_inv {A B : Type} (m : Result A) (k : A -> Result B) (b : B) :
  bind m k = Return b -> exists a, m = Return a /\ k a = Return b.
Proof.
  destruct m as [a|e]; simpl; intros H.
  - exists a. split; [reflexivity | exact H].
  - discriminate H.
Qed.

Lemma for_each_total {I S : Type} (body : I -> S -> Result S) (idxs : list I) :
  (forall i s, In i idxs -> exists s', body i s = Return s') ->
  forall s, exists s', for_each body idxs s = Return s'.
Proof.
  induction idxs as [|i idxs IH]; intros Hbody s; simpl.
  - exists s. reflexivity.
  - destruct (Hbody i s (or_introl eq_refl)) as [s1 H1].
    rewrite H1. simpl. apply IH.
    intros j t Hj. apply Hbody. right. exact Hj.
Qed.

Lemma for_each_invariant {I S : Type} (P : S -> Prop) (body : I -> S -> Result S)
    (idxs : list I) :
  (forall i s s', In i idxs -> P s -> body i s = Return s' -> P s') ->
  forall s s', P s -> for_each body idxs s = Return s' -> P s'.
Proof.
  induction idxs as [|i idxs IH]; intros Hbody s s' Hs Hrun; simpl in Hrun.
  - inversion Hrun. subst. exact Hs.
  - apply bind_Return_inv in Hrun. destruct Hrun as [s1 [H1 H2]].
    apply (IH (fun j t t' Hj => Hbody j t t' (or_intror Hj)) s1 s').
    + apply (Hbody i s s1); [left; reflexivity | exact Hs | exact H1].
    + exact H2.
Qed.

Lemma in_zrange (lo hi i : Z) : In i (zrange lo hi) <-> (lo <= i < hi)%Z.
Proof.
  unfold zrange. rewrite in_map_iff. split.
  - intros [k [Hk Hin]]. apply in_seq in Hin. lia.
  - intros H. exists (Z.to_nat (i - lo)). split; [lia|]. apply in_seq. lia.
Qed.

Lemma zrange_empty (lo hi : Z) : (hi <= lo)%Z -> zrange lo hi = [].
Proof.
  intros H. unfold zrange. replace (Z.to_nat (hi - lo)) with 0%nat by lia. reflexivity.
Qed.

Lemma zrange_cons (lo hi : Z) : (lo < hi)%Z -> zrange lo hi = lo :: zrange (lo + 1) hi.
Proof.
  intros H. unfold zrange.
  replace (Z.to_nat (hi - lo)) with (S (Z.to_nat (hi - (lo + 1)))) by lia.
  simpl. f_equal; [lia|].
  rewrite <- seq_shift, map_map. apply map_ext. intros k. lia.
Qed.

(** ** Arrays *)

Lemma get_in_range {A : Type} (arr : list A) (i : nat) :
  Array.get arr (Z.of_nat i) = nth_error arr i.
Proof.
  unfold Array.get. destruct (Z.ltb_spec (Z.of_nat i) 0); [lia|].
  rewrite Nat2Z.id. reflexivity.
Qed.

Lemma get_negative {A : Type} (arr : list A) (i : Z) :
  (i < 0)%Z -> Array.get arr i = None.
Proof.
  intros H. unfold Array.get. destruct (Z.ltb_spec i 0); [reflexivity | lia].
Qed.

Lemma close_at_in_range (data : list MarketData.t) (i : Z) :
  (0 <= i < Z.of_nat (length data))%Z ->
  exists d, nth_error data (Z.to_nat i) = Some d /\
            close_at data i = Return (MarketData.close d).
Proof.
  intros H. unfold close_at, Array.get.
  destruct (Z.ltb_spec i 0) as [Hneg|_]; [lia|].
  destruct (nth_error data (Z.to_nat i)) as [d|] eqn:E.
  - exists d. split; reflexivity.
  - apply nth_error_None in E. lia.
Qed.

Lemma close_at_negative (data : list MarketData.t) (i : Z) :
  (i < 0)%Z -> close_at data i = Throw TypeError.
Proof.
  intros H. unfold close_at. rewrite get_negative by exact H. reflexivity.
Qed.

Lemma nth_error_indexed_from {A : Type} (arr : list A) (s i : nat) (x : A) :
  nth_error arr i = Some x ->
  nth_error (combine (seq s (length arr)) arr) i = Some ((s + i)%nat, x).
Proof.
  revert s i. induction arr as [|y arr IH]; intros s i H.
  - destruct i; discriminate H.
  - destruct i as [|i]; simpl in *.
    + inversion H. subst. f_equal. f_equal. lia.
    + rewrite (IH (S s) i H). f_equal. f_equal. lia.
Qed.

Lemma nth_error_indexed {A : Type} (arr : list A) (i : nat) (x : A) :
  nth_error arr i = Some x -> nth_error (Array.indexed arr) i = Some (i, x).
Proof.
  intros H. unfold Array.indexed. rewrite (nth_error_indexed_from arr 0 i H). reflexivity.
Qed.

Lemma indexed_length {A : Type} (arr : list A) :
  length (Array.indexed arr) = length arr.
Proof.
  unfold Array.indexed. rewrite length_combine, length_seq. lia.
Qed.

Lemma map_snd_indexed {A : Type} (arr : list A) : map snd (Array.indexed arr) = arr.
Proof.
  unfold Array.indexed. generalize 0%nat.
  induction arr as [|x arr IH]; intros s; simpl; [reflexivity|].
  rewrite IH. reflexivity.
Qed.

Lemma firstn_snoc {A : Type} (l : list A) (i : nat) (x : A) :
  nth_error l i = Some x -> firstn (S i) l = firstn i l ++ [x].
Proof.
  revert i. induction l as [|y l IH]; intros i H.
  - destruct i; discriminate H.
  - destruct i as [|i]; simpl in *.
    + inversion H. reflexivity.
    + rewrite (IH i H). reflexivity.
Qed.

(** ** calculateRSI: when it returns and when it throws *)

Lemma rsi_seed_body_total (data : list MarketData.t) (i : Z) (acc : number * number) :
  (1 <= i < Z.of_nat (length data))%Z ->
  exists acc', rsi_seed_body data i acc = Return acc'.
Proof.
  intros H. destruct acc as [gains losses]. unfold rsi_seed_body.
  destruct (@close_at_in_range data i) as [d [_ Hd]]; [lia|].
  destruct (@close_at_in_range data (i - 1)) as [d' [_ Hd']]; [lia|].
  rewrite Hd, Hd'. simpl.
  destruct (_ >? _); eexists; reflexivity.
Qed.

Lemma rsi_smooth_body_total (data : list MarketData.t) (period i : Z) (st : Rsi.t) :
  (1 <= i < Z.of_nat (length data))%Z ->
  exists st', rsi_smooth_body data period i st = Return st'.
Proof.
  intros H. unfold rsi_smooth_body.
  destruct (@close_at_in_range data i) as [d [_ Hd]]; [lia|].
  destruct (@close_at_in_range data (i - 1)) as [d' [_ Hd']]; [lia|].
  rewrite Hd, Hd'. simpl. eexists; reflexivity.
Qed.

Lemma rsi_seeded_total (data : list MarketData.t) (period : Z) :
  (period < Z.of_nat (length data))%Z ->
  exists st, rsi_seeded data period = Return st.
Proof.
  intros H. unfold rsi_seeded, rsi_seed.
  destruct (@for_each_total _ _ (rsi_seed_body data) (zrange 1 (period + 1)))
    with (s := (zero, zero)) as [[gains losses] Hseed].
  - intros i acc Hi. apply in_zrange in Hi. apply rsi_seed_body_total. lia.
  - rewrite Hseed. simpl. eexists; reflexivity.
Qed.

Lemma calculateRSI_total (data : list MarketData.t) (period : Z) :
  (0 <= period)%Z -> exists rsi, calculateRSI data period = Return rsi.
Proof.
  intros Hp. unfold calculateRSI.
  destruct (Z.leb_spec (Z.of_nat (length data)) period) as [Hle|Hlt].
  - eexists; reflexivity.
  - destruct (rsi_seeded_total data Hlt) as [st Hst]. rewrite Hst. simpl.
    destruct (@for_each_total _ _ (rsi_smooth_body data period)
                (zrange (period + 1) (Z.of_nat (length data)))) with (s := st)
      as [st' Hst'].
    + intros i s Hi. apply in_zrange in Hi. apply rsi_smooth_body_total. lia.
    + rewrite Hst'. simpl. eexists; reflexivity.
Qed.

Lemma rsi_smooth_body_throws (data : list MarketData.t) (period i : Z) (st : Rsi.t) :
  (i <= 0)%Z -> rsi_smooth_body data period i st = Throw TypeError.
Proof.
  intros H. unfold rsi_smooth_body.
  destruct (close_at data i) as [ci|e] eqn:Ei; cbn [bind].
  - rewrite close_at_negative by lia. reflexivity.
  - destruct e. reflexivity.
Qed.

Lemma calculateRSI_negative_period (data : list MarketData.t) (period : Z) :
  (period < 0)%Z -> data <> [] -> calculateRSI data period = Throw TypeError.
Proof.
  intros Hp Hne. unfold calculateRSI.
  assert (Hlen : (0 < Z.of_nat (length data))%Z).
  { destruct data; [congruence | simpl; lia]. }
  destruct (Z.leb_spec (Z.of_nat (length data)) period) as [Hle|Hlt]; [lia|].
  destruct (rsi_seeded_total data Hlt) as [st Hst]. rewrite Hst. cbn [bind].
  rewrite zrange_cons by lia. cbn [for_each].
  rewrite rsi_smooth_body_throws by lia. reflexivity.
Qed.

(** ** The simulation loop *)

Section LoopFacts.

Variable config : StrategyConfig.t.
Variables shortSMA longSMA rsi : list number.
Variable aiSignalMap : SignalMap.t.

Local Abbreviation body := (loop_body config shortSMA longSMA rsi aiSignalMap).
Local Abbreviation loop := (run_loop config shortSMA longSMA rsi aiSignalMap).

Lemma run_loop_app (bars1 bars2 : list (nat * MarketData.t)) (st : State.t) :
  loop (bars1 ++ bars2) st = loop bars2 (loop bars1 st).
Proof. unfold run_loop. apply fold_left_app. Qed.

Lemma execute_trade_history signal reason price date (st : State.t) :
  State.history (execute_trade signal reason price date st) = State.history st.
Proof.
  unfold execute_trade.
  repeat match goal with |- context [if ?c then _ else _] => destruct c end;
    reflexivity.
Qed.

Lemma loop_body_history (st : State.t) (bar : nat * MarketData.t) :
  exists balance,
    State.history (body st bar) =
    State.history st ++ [HistoryEntry.mk (MarketData.date (snd bar)) balance].
Proof.
  destruct bar as [i d]. unfold loop_body.
  destruct (in_warmup config i).
  - eexists. reflexivity.
  - destruct (decide config shortSMA longSMA rsi aiSignalMap i (MarketData.date d))
      as [signal reason].
    unfold record_equity. simpl. rewrite execute_trade_history.
    eexists. reflexivity.
Qed.

Lemma run_loop_history_dates (bars : list (nat * MarketData.t)) (st : State.t) :
  map HistoryEntry.date (State.history (loop bars st)) =
  map HistoryEntry.date (State.history st)
    ++ map (fun bar => MarketData.date (snd bar)) bars.
Proof.
  revert st. induction bars as [|bar bars IH]; intros st.
  - simpl. rewrite app_nil_r. reflexivity.
  - unfold run_loop in *. simpl. rewrite IH.
    destruct (loop_body_history st bar) as [balance Hb]. rewrite Hb.
    rewrite map_app, <- app_assoc. reflexivity.
Qed.

Lemma run_loop_history_prefix (bars : list (nat * MarketData.t)) (st : State.t) :
  exists more, State.history (loop bars st) = State.history st ++ more.
Proof.
  revert st. induction bars as [|bar bars IH]; intros st.
  - exists []. simpl. rewrite app_nil_r. reflexivity.
  - unfold run_loop in *. simpl.
    destruct (IH (body st bar)) as [more Hmore].
    destruct (loop_body_history st bar) as [balance Hb].
    rewrite Hmore, Hb, <- app_assoc. eexists. reflexivity.
Qed.

End LoopFacts.

Lemma simulate_S data config aiSignals rsi (i : nat) (d : MarketData.t) :
  nth_error data i = Some d ->
  simulate data config aiSignals rsi (S i) =
  loop_body config
    (calculateSMA data (StrategyConfig.shortWindow config))
    (calculateSMA data (StrategyConfig.longWindow config))
    rsi (build_signal_map config aiSignals)
    (simulate data config aiSignals rsi i) (i, d).
Proof.
  intros H. unfold simulate.
  rewrite (firstn_snoc _ _ (nth_error_indexed _ _ H)).
  rewrite run_loop_app. reflexivity.
Qed.

Lemma simulate_history_dates data config aiSignals rsi :
  map HistoryEntry.date
      (State.history (simulate data config aiSignals rsi (length data)))
  = map MarketData.date data.
Proof.
  unfold simulate. rewrite run_loop_history_dates. simpl.
  rewrite <- (indexed_length data), firstn_all.
  rewrite <- (map_map snd MarketData.date), map_snd_indexed. reflexivity.
Qed.

(** The history after [n] iterations is a prefix of the final history. *)
Lemma simulate_history_prefix data config aiSignals rsi (n : nat) :
  exists more,
    State.history (simulate data config aiSignals rsi (length data)) =
    State.history (simulate data config aiSignals rsi n) ++ more.
Proof.
  unfold simulate.
  assert (E : firstn (length data) (Array.indexed data) =
              firstn n (Array.indexed data) ++ skipn n (Array.indexed data)).
  { rewrite firstn_skipn, <- (indexed_length data). apply firstn_all. }
  rewrite E, run_loop_app. apply run_loop_history_prefix.
Qed.

(** What [runBacktest] returns, in terms of the final loop state. *)
Lemma runBacktest_Return_inv data config aiSignals (r : BacktestResult.t) :
  runBacktest data config aiSignals = Return r ->
  exists rsi,
    calculateRSI data (StrategyConfig.rsiPeriod config) = Return rsi /\
    BacktestResult.trades r =
      State.trades (simulate data config aiSignals rsi (length data)) /\
    BacktestResult.history r =
      State.history (simulate data config aiSignals rsi (length data)) /\
    BacktestResult.winRate r = winRate_of (BacktestResult.trades r).
Proof.
  unfold runBacktest. intros H.
  apply bind_Return_inv in H. destruct H as [rsi [Hrsi H]].
  apply bind_Return_inv in H. destruct H as [lastClose [_ H]].
  inversion H. subst r. simpl. exists rsi. repeat split; assumption || reflexivity.
Qed.

Lemma runBacktest_total data config aiSignals :
  data <> [] -> (0 <= StrategyConfig.rsiPeriod config)%Z ->
  exists r, runBacktest data config aiSignals = Return r.
Proof.
  intros Hne Hp. unfold runBacktest.
  destruct (calculateRSI_total data Hp) as [rsi Hrsi]. rewrite Hrsi. simpl.
  assert (Hlast : (0 <= Z.of_nat (length data) - 1 < Z.of_nat (length data))%Z).
  { destruct data; [congruence | simpl length; lia]. }
  destruct (close_at_in_range data Hlast) as [d [_ Hd]].
  rewrite Hd. cbn [bind]. eexists; reflexivity.
Qed.

(** ** While the indicators warm up *)

Lemma in_warmup_true (config : StrategyConfig.t) (i : nat) :
  StrategyConfig.mode config = ALGO ->
  (Z.of_nat i < Z.max (StrategyConfig.longWindow config)
                      (StrategyConfig.rsiPeriod config))%Z ->
  in_warmup config i = true.
Proof.
  intros Hmode Hi. unfold in_warmup. rewrite Hmode. simpl.
  apply Z.ltb_lt. exact Hi.
Qed.

(** Up to the end of the warm-up the state is the initial one, but for the
    history, which holds the initial capital at every bar. *)
Lemma warmup_state data config aiSignals rsi (n : nat) :
  StrategyConfig.mode config = ALGO ->
  (n <= length data)%nat ->
  (Z.of_nat n <= Z.max (StrategyConfig.longWindow config)
                       (StrategyConfig.rsiPeriod config))%Z ->
  simulate data config aiSignals rsi n =
  State.mk (StrategyConfig.initialCapital config) zero []
    (map (fun d => HistoryEntry.mk (MarketData.date d)
                     (StrategyConfig.initialCapital config))
         (firstn n data))
    (StrategyConfig.initialCapital config) zero.
Proof.
  intros Hmode. induction n as [|k IH]; intros Hlen Hwarm.
  - reflexivity.
  - destruct (nth_error data k) as [d|] eqn:Ed.
    2:{ apply nth_error_None in Ed. lia. }
    rewrite (simulate_S _ _ _ _ _ Ed), IH by lia.
    unfold loop_body. rewrite in_warmup_true by (assumption || lia).
    rewrite (firstn_snoc _ _ Ed), map_app. reflexivity.
Qed.

(* ------------------------------------------------------------------ *)
(** ** Empty series *)

(** C2, as the specification words it, fails: on the empty series
    [runBacktest] raises an exception, but it is not one named
    [InvalidInput]. *)
Lemma C2_no_InvalidInput_error :
  runBacktest [] (algo_config 1000 2 3 14) None = Throw TypeError /\
  ~ exists e,
      runBacktest [] (algo_config 1000 2 3 14) None = Throw e /\
      error_name e = "InvalidInput".
Proof.
  split.
  - vm_compute. reflexivity.
  - intros [e [_ Hname]]. destruct e. discriminate Hname.
Qed.

(** C2 (amended): on the empty series [runBacktest] never returns a
    [BacktestResult], whatever the configuration and the signals: it raises
    the runtime's [TypeError], either in [calculateRSI] (period below [-1])
    or on reading the close of the missing last bar. *)
Theorem C2_empty_series_throws_TypeError :
  forall (config : StrategyConfig.t) (aiSignals : option (list AiSignal.t)),
    runBacktest [] config aiSignals = Throw TypeError.
Proof.
  intros config aiSignals. unfold runBacktest.
  destruct (calculateRSI [] (StrategyConfig.rsiPeriod config)) as [rsi|e]; cbn [bind].
  - reflexivity.
  - destruct e. reflexivity.
Qed.

(* ------------------------------------------------------------------ *)
(** ** Warm-up *)

(** C8: in ALGO mode, at an index [i < max(longWindow, rsiPeriod)] the
    iteration records no trade and appends the history entry
    [{date, balance: cash}]; the cash is still the initial capital and the
    holdings are still [0].  The entry is the one found at position [i] of
    the returned history. *)
Theorem C8_warmup_holds_cash :
  forall (data : list MarketData.t) (config : StrategyConfig.t)
         (aiSignals : option (list AiSignal.t)) (rsi : list number)
         (i : nat) (d : MarketData.t),
    StrategyConfig.mode config = ALGO ->
    nth_error data i = Some d ->
    (Z.of_nat i < Z.max (StrategyConfig.longWindow config)
                        (StrategyConfig.rsiPeriod config))%Z ->
    let before := simulate data config aiSignals rsi i in
    let after := simulate data config aiSignals rsi (S i) in
    State.trades after = State.trades before /\
    State.trades after = [] /\
    State.cash after = State.cash before /\
    State.cash before = StrategyConfig.initialCapital config /\
    State.holdings before = zero /\
    State.holdings after = zero /\
    State.history after =
      State.history before
        ++ [HistoryEntry.mk (MarketData.date d) (State.cash before)] /\
    (forall r, runBacktest data config aiSignals = Return r ->
       nth_error (BacktestResult.history r) i =
         Some (HistoryEntry.mk (MarketData.date d)
                 (StrategyConfig.initialCapital config))).
Proof.
  intros data config aiSignals rsi i d Hmode Hd Hi before after.
  assert (Hlt : (i < length data)%nat).
  { apply nth_error_Some. rewrite Hd. discriminate. }
  assert (Hstate : forall rsi', simulate data config aiSignals rsi' (S i) =
     State.mk (StrategyConfig.initialCapital config) zero []
       (map (fun d => HistoryEntry.mk (MarketData.date d)
                        (StrategyConfig.initialCapital config))
            (firstn i data)
        ++ [HistoryEntry.mk (MarketData.date d)
              (StrategyConfig.initialCapital config)])
       (StrategyConfig.initialCapital config) zero).
  { intros rsi'. rewrite warmup_state by (assumption || lia).
    rewrite (firstn_snoc _ _ Hd), map_app. reflexivity. }
  subst before after.
  rewrite Hstate, warmup_state by (assumption || lia). simpl.
  repeat split.
  intros r Hr.
  destruct (runBacktest_Return_inv _ _ _ Hr) as [rsi' [_ [_ [Hhist _]]]].
  destruct (simulate_history_prefix data config aiSignals rsi' (S i)) as [more Hmore].
  rewrite Hhist, Hmore, Hstate. simpl State.history.
  rewrite <- app_assoc. rewrite nth_error_app2; rewrite length_map, length_firstn.
  - replace (i - Nat.min i (length data))%nat with 0%nat by lia. reflexivity.
  - lia.
Qed.

Lemma C8_warmup_holds_cash_witness :
  StrategyConfig.mode (algo_config 1000 2 3 2) = ALGO /\
  nth_error rising4 1 = Some (bar "2024-01-02" 2) /\
  (Z.of_nat 1 < Z.max (StrategyConfig.longWindow (algo_config 1000 2 3 2))
                      (StrategyConfig.rsiPeriod (algo_config 1000 2 3 2)))%Z /\
  State.history (simulate rising4 (algo_config 1000 2 3 2) None [] 2) =
    State.history (simulate rising4 (algo_config 1000 2 3 2) None [] 1)
      ++ [HistoryEntry.mk "2024-01-02"
            (State.cash (simulate rising4 (algo_config 1000 2 3 2) None [] 1))].
Proof.
  assert (Hmode : StrategyConfig.mode (algo_config 1000 2 3 2) = ALGO) by reflexivity.
  assert (Hd : nth_error rising4 1 = Some (bar "2024-01-02" 2)) by reflexivity.
  assert (Hi : (Z.of_nat 1 < Z.max (StrategyConfig.longWindow (algo_config 1000 2 3 2))
                                   (StrategyConfig.rsiPeriod (algo_config 1000 2 3 2)))%Z)
    by (simpl; lia).
  split; [exact Hmode|]. split; [exact Hd|]. split; [exact Hi|].
  destruct (@C8_warmup_holds_cash rising4 (algo_config 1000 2 3 2) None [] 1%nat _ Hmode Hd Hi)
    as (_ & _ & _ & _ & _ & _ & Hhist & _).
  exact Hhist.
Defined.

(* ------------------------------------------------------------------ *)
(** ** One history entry per bar *)

(** C10: the history of the returned report has the length of the series
    and its entry at position [i] carries the date of the [i]-th bar; on a
    non-empty series and with a non-negative RSI period (so for every
    configuration within the constraints) such a report is returned. *)
Theorem C10_history_follows_series :
  forall (data : list MarketData.t) (config : StrategyConfig.t)
         (aiSignals : option (list AiSignal.t)),
    (forall r, runBacktest data config aiSignals = Return r ->
       length (BacktestResult.history r) = length data /\
       forall i d, nth_error data i = Some d ->
         exists h, nth_error (BacktestResult.history r) i = Some h /\
                   HistoryEntry.date h = MarketData.date d) /\
    (data <> [] -> (0 <= StrategyConfig.rsiPeriod config)%Z ->
       exists r, runBacktest data config aiSignals = Return r).
Proof.
  intros data config aiSignals. split.
  - intros r Hr.
    destruct (runBacktest_Return_inv _ _ _ Hr) as [rsi [_ [_ [Hhist _]]]].
    pose proof (simulate_history_dates data config aiSignals rsi) as Hdates.
    rewrite <- Hhist in Hdates. split.
    + rewrite <- (length_map HistoryEntry.date), Hdates. apply length_map.
    + intros i d Hd.
      assert (Hnth : nth_error (map HistoryEntry.date (BacktestResult.history r)) i
                     = Some (MarketData.date d)).
      { rewrite Hdates, nth_error_map, Hd. reflexivity. }
      rewrite nth_error_map in Hnth.
      destruct (nth_error (BacktestResult.history r) i) as [h|]; [|discriminate Hnth].
      exists h. split; [reflexivity|]. inversion Hnth. reflexivity.
  - apply runBacktest_total.
Qed.

Lemma C10_history_follows_series_witness :
  rising4 <> [] /\
  (0 <= StrategyConfig.rsiPeriod (algo_config 1000 2 3 2))%Z /\
  exists r, runBacktest rising4 (algo_config 1000 2 3 2) None = Return r /\
            length (BacktestResult.history r) = length rising4.
Proof.
  assert (Hne : rising4 <> []) by discriminate.
  assert (Hp : (0 <= StrategyConfig.rsiPeriod (algo_config 1000 2 3 2))%Z)
    by (simpl; lia).
  split; [exact Hne|]. split; [exact Hp|].
  destruct (@C10_history_follows_series rising4 (algo_config 1000 2 3 2) None)
    as [Hhist Hret].
  destruct (Hret Hne Hp) as [r Hr].
  exists r. split; [exact Hr|]. exact (proj1 (Hhist r Hr)).
Defined.

(* ------------------------------------------------------------------ *)
(** ** Alternation of the trades *)

Lemma consecutive_snoc (ty : SignalType) (ts : list Trade.t) (t : Trade.t) :
  consecutive ty (ts ++ [t]) ->
  consecutive ty ts \/
  (Trade.type t = ty /\ exists ts' t', ts = ts' ++ [t'] /\ Trade.type t' = ty).
Proof.
  intros (before & a & b & after & Heq & Ha & Hb).
  destruct (@exists_last _ (a :: b :: after)) as (front & z & Hfront); [discriminate|].
  rewrite Hfront, app_assoc in Heq.
  apply app_inj_tail in Heq. destruct Heq as [Hts Ht]. subst z.
  destruct after as [|x after].
  - right.
    change [a; b] with ([a] ++ [b]) in Hfront.
    apply app_inj_tail in Hfront. destruct Hfront as [Hf Hbt]. subst front t.
    split; [exact Hb|]. exists before, a. split; [exact Hts | exact Ha].
  - left.
    destruct (@exists_last _ (x :: after)) as (mid & z & Hmid); [discriminate|].
    rewrite Hmid in Hfront.
    change (a :: b :: mid ++ [z]) with ((a :: b :: mid) ++ [z]) in Hfront.
    apply app_inj_tail in Hfront. destruct Hfront as [Hf _]. subst front.
    exists before, a, b, mid. repeat split; assumption.
Qed.

Lemma gtb_zero_zero : (zero >? zero) = false.
Proof. reflexivity. Qed.

Lemma execute_trade_invariant signal reason price date (st : State.t) :
  position_invariant st ->
  position_invariant (execute_trade signal reason price date st).
Proof.
  intros [Hcons Hflat]. unfold execute_trade.
  destruct (SignalType_eqb signal BUY && (State.cash st >? price)).
  - destruct (_ >? zero); [|split; assumption].
    destruct (_ <=? State.cash st); [|split; assumption].
    split; simpl.
    + intros Hc. apply consecutive_snoc in Hc. simpl in Hc.
      destruct Hc as [Hc | [Hty _]]; [exact (Hcons Hc) | discriminate Hty].
    + intros ts t Heq Hty. apply app_inj_tail in Heq. destruct Heq as [_ Ht].
      subst t. discriminate Hty.
  - destruct (SignalType_eqb signal SELL) ; simpl; [|split; assumption].
    destruct (State.holdings st >? zero) eqn:Hheld; [|split; assumption].
    split; simpl.
    + intros Hc. apply consecutive_snoc in Hc.
      destruct Hc as [Hc | [_ (ts' & t' & Hts & Hty)]]; [exact (Hcons Hc)|].
      rewrite (Hflat ts' t' Hts Hty), gtb_zero_zero in Hheld. discriminate Hheld.
    + reflexivity.
Qed.

Lemma loop_body_invariant config shortSMA longSMA rsi aiSignalMap
    (st : State.t) (bar : nat * MarketData.t) :
  position_invariant st ->
  position_invariant (loop_body config shortSMA longSMA rsi aiSignalMap st bar).
Proof.
  intros Hinv. destruct bar as [i d]. unfold loop_body.
  destruct (in_warmup config i).
  - exact Hinv.
  - destruct (decide config shortSMA longSMA rsi aiSignalMap i (MarketData.date d))
      as [signal reason].
    apply (execute_trade_invariant signal reason (MarketData.close d)
             (MarketData.date d)) in Hinv.
    exact Hinv.
Qed.

Lemma run_loop_invariant config shortSMA longSMA rsi aiSignalMap
    (bars : list (nat * MarketData.t)) (st : State.t) :
  position_invariant st ->
  position_invariant (run_loop config shortSMA longSMA rsi aiSignalMap bars st).
Proof.
  revert st. induction bars as [|bar bars IH]; intros st Hinv.
  - exact Hinv.
  - unfold run_loop in *. simpl. apply IH. apply loop_body_invariant. exact Hinv.
Qed.

Lemma initial_state_invariant (config : StrategyConfig.t) :
  position_invariant (initial_state config).
Proof.
  split; simpl.
  - intros (before & a & b & after & Heq & _). destruct before; discriminate Heq.
  - intros ts t Heq. destruct ts; discriminate Heq.
Qed.

Lemma simulate_invariant data config aiSignals rsi (n : nat) :
  position_invariant (simulate data config aiSignals rsi n).
Proof.
  unfold simulate. apply run_loop_invariant. apply initial_state_invariant.
Qed.

(** C1, as the specification words it, fails: with a valid configuration
    (windows 1 and 2, no RSI filter) the series [two_crosses] yields two
    BUY trades in a row, the second one paid from the 1% of cash the first
    one left. *)
Lemma C1_two_consecutive_buys :
  valid_config (algo_config 1000 1 2 1) /\
  exists r,
    runBacktest two_crosses (algo_config 1000 1 2 1) None = Return r /\
    map Trade.type (BacktestResult.trades r) = [BUY; BUY] /\
    map Trade.date (BacktestResult.trades r) = ["2024-01-03"; "2024-01-05"] /\
    consecutive BUY (BacktestResult.trades r).
Proof.
  split.
  - repeat split; reflexivity.
  - eexists. split; [vm_compute; reflexivity|]. simpl.
    split; [reflexivity|]. split; [reflexivity|].
    eexists [], _, _, []. repeat split.
Qed.

(** C1 (amended): a run on a non-empty series (RSI period not negative)
    returns a report, and the trades of a report never contain two
    consecutive SELLs; a SELL decision while nothing is held records no trade; a BUY
    decision records no trade when the cash does not exceed the price.
    (A BUY while a position is held is not excluded: the series
    [two_crosses] above yields two of them in a row.) *)
Theorem C1_no_consecutive_sells :
  forall (data : list MarketData.t) (config : StrategyConfig.t)
         (aiSignals : option (list AiSignal.t)),
    (data <> [] -> (0 <= StrategyConfig.rsiPeriod config)%Z ->
       exists r, runBacktest data config aiSignals = Return r) /\
    (forall r, runBacktest data config aiSignals = Return r ->
               ~ consecutive SELL (BacktestResult.trades r)) /\
    (forall reason price date st,
        State.holdings st = zero ->
        execute_trade SELL reason price date st = st) /\
    (forall reason price date st,
        (State.cash st >? price) = false ->
        execute_trade BUY reason price date st = st).
Proof.
  intros data config aiSignals. split; [apply runBacktest_total|]. repeat split.
  - intros r Hr.
    destruct (runBacktest_Return_inv _ _ _ Hr) as [rsi [_ [Htrades _]]].
    rewrite Htrades. apply simulate_invariant.
  - intros reason price date st Hflat. unfold execute_trade.
    rewrite Hflat, gtb_zero_zero. reflexivity.
  - intros reason price date st Hcash. unfold execute_trade.
    rewrite Hcash. reflexivity.
Qed.

Lemma C1_no_consecutive_sells_witness :
  exists r,
    runBacktest up_and_down (algo_config 1000 1 2 1) None = Return r /\
    map Trade.type (BacktestResult.trades r) = [BUY; SELL] /\
    ~ consecutive SELL (BacktestResult.trades r).
Proof.
  eexists. split; [vm_compute; reflexivity|]. split; [reflexivity|].
  refine (proj1 (proj2 (@C1_no_consecutive_sells up_and_down (algo_config 1000 1 2 1)
                          None))
            _ _).
  vm_compute. reflexivity.
Defined.

(* ------------------------------------------------------------------ *)
(** ** Arithmetic of the number model *)

#[export] Instance same_Equivalence : Equivalence same.
Proof.
  split.
  - intros [a| | |]; simpl; auto. reflexivity.
  - intros [a| | |] [b| | |]; simpl; auto. intros H. symmetry. exact H.
  - intros [a| | |] [b| | |] [c| | |]; simpl; auto; try contradiction.
    intros H1 H2. rewrite H1. exact H2.
Qed.

Lemma fin_same (q : Q) : fin q ~~ Fin q.
Proof. unfold fin. simpl. apply Qred_correct. Qed.

Lemma same_Fin (a b : Q) : (a == b)%Q -> Fin a ~~ Fin b.
Proof. intros H. exact H. Qed.

Lemma same_fin (a b : Q) : (a == b)%Q -> fin a ~~ Fin b.
Proof. intros H. rewrite fin_same. exact H. Qed.

Lemma sign_Gt (q : Q) : sign q = Gt <-> (0 < q)%Q.
Proof. unfold sign. rewrite <- Qgt_alt. reflexivity. Qed.

Lemma sign_Lt (q : Q) : sign q = Lt <-> (q < 0)%Q.
Proof. unfold sign. rewrite <- Qlt_alt. reflexivity. Qed.

Lemma sign_Eq (q : Q) : sign q = Eq <-> (q == 0)%Q.
Proof. unfold sign. rewrite <- Qeq_alt. reflexivity. Qed.

Lemma gtb_Fin (a b : Q) : (Fin a >? Fin b) = true <-> (b < a)%Q.
Proof.
  unfold gtb. simpl. rewrite (Qgt_alt a b).
  destruct (a ?= b)%Q; split; congruence.
Qed.

Lemma ltb_Fin (a b : Q) : (Fin a <? Fin b) = true <-> (a < b)%Q.
Proof.
  unfold ltb. simpl. rewrite (Qlt_alt a b).
  destruct (a ?= b)%Q; split; congruence.
Qed.

Lemma leb_Fin (a b : Q) : (Fin a <=? Fin b) = true <-> (a <= b)%Q.
Proof.
  unfold leb. simpl. rewrite (Qle_alt a b).
  destruct (a ?= b)%Q; split; congruence.
Qed.

Lemma eqb_Fin (a b : Q) : (Fin a === Fin b) = true <-> (a == b)%Q.
Proof.
  unfold eqb. simpl. rewrite (Qeq_alt a b).
  destruct (a ?= b)%Q; split; congruence.
Qed.

Lemma compare_Qred_l (a b : Q) : (Qred a ?= b)%Q = (a ?= b)%Q.
Proof. apply Qcompare_comp; [apply Qred_correct | reflexivity]. Qed.

Lemma gtb_fin_l (a b : Q) : (fin a >? Fin b) = (Fin a >? Fin b).
Proof. unfold fin, gtb. simpl. rewrite compare_Qred_l. reflexivity. Qed.

Lemma leb_fin_l (a b : Q) : (fin a <=? Fin b) = (Fin a <=? Fin b).
Proof. unfold fin, leb. simpl. rewrite compare_Qred_l. reflexivity. Qed.

Lemma sign_Qred (q : Q) : sign (Qred q) = sign q.
Proof. unfold sign. apply compare_Qred_l. Qed.

Lemma nonneg_Fin (q : Q) : nonneg (Fin q) <-> (0 <= q)%Q.
Proof. unfold nonneg, zero. apply leb_Fin. Qed.

Lemma div_Fin_pos (a b : Q) : (0 < b)%Q -> Fin a / Fin b = fin (a / b).
Proof.
  intros H. simpl. apply sign_Gt in H. rewrite H. reflexivity.
Qed.

Lemma div_Fin_zero_pos (a b : Q) :
  (b == 0)%Q -> (0 < a)%Q -> Fin a / Fin b = PInf.
Proof.
  intros Hb Ha. simpl. apply sign_Eq in Hb. apply sign_Gt in Ha.
  rewrite Hb, Ha. reflexivity.
Qed.

(** ** Arithmetic beyond the real numbers *)

Section Extended.

Local Arguments Qred : simpl never.

Lemma not_negative_cases (x : number) :
  not_negative x <->
  match x with
  | Fin q => (0 <= q)%Q
  | PInf | NaN => True
  | NInf => False
  end.
Proof.
  unfold not_negative. destruct x as [q| | |]; simpl; try (split; [auto | reflexivity]).
  - unfold ltb, zero. simpl. rewrite (Qle_alt 0 q), <- (Qcompare_antisym q 0).
    destruct (q ?= 0)%Q; simpl; split; congruence.
  - split; [discriminate | contradiction].
Qed.

Lemma nonneg_cases (x : number) :
  nonneg x <->
  match x with
  | Fin q => (0 <= q)%Q
  | PInf => True
  | NInf | NaN => False
  end.
Proof.
  unfold nonneg. destruct x as [q| | |]; simpl.
  - apply leb_Fin.
  - split; [auto | reflexivity].
  - split; [discriminate | contradiction].
  - split; [discriminate | contradiction].
Qed.

Lemma positive_cases (x : number) :
  (x >? zero) = true <->
  match x with
  | Fin q => (0 < q)%Q
  | PInf => True
  | NInf | NaN => False
  end.
Proof.
  destruct x as [q| | |]; simpl.
  - apply gtb_Fin.
  - split; [auto | reflexivity].
  - split; [discriminate | contradiction].
  - split; [discriminate | contradiction].
Qed.

Lemma not_negative_Fin (q : Q) : not_negative (Fin q) <-> (0 <= q)%Q.
Proof. apply (not_negative_cases (Fin q)). Qed.

Lemma nonneg_not_negative (x : number) : nonneg x -> not_negative x.
Proof.
  rewrite nonneg_cases, not_negative_cases. destruct x; auto.
Qed.

Lemma positive_nonneg (x : number) : (x >? zero) = true -> nonneg x.
Proof.
  rewrite positive_cases, nonneg_cases. destruct x; auto. apply Qlt_le_weak.
Qed.

Lemma not_negative_nonneg_or_NaN (x : number) :
  not_negative x <-> nonneg x \/ is_nan x.
Proof.
  rewrite not_negative_cases, nonneg_cases. destruct x; simpl; tauto.
Qed.

Lemma not_negative_add (x y : number) :
  not_negative x -> not_negative y -> not_negative (x + y).
Proof.
  rewrite !not_negative_cases.
  destruct x as [a| | |], y as [b| | |]; simpl; try tauto.
  intros Ha Hb. rewrite Qred_correct. lra.
Qed.

Lemma nonneg_add (x y : number) : nonneg x -> nonneg y -> nonneg (x + y).
Proof.
  rewrite !nonneg_cases.
  destruct x as [a| | |], y as [b| | |]; simpl; try tauto.
  intros Ha Hb. rewrite Qred_correct. lra.
Qed.

Lemma not_negative_abs (x : number) : not_negative (abs x).
Proof.
  apply not_negative_cases. destruct x as [a| | |]; simpl; auto.
  rewrite Qred_correct. apply Qabs_nonneg.
Qed.

(** [x - y] is not negative when [y <= x]; it is [NaN] when both are
    [Infinity]. *)
Lemma not_negative_sub (x y : number) : (y <=? x) = true -> not_negative (x - y).
Proof.
  intros H. apply not_negative_cases.
  destruct x as [a| | |], y as [b| | |]; simpl; try discriminate H; auto.
  apply leb_Fin in H. rewrite Qred_correct. lra.
Qed.

Lemma nonneg_sub_Fin (c : Q) (y : number) : (y <=? Fin c) = true -> nonneg (Fin c - y).
Proof.
  intros H. apply nonneg_cases.
  destruct y as [b| | |]; simpl; try discriminate H; auto.
  apply leb_Fin in H. rewrite Qred_correct. lra.
Qed.

Lemma sign_pos (q : Q) : (0 < q)%Q -> sign q = Gt.
Proof. apply sign_Gt. Qed.

(** A positive amount at a price that is not negative is worth a value
    that is not negative; it is [NaN] for an infinite amount at price 0. *)
Lemma not_negative_mul_pos (x y : number) :
  (x >? zero) = true -> nonneg y -> not_negative (x * y).
Proof.
  rewrite positive_cases, nonneg_cases, not_negative_cases.
  destruct x as [a| | |], y as [b| | |]; simpl; try tauto.
  - intros Ha Hb. rewrite Qred_correct. apply Qmult_le_0_compat; lra.
  - intros Ha _. rewrite (sign_pos Ha). exact I.
  - intros _ Hb. destruct (sign b) eqn:E; simpl; auto.
    apply (proj1 (sign_Lt _)) in E. lra.
Qed.

Lemma nonneg_mul (x y : number) :
  nonneg x -> nonneg y -> not_negative (x * y).
Proof.
  rewrite !nonneg_cases, not_negative_cases.
  destruct x as [a| | |], y as [b| | |]; simpl; try tauto.
  - intros Ha Hb. rewrite Qred_correct. apply Qmult_le_0_compat; lra.
  - intros Ha _. destruct (sign a) eqn:E; simpl; auto. apply (proj1 (sign_Lt _)) in E. lra.
  - intros _ Hb. destruct (sign b) eqn:E; simpl; auto. apply (proj1 (sign_Lt _)) in E. lra.
Qed.

Lemma nonneg_mul_Fin_pos (h : Q) (y : number) :
  (0 < h)%Q -> nonneg y -> nonneg (Fin h * y).
Proof.
  intros Hh. rewrite !nonneg_cases.
  destruct y as [b| | |]; simpl; try tauto.
  - intros Hb. rewrite Qred_correct. apply Qmult_le_0_compat; lra.
  - intros _. rewrite (sign_pos Hh). exact I.
Qed.

Lemma nonneg_add_pos (x y : number) :
  nonneg x -> (y >? zero) = true -> nonneg (x + y).
Proof. intros Hx Hy. apply nonneg_add; [exact Hx | apply positive_nonneg; exact Hy]. Qed.

Lemma not_negative_mul_of_Z (x : number) (k : Z) :
  not_negative x -> (0 <= k)%Z -> not_negative (x * of_Z k).
Proof.
  intros Hx Hk. apply not_negative_cases. apply not_negative_cases in Hx.
  assert (Hq : (0 <= inject_Z k)%Q).
  { change 0%Q with (inject_Z 0). rewrite <- Zle_Qle. exact Hk. }
  destruct x as [a| | |]; simpl in *; auto; try contradiction.
  - rewrite Qred_correct. apply Qmult_le_0_compat; assumption.
  - destruct (sign (inject_Z k)) eqn:E; simpl; auto. apply (proj1 (sign_Lt _)) in E. lra.
Qed.

Lemma not_negative_div_of_Z (x : number) (p : Z) :
  not_negative x -> (0 < p)%Z -> not_negative (x / of_Z p).
Proof.
  intros Hx Hp. apply not_negative_cases. apply not_negative_cases in Hx.
  assert (Hq : (0 < inject_Z p)%Q).
  { change 0%Q with (inject_Z 0). rewrite <- Zlt_Qlt. exact Hp. }
  destruct x as [a| | |]; simpl in *; auto; try contradiction.
  - rewrite (sign_pos Hq). simpl. rewrite Qred_correct.
    apply Qle_shift_div_l; [exact Hq | lra].
  - rewrite (sign_pos Hq). exact I.
Qed.

(** Adding a zero changes no value. *)
Lemma add_zero_same (x : number) (z : Q) : (z == 0)%Q -> x + Fin z ~~ x.
Proof.
  intros Hz. destruct x as [a| | |]; simpl; auto.
  rewrite Qred_correct, Hz. ring.
Qed.

Lemma ltb_sub_positive (a b : number) : (a <? b) = true -> (b - a >? zero) = true.
Proof.
  intros H. apply positive_cases.
  destruct a as [x| | |], b as [y| | |]; simpl; try discriminate H; auto.
  apply ltb_Fin in H. rewrite Qred_correct. lra.
Qed.

Lemma positive_add (x y : number) :
  (x >? zero) = true -> (y >? zero) = true -> (x + y >? zero) = true.
Proof.
  rewrite !positive_cases.
  destruct x as [a| | |], y as [b| | |]; simpl; try tauto.
  intros Ha Hb. rewrite Qred_correct. lra.
Qed.

Lemma zero_add_positive (y : number) :
  (y >? zero) = true -> (zero + y >? zero) = true.
Proof.
  rewrite !positive_cases. destruct y as [b| | |]; simpl; try tauto.
  intros Hb. rewrite Qred_correct. lra.
Qed.

Lemma positive_mul_one (x : number) :
  (x >? zero) = true -> (x * of_Z (2 - 1) >? zero) = true.
Proof.
  rewrite !positive_cases. destruct x as [a| | |]; simpl; try tauto.
  intros Ha. rewrite Qred_correct. change (inject_Z 1) with 1%Q. lra.
Qed.

Lemma positive_div_two (x : number) :
  (x >? zero) = true -> (x / of_Z 2 >? zero) = true.
Proof.
  rewrite !positive_cases. destruct x as [a| | |]; simpl; try tauto.
  intros Ha. rewrite Qred_correct. change (inject_Z 2) with 2%Q.
  apply Qlt_shift_div_l; lra.
Qed.

Lemma compare_undefined_or_zero (x y : number) :
  (x = NaN \/ x = zero) -> (y = NaN \/ y = zero) ->
  (x >? y) = false /\ (x <? y) = false.
Proof. intros [->| ->] [->| ->]; split; reflexivity. Qed.

End Extended.

(* ------------------------------------------------------------------ *)
(** ** The BUY block *)

Lemma execute_buy reason date (st : State.t) (c p : Q) :
  State.cash st = Fin c -> (0 < p)%Q -> (p < c)%Q ->
  exists amount cash',
    execute_trade BUY reason (Fin p) date st =
      State.mk cash' (State.holdings st + amount)
        (State.trades st ++
           [Trade.mk date BUY (Fin p) amount
              (cash' + (State.holdings st + amount) * Fin p)
              (reason_or_default reason)])
        (State.history st) (State.peakBalance st) (State.maxDrawdown st) /\
    amount ~~ Fin ((99 # 100) * c / p) /\
    cash' ~~ Fin (c / 100).
Proof.
  intros Hcash Hp Hpc.
  assert (Hgt : (Fin c >? Fin p) = true) by (apply gtb_Fin; exact Hpc).
  set (a1 := Qred (c * (99 # 100))).
  assert (Ha1 : (a1 == c * (99 # 100))%Q) by apply Qred_correct.
  set (a2 := Qred (a1 / p)).
  assert (Ha2 : (a2 == (99 # 100) * c / p)%Q).
  { unfold a2. rewrite Qred_correct, Ha1. field. lra. }
  assert (Ha2pos : (0 < a2)%Q).
  { rewrite Ha2. apply Qlt_shift_div_l; [exact Hp | lra]. }
  assert (Hamount : (Fin c * reserve_factor) / Fin p = Fin a2).
  { change (Fin c * reserve_factor) with (Fin a1).
    rewrite div_Fin_pos by exact Hp. reflexivity. }
  assert (Hpos : (Fin a2 >? zero) = true) by (apply gtb_Fin; exact Ha2pos).
  assert (Hcost : (a2 * p == (99 # 100) * c)%Q).
  { rewrite Ha2. field. lra. }
  assert (Hle : (Fin a2 * Fin p <=? Fin c) = true).
  { change (Fin a2 * Fin p) with (fin (a2 * p)).
    rewrite leb_fin_l. apply leb_Fin. rewrite Hcost. lra. }
  unfold execute_trade. rewrite Hcash, Hgt. cbn [SignalType_eqb andb].
  rewrite Hamount, Hpos, Hle.
  exists (Fin a2), (Fin c - Fin a2 * Fin p). split; [reflexivity|]. split.
  - exact Ha2.
  - change (Fin c - Fin a2 * Fin p) with (fin (c - Qred (a2 * p))).
    apply same_fin. rewrite Qred_correct, Hcost. field.
Qed.

Lemma record_equity_position price date (st : State.t) :
  State.cash (record_equity price date st) = State.cash st /\
  State.holdings (record_equity price date st) = State.holdings st /\
  State.trades (record_equity price date st) = State.trades st.
Proof. unfold record_equity. simpl. repeat split. Qed.

(** ** The BUY block in binary64 *)

Lemma b64_eqb_zero (x : PrimFloat.float) :
  (x =? PrimFloat.zero)%b64 = true -> exists s, FloatOps.Prim2SF x = SpecFloat.S754_zero s.
Proof.
  rewrite FloatAxioms.eqb_spec.
  change (FloatOps.Prim2SF PrimFloat.zero) with (SpecFloat.S754_zero false).
  destruct (FloatOps.Prim2SF x) as [s|s| |s m e]; intros H.
  - exists s. reflexivity.
  - destruct s; discriminate H.
  - discriminate H.
  - destruct s; discriminate H.
Qed.

(** Whatever is divided by a zero and multiplied by it again is [NaN],
    and [NaN] is not below anything. *)
Lemma b64_cost_at_zero (x p c : PrimFloat.float) :
  (p =? PrimFloat.zero)%b64 = true -> ((x / p) * p <=? c)%b64 = false.
Proof.
  intros Hp. destruct (@b64_eqb_zero p Hp) as [s Hs].
  rewrite FloatAxioms.leb_spec, FloatAxioms.mul_spec, FloatAxioms.div_spec, Hs.
  destruct (FloatOps.Prim2SF x) as [sx|sx| |sx mx ex]; try reflexivity;
    destruct sx, s; reflexivity.
Qed.

(** C3, as the specification words it, fails.  At bar 4 of
    [zero_close_cross] the decision is BUY and the cash, 1000, exceeds the
    price, 0, yet nothing is bought: the amount is infinite, its cost is
    [NaN] and fails [cost <= cash].  And a purchase that is made does not
    leave 1% of the cash: 1000 spent at the price 7 leave
    10.000000000000114, more than 10. *)
Lemma C3_buy_is_not_99_percent :
  (let config := Binary64.algo_config Binary64.thousand 2 3 1 in
   exists rsi,
     Binary64.calculateRSI Binary64.zero_close_cross
       (Binary64.StrategyConfig.rsiPeriod config) = Return rsi /\
     let before := Binary64.simulate Binary64.zero_close_cross config None rsi 4 in
     let after := Binary64.simulate Binary64.zero_close_cross config None rsi 5 in
     Binary64.in_warmup config 4 = false /\
     Binary64.decide config
       (Binary64.calculateSMA Binary64.zero_close_cross 2)
       (Binary64.calculateSMA Binary64.zero_close_cross 3)
       rsi (Binary64.build_signal_map config None) 4 "2024-01-05" = (BUY, "") /\
     Binary64.to_number (Binary64.State.cash before) = Fin 1000 /\
     Binary64.to_number (Binary64.close_num Binary64.zero_close_cross 4) = Fin 0 /\
     (Binary64.State.cash before >? Binary64.close_num Binary64.zero_close_cross 4)%b64
       = true /\
     Binary64.to_number (Binary64.State.cash after) = Fin 1000 /\
     Binary64.to_number (Binary64.State.holdings after) = Fin 0 /\
     Binary64.State.trades after = []) /\
  (let config := Binary64.ai_config Binary64.thousand 10 50 14 in
   let before := Binary64.simulate [Binary64.bar_at_seven] config
                   (Some Binary64.buy_signal) [] 0 in
   let after := Binary64.simulate [Binary64.bar_at_seven] config
                  (Some Binary64.buy_signal) [] 1 in
   Binary64.decide config [] [] [] (Binary64.build_signal_map config (Some Binary64.buy_signal))
     0 "2024-01-01" = (BUY, "dip") /\
   Binary64.to_number (Binary64.State.cash before) = Fin 1000 /\
   map Binary64.Trade.type (Binary64.State.trades after) = [BUY] /\
   (Fin (1000 / 100) <? Binary64.to_number (Binary64.State.cash after)) = true /\
   ~ (Binary64.to_number (Binary64.State.cash after) ~~ Fin (1000 / 100))).
Proof.
  split.
  - eexists. split; [vm_compute; reflexivity|].
    repeat split; vm_compute; reflexivity.
  - repeat split; try (vm_compute; reflexivity).
    vm_compute. discriminate.
Qed.

(** C3 (amended): at a bar where the decision is BUY, the purchase is made
    exactly when the three guards hold: [cash > price], the amount
    [(cash * 0.99) / price] is above 0, and its cost [amount * price] is at
    most the cash, each as binary64 computes it.  Then the cash is
    decremented by that cost, the holdings grow by that amount, and the
    appended trade has [balanceAfter = cash + holdings * price] on the
    updated values.  Otherwise the bar changes neither cash nor holdings
    and records no trade; this is so whenever the cash does not exceed the
    price, and whenever the price is zero. *)
Theorem C3_buy_spends_the_computed_cost :
  forall config shortSMA longSMA rsi aiSignalMap (st : Binary64.State.t)
         (i : nat) (d : Binary64.MarketData.t) (reason : string),
    Binary64.in_warmup config i = false ->
    Binary64.decide config shortSMA longSMA rsi aiSignalMap i (Binary64.MarketData.date d)
      = (BUY, reason) ->
    let cash := Binary64.State.cash st in
    let holdings := Binary64.State.holdings st in
    let price := Binary64.MarketData.close d in
    let amountToBuy := Binary64.amount_to_buy cash price in
    let cost := Binary64.cost_of cash price in
    let st' := Binary64.loop_body config shortSMA longSMA rsi aiSignalMap st (i, d) in
    (Binary64.purchase_made cash price = true ->
       Binary64.State.cash st' = (cash - cost)%b64 /\
       Binary64.State.holdings st' = (holdings + amountToBuy)%b64 /\
       Binary64.State.trades st' =
         Binary64.State.trades st ++
           [Binary64.Trade.mk (Binary64.MarketData.date d) BUY price amountToBuy
              (Binary64.State.cash st' + Binary64.State.holdings st' * price)%b64
              (reason_or_default reason)]) /\
    (Binary64.purchase_made cash price = false ->
       Binary64.State.cash st' = cash /\
       Binary64.State.holdings st' = holdings /\
       Binary64.State.trades st' = Binary64.State.trades st) /\
    ((cash >? price)%b64 = false -> Binary64.purchase_made cash price = false) /\
    ((price =? PrimFloat.zero)%b64 = true -> Binary64.purchase_made cash price = false).
Proof.
  intros config shortSMA longSMA rsi aiSignalMap st i d reason Hwarm Hdecide
         cash holdings price amountToBuy cost st'.
  assert (Hst' : st' = Binary64.record_equity price (Binary64.MarketData.date d)
                         (Binary64.execute_trade BUY reason price
                            (Binary64.MarketData.date d) st)).
  { subst st'. unfold Binary64.loop_body. rewrite Hwarm, Hdecide. reflexivity. }
  assert (Hexec : Binary64.execute_trade BUY reason price (Binary64.MarketData.date d) st =
            if Binary64.purchase_made cash price then
              Binary64.State.mk (cash - cost)%b64 (holdings + amountToBuy)%b64
                (Binary64.State.trades st ++
                   [Binary64.Trade.mk (Binary64.MarketData.date d) BUY price amountToBuy
                      ((cash - cost) + (holdings + amountToBuy) * price)%b64
                      (reason_or_default reason)])
                (Binary64.State.history st) (Binary64.State.peakBalance st)
                (Binary64.State.maxDrawdown st)
            else st).
  { subst cost amountToBuy.
    unfold Binary64.execute_trade, Binary64.purchase_made, Binary64.cost_of,
      Binary64.amount_to_buy.
    fold cash holdings. cbn [SignalType_eqb andb].
    destruct (cash >? price)%b64; cbn [andb]; [|reflexivity].
    match goal with |- context [if ?c then _ else st] => destruct c end;
      cbn [andb]; [|reflexivity].
    match goal with |- context [if ?c then _ else st] => destruct c end;
      reflexivity. }
  rewrite Hst', Hexec. split; [|split; [|split]].
  - intros Hbuy. rewrite Hbuy. cbn. repeat split.
  - intros Hnone. rewrite Hnone. cbn. repeat split.
  - intros Hle. unfold Binary64.purchase_made. rewrite Hle. reflexivity.
  - intros Hzero.
    unfold Binary64.purchase_made, Binary64.cost_of, Binary64.amount_to_buy.
    rewrite (@b64_cost_at_zero (cash * Binary64.reserve_factor)%b64 price cash Hzero).
    apply andb_false_r.
Qed.

Lemma C3_buy_spends_the_computed_cost_witness :
  let config := Binary64.ai_config Binary64.thousand 10 50 14 in
  let smap := Binary64.build_signal_map config (Some Binary64.buy_signal) in
  let st := Binary64.initial_state config in
  let st' := Binary64.loop_body config [] [] [] smap st (0%nat, Binary64.bar_at_seven) in
  Binary64.purchase_made (Binary64.State.cash st)
    (Binary64.MarketData.close Binary64.bar_at_seven) = true /\
  Binary64.State.cash st' =
    (Binary64.State.cash st
     - Binary64.cost_of (Binary64.State.cash st)
         (Binary64.MarketData.close Binary64.bar_at_seven))%b64.
Proof.
  intros config smap st st'.
  assert (Hwarm : Binary64.in_warmup config 0 = false) by reflexivity.
  assert (Hdecide : Binary64.decide config [] [] [] smap 0
                      (Binary64.MarketData.date Binary64.bar_at_seven) = (BUY, "dip"))
    by (vm_compute; reflexivity).
  assert (Hbuy : Binary64.purchase_made (Binary64.State.cash st)
                   (Binary64.MarketData.close Binary64.bar_at_seven) = true)
    by (vm_compute; reflexivity).
  split; [exact Hbuy|].
  exact (proj1 (proj1 (@C3_buy_spends_the_computed_cost config [] [] [] smap st 0%nat
                         Binary64.bar_at_seven "dip" Hwarm Hdecide)
                  Hbuy)).
Defined.

(* ------------------------------------------------------------------ *)
(** ** Cash and holdings stay non-negative *)

Lemma priced_of_closes (data : list MarketData.t) (d : MarketData.t) :
  finite_closes data -> nonneg_closes data -> In d data -> priced d.
Proof.
  intros Hfin Hnn Hin.
  pose proof (proj1 (Forall_forall _ _) Hfin d Hin) as Hf.
  pose proof (proj1 (Forall_forall _ _) Hnn d Hin) as Hn.
  simpl in Hf, Hn.
  unfold priced.
  destruct (MarketData.close d) as [p| | |]; try contradiction.
  exists p. split; [reflexivity|]. apply nonneg_Fin. exact Hn.
Qed.

Lemma same_Fin_inv (x : number) (q : Q) :
  x ~~ Fin q -> exists q', x = Fin q' /\ (q' == q)%Q.
Proof.
  destruct x as [a| | |]; simpl; intros H; try contradiction.
  exists a. split; [reflexivity | exact H].
Qed.

Lemma execute_trade_solvent signal reason date (st : State.t) (p : Q) :
  (0 <= p)%Q -> solvent st ->
  solvent (execute_trade signal reason (Fin p) date st).
Proof.
  intros Hp Hsol. pose proof Hsol as (c & h & Hc & Hh & Hc0 & Hh0).
  destruct signal.
  - (* BUY *)
    destruct (State.cash st >? Fin p) eqn:Hgt.
    2:{ unfold execute_trade. rewrite Hgt. exact Hsol. }
    rewrite Hc in Hgt. pose proof (proj1 (gtb_Fin _ _) Hgt) as Hpc.
    destruct (Qle_lt_or_eq _ _ Hp) as [Hpos|Hzero].
    + destruct (execute_buy reason date st Hc Hpos Hpc)
        as (amount & cash' & Hexec & Hamount & Hcash').
      rewrite Hexec.
      apply same_Fin_inv in Hamount. destruct Hamount as (a & -> & Ha).
      apply same_Fin_inv in Hcash'. destruct Hcash' as (c' & -> & Hc').
      exists c', (Qred (h + a)).
      split; [reflexivity|].
      split; [cbn [State.holdings]; rewrite Hh; reflexivity|]. split.
      * rewrite Hc'. apply Qle_shift_div_l; lra.
      * rewrite Qred_correct, Ha.
        assert (0 <= (99 # 100) * c / p)%Q by (apply Qle_shift_div_l; lra).
        lra.
    + (* the price is zero: the amount is infinite and its cost is NaN *)
      unfold execute_trade. rewrite Hc, Hgt. cbn [SignalType_eqb andb].
      change (Fin c * reserve_factor) with (Fin (Qred (c * (99 # 100)))).
      rewrite div_Fin_zero_pos.
      * cbn [gtb cmp zero mul]. symmetry in Hzero.
        rewrite (proj2 (sign_Eq p) Hzero). rewrite <- Hc. exact Hsol.
      * symmetry. exact Hzero.
      * rewrite Qred_correct. lra.
  - (* SELL *)
    unfold execute_trade. cbn [SignalType_eqb andb].
    destruct (State.holdings st >? zero); [|exact Hsol].
    rewrite Hc, Hh. exists (Qred (c + Qred (h * p))), 0%Q.
    split; [reflexivity|]. split; [reflexivity|]. split.
    + rewrite !Qred_correct. nra.
    + lra.
  - (* HOLD *)
    exact Hsol.
Qed.

Lemma in_firstn_indexed {A : Type} (arr : list A) (n : nat) (bar : nat * A) :
  In bar (firstn n (Array.indexed arr)) -> In (snd bar) arr.
Proof.
  intros Hin. destruct bar as [i x]. simpl.
  apply (in_combine_r (seq 0 (length arr)) arr i x).
  fold (Array.indexed arr).
  rewrite <- (firstn_skipn n (Array.indexed arr)). apply in_or_app. left. exact Hin.
Qed.

Lemma execute_trade_never_short signal reason price date (st : State.t) :
  nonneg price -> never_short st ->
  never_short (execute_trade signal reason price date st).
Proof.
  intros Hp Hst. pose proof Hst as [Hc Hh]. unfold execute_trade.
  destruct (SignalType_eqb signal BUY && (State.cash st >? price)).
  - match goal with |- context [if ?c then _ else st] => destruct c eqn:Hamount end;
      [|exact Hst].
    match goal with |- context [if ?c then _ else st] => destruct c eqn:Hcost end;
      [|exact Hst].
    split; cbn [State.cash State.holdings].
    + apply not_negative_sub. exact Hcost.
    + apply nonneg_add_pos; assumption.
  - destruct (SignalType_eqb signal SELL && (State.holdings st >? zero)) eqn:Hsell;
      [|exact Hst].
    apply andb_true_iff in Hsell. destruct Hsell as [_ Hheld].
    split; cbn [State.cash State.holdings].
    + apply not_negative_add; [exact Hc|]. apply not_negative_mul_pos; assumption.
    + reflexivity.
Qed.

Lemma loop_body_never_short config shortSMA longSMA rsi aiSignalMap
    (st : State.t) (bar : nat * MarketData.t) :
  nonneg (MarketData.close (snd bar)) -> never_short st ->
  never_short (loop_body config shortSMA longSMA rsi aiSignalMap st bar).
Proof.
  destruct bar as [i d]. cbn [snd]. intros Hp Hst. unfold loop_body.
  destruct (in_warmup config i).
  - exact Hst.
  - destruct (decide config shortSMA longSMA rsi aiSignalMap i (MarketData.date d))
      as [signal reason].
    apply (execute_trade_never_short signal reason (MarketData.date d) Hp) in Hst.
    exact Hst.
Qed.

Lemma run_loop_never_short config shortSMA longSMA rsi aiSignalMap
    (bars : list (nat * MarketData.t)) (st : State.t) :
  Forall (fun bar => nonneg (MarketData.close (snd bar))) bars -> never_short st ->
  never_short (run_loop config shortSMA longSMA rsi aiSignalMap bars st).
Proof.
  intros Hbars. revert st. induction Hbars as [|bar bars Hbar _ IH]; intros st Hst.
  - exact Hst.
  - unfold run_loop in *. simpl. apply IH. apply loop_body_never_short; assumption.
Qed.

Lemma simulate_never_short data config aiSignals rsi (n : nat) :
  nonneg_closes data -> (zero <? StrategyConfig.initialCapital config) = true ->
  never_short (simulate data config aiSignals rsi n).
Proof.
  intros Hnn Hcap. unfold simulate. apply run_loop_never_short.
  - apply Forall_forall. intros bar Hin.
    apply (proj1 (Forall_forall _ _) Hnn (snd bar)).
    apply (@in_firstn_indexed _ data n bar Hin).
  - split; cbn [initial_state State.cash State.holdings]; [|reflexivity].
    apply nonneg_not_negative. apply positive_nonneg.
    unfold gtb. unfold ltb in Hcap.
    destruct (StrategyConfig.initialCapital config) as [c| | |];
      try discriminate Hcap; [|reflexivity].
    simpl in *. rewrite <- (Qcompare_antisym 0 c).
    destruct (0 ?= c)%Q; try discriminate Hcap. reflexivity.
Qed.

(** From finite cash and finite holdings, no trade at a price that is not
    negative can leave a negative or undefined cash. *)
Lemma execute_trade_cash_nonneg signal reason price date (st : State.t) (c h : Q) :
  nonneg price -> State.cash st = Fin c -> (0 <= c)%Q -> State.holdings st = Fin h ->
  nonneg (State.cash (execute_trade signal reason price date st)).
Proof.
  intros Hp Hc Hc0 Hh.
  assert (Hsame : nonneg (State.cash st)) by (rewrite Hc; apply nonneg_Fin; exact Hc0).
  unfold execute_trade.
  destruct (SignalType_eqb signal BUY && (State.cash st >? price)).
  - match goal with |- context [if ?c then _ else st] => destruct c eqn:Hamount end;
      [|exact Hsame].
    match goal with |- context [if ?c then _ else st] => destruct c eqn:Hcost end;
      [|exact Hsame].
    cbn [State.cash]. rewrite Hc in *. apply nonneg_sub_Fin. exact Hcost.
  - destruct (SignalType_eqb signal SELL && (State.holdings st >? zero)) eqn:Hsell;
      [|exact Hsame].
    apply andb_true_iff in Hsell. destruct Hsell as [_ Hheld].
    cbn [State.cash]. rewrite Hc, Hh in *. apply gtb_Fin in Hheld.
    apply nonneg_add; [apply nonneg_Fin; exact Hc0|].
    apply nonneg_mul_Fin_pos; assumption.
Qed.

(** C6, as the specification words it, fails.  The closes [1e-300], [1e10]
    and [1] are not negative and the capital, 1000, is positive.  Bought at
    the first close, the holdings are 9.9e302 units; sold at the second,
    they are worth more than binary64 can hold and the cash overflows to
    [Infinity]; the third bar buys for a cost of [Infinity], and the cash
    is [Infinity - Infinity], which is [NaN]: [cash >= 0] is false. *)
Lemma C6_cash_overflows_to_NaN :
  let config := Binary64.ai_config Binary64.thousand 10 50 14 in
  let run := Binary64.simulate Binary64.tiny_large_one config
               (Some Binary64.buy_sell_buy) [] in
  Binary64.nonneg_closes Binary64.tiny_large_one /\
  (PrimFloat.zero <? Binary64.StrategyConfig.initialCapital config)%b64 = true /\
  map Binary64.Trade.type (Binary64.State.trades (run 3%nat)) = [BUY; SELL; BUY] /\
  Binary64.to_number (Binary64.State.cash (run 0%nat)) = Fin 1000 /\
  Binary64.to_number (Binary64.State.cash (run 2%nat)) = PInf /\
  Binary64.to_number (Binary64.State.cash (run 3%nat)) = NaN /\
  ~ Binary64.nonneg (Binary64.State.cash (run 3%nat)).
Proof.
  intros config run. split.
  - repeat constructor.
  - repeat split; try (vm_compute; reflexivity).
    unfold Binary64.nonneg. vm_compute. discriminate.
Qed.

(** C6 (amended): on a series of closes that are not negative and from a
    positive capital, the simulation starts with [cash = initialCapital]
    and [holdings = 0], and after every number [n] of iterations of the
    loop the holdings are at least 0 and the cash is at least 0 or is
    [NaN]; and an iteration that starts from finite cash and finite
    holdings ends with [cash >= 0]. *)
Theorem C6_cash_and_holdings_never_negative :
  forall (data : list MarketData.t) (config : StrategyConfig.t)
         (aiSignals : option (list AiSignal.t)) (rsi : list number),
    nonneg_closes data ->
    (zero <? StrategyConfig.initialCapital config) = true ->
    State.cash (simulate data config aiSignals rsi 0)
      = StrategyConfig.initialCapital config /\
    State.holdings (simulate data config aiSignals rsi 0) = zero /\
    forall n,
      nonneg (State.holdings (simulate data config aiSignals rsi n)) /\
      (nonneg (State.cash (simulate data config aiSignals rsi n)) \/
       is_nan (State.cash (simulate data config aiSignals rsi n))) /\
      (is_finite (State.cash (simulate data config aiSignals rsi n)) ->
       is_finite (State.holdings (simulate data config aiSignals rsi n)) ->
       nonneg (State.cash (simulate data config aiSignals rsi (S n)))).
Proof.
  intros data config aiSignals rsi Hnn Hcap.
  split; [reflexivity|]. split; [reflexivity|]. intros n.
  destruct (@simulate_never_short data config aiSignals rsi n Hnn Hcap) as [Hc Hh].
  split; [exact Hh|]. split; [apply not_negative_nonneg_or_NaN; exact Hc|].
  intros Hcfin Hhfin.
  destruct (State.cash (simulate data config aiSignals rsi n)) as [c| | |] eqn:Ec;
    try contradiction.
  destruct (State.holdings (simulate data config aiSignals rsi n)) as [h| | |] eqn:Eh;
    try contradiction.
  apply not_negative_Fin in Hc.
  destruct (nth_error data n) as [d|] eqn:Ed.
  - rewrite (simulate_S _ _ _ _ _ Ed). unfold loop_body.
    destruct (in_warmup config n).
    + cbn [State.cash]. rewrite Ec. apply nonneg_Fin. exact Hc.
    + destruct (decide _ _ _ _ _ _ _) as [signal reason].
      unfold record_equity. cbn [State.cash].
      apply (@execute_trade_cash_nonneg signal reason (MarketData.close d)
               (MarketData.date d) _ c h); try assumption.
      apply (proj1 (Forall_forall _ _) Hnn d). apply (nth_error_In _ _ Ed).
  - apply nth_error_None in Ed.
    assert (E : simulate data config aiSignals rsi (S n)
                = simulate data config aiSignals rsi n).
    { unfold simulate. rewrite !firstn_all2 by (rewrite indexed_length; lia).
      reflexivity. }
    rewrite E, Ec. apply nonneg_Fin. exact Hc.
Qed.

Lemma C6_cash_and_holdings_never_negative_witness :
  nonneg_closes up_and_down /\
  (zero <? StrategyConfig.initialCapital (algo_config 1000 1 2 1)) = true /\
  nonneg (State.holdings (simulate up_and_down (algo_config 1000 1 2 1) None [] 5)) /\
  (nonneg (State.cash (simulate up_and_down (algo_config 1000 1 2 1) None [] 5)) \/
   is_nan (State.cash (simulate up_and_down (algo_config 1000 1 2 1) None [] 5))).
Proof.
  assert (Hnn : nonneg_closes up_and_down) by (repeat constructor).
  assert (Hcap : (zero <? StrategyConfig.initialCapital (algo_config 1000 1 2 1)) = true)
    by reflexivity.
  split; [exact Hnn|]. split; [exact Hcap|].
  destruct (proj2 (proj2 (@C6_cash_and_holdings_never_negative up_and_down
                            (algo_config 1000 1 2 1) None [] Hnn Hcap)) 5%nat)
    as (Hh & Hc & _).
  split; [exact Hh | exact Hc].
Defined.

(* ------------------------------------------------------------------ *)
(** ** calculateSMA *)

Lemma mapi_from_constant {A B : Type} (f : A -> nat -> B) (c : B) (s : nat) (l : list A) :
  (forall k x, nth_error l k = Some x -> f x (s + k)%nat = c) ->
  Array.mapi_from f s l = repeat c (length l).
Proof.
  revert s. induction l as [|x l IH]; intros s H.
  - reflexivity.
  - simpl. f_equal.
    + rewrite <- (H 0%nat x eq_refl). f_equal. lia.
    + apply IH. intros k y Hk.
      replace (S s + k)%nat with (s + S k)%nat by lia. apply H. exact Hk.
Qed.

Lemma slice_empty {A : Type} (arr : list A) (start stop : Z) :
  (0 <= stop <= start)%Z -> Array.slice arr start stop = [].
Proof.
  intros H. unfold Array.slice, Array.rel_index.
  destruct (Z.ltb_spec start 0); [lia|]. destruct (Z.ltb_spec stop 0); [lia|].
  replace (Z.to_nat (Z.min stop (Z.of_nat (length arr)))
           - Z.to_nat (Z.min start (Z.of_nat (length arr))))%nat with 0%nat by lia.
  reflexivity.
Qed.

Lemma mapi_from_length {A B : Type} (f : A -> nat -> B) (s : nat) (arr : list A) :
  length (Array.mapi_from f s arr) = length arr.
Proof.
  revert s. induction arr as [|x arr IH]; intros s; simpl; [reflexivity|].
  rewrite IH. reflexivity.
Qed.

Lemma nth_error_mapi_from {A B : Type} (f : A -> nat -> B) (s : nat) (arr : list A)
    (i : nat) (x : A) :
  nth_error arr i = Some x ->
  nth_error (Array.mapi_from f s arr) i = Some (f x (s + i)%nat).
Proof.
  revert s i. induction arr as [|y arr IH]; intros s i H.
  - destruct i; discriminate H.
  - destruct i as [|i]; simpl in *.
    + inversion H. subst. rewrite Nat.add_0_r. reflexivity.
    + rewrite (IH (S s) i H). f_equal. f_equal. lia.
Qed.

Lemma nth_error_mapi {A B : Type} (f : A -> nat -> B) (arr : list A) (i : nat) (x : A) :
  nth_error arr i = Some x -> nth_error (Array.mapi f arr) i = Some (f x i).
Proof. intros H. unfold Array.mapi. rewrite (nth_error_mapi_from f 0 arr i H). reflexivity. Qed.

Lemma skipn_nth_cons {A : Type} (l : list A) (n : nat) (x : A) :
  nth_error l n = Some x -> skipn n l = x :: skipn (S n) l.
Proof.
  revert n. induction l as [|y l IH]; intros n H.
  - destruct n; discriminate H.
  - destruct n as [|n]; simpl in *.
    + inversion H. reflexivity.
    + apply IH. exact H.
Qed.

(** The window that [slice] cuts out is the one the specification names. *)
Lemma slice_window (data : list MarketData.t) (i : nat) (w : Z) :
  (0 < w)%Z -> (w - 1 <= Z.of_nat i)%Z -> (i < length data)%nat ->
  Array.slice data (Z.of_nat i - w + 1) (Z.of_nat i + 1) =
  firstn (Z.to_nat w) (skipn (i + 1 - Z.to_nat w) data).
Proof.
  intros Hw Hi Hlen. unfold Array.slice, Array.rel_index.
  destruct (Z.ltb_spec (Z.of_nat i - w + 1) 0) as [Hneg|_]; [lia|].
  destruct (Z.ltb_spec (Z.of_nat i + 1) 0) as [Hneg|_]; [lia|].
  rewrite !Z.min_l by lia.
  replace (Z.to_nat (Z.of_nat i - w + 1)) with (i + 1 - Z.to_nat w)%nat by lia.
  replace (Z.to_nat (Z.of_nat i + 1) - (i + 1 - Z.to_nat w))%nat
    with (Z.to_nat w) by lia.
  reflexivity.
Qed.

Lemma window_closes (data : list MarketData.t) (n lo : nat) :
  (lo + n <= length data)%nat ->
  map close_q (firstn n (skipn lo data)) = closes_between data lo n.
Proof.
  revert lo. induction n as [|n IH]; intros lo Hlen.
  - reflexivity.
  - destruct (nth_error data lo) as [d|] eqn:Ed.
    2:{ apply nth_error_None in Ed. lia. }
    rewrite (skipn_nth_cons _ _ Ed).
    change (firstn (S n) (d :: skipn (S lo) data))
      with (d :: firstn n (skipn (S lo) data)).
    unfold closes_between in *. cbn [map seq].
    rewrite IH by lia. f_equal. unfold close_nth. rewrite Ed. reflexivity.
Qed.

Lemma sum_of_finite_closes (l : list MarketData.t) (a : Q) :
  finite_closes l ->
  exists s, fold_left (fun acc curr => acc + MarketData.close curr) l (Fin a) = Fin s /\
            (s == a + Qsum (map close_q l))%Q.
Proof.
  intros Hfin. revert a. induction Hfin as [|d l Hd _ IH]; intros a.
  - exists a. split; [reflexivity|]. simpl. lra.
  - simpl. unfold close_q at 1.
    destruct (MarketData.close d) as [c| | |]; try contradiction.
    cbn [add]. destruct (IH (Qred (a + c))) as [s [Hs Hsum]].
    exists s. split; [exact Hs|]. rewrite Hsum, Qred_correct. lra.
Qed.

Lemma finite_closes_window (data : list MarketData.t) (n lo : nat) :
  finite_closes data -> finite_closes (firstn n (skipn lo data)).
Proof.
  unfold finite_closes. rewrite !Forall_forall. intros H d Hin. apply H.
  rewrite <- (firstn_skipn lo data). apply in_or_app. right.
  rewrite <- (firstn_skipn n (skipn lo data)). apply in_or_app. left. exact Hin.
Qed.

(** The window that [slice] cuts out, for any array. *)
Lemma slice_trailing {A : Type} (arr : list A) (i : nat) (w : Z) :
  (0 < w)%Z -> (w - 1 <= Z.of_nat i)%Z -> (i < length arr)%nat ->
  Array.slice arr (Z.of_nat i - w + 1) (Z.of_nat i + 1) =
  firstn (Z.to_nat w) (skipn (i + 1 - Z.to_nat w) arr).
Proof.
  intros Hw Hi Hlen. unfold Array.slice, Array.rel_index.
  destruct (Z.ltb_spec (Z.of_nat i - w + 1) 0) as [Hneg|_]; [lia|].
  destruct (Z.ltb_spec (Z.of_nat i + 1) 0) as [Hneg|_]; [lia|].
  rewrite !Z.min_l by lia.
  replace (Z.to_nat (Z.of_nat i - w + 1)) with (i + 1 - Z.to_nat w)%nat by lia.
  replace (Z.to_nat (Z.of_nat i + 1) - (i + 1 - Z.to_nat w))%nat
    with (Z.to_nat w) by lia.
  reflexivity.
Qed.

(** [reduce] over a window of the array visits the indices of the window
    in order. *)
Lemma fold_left_trailing {A B C : Type} (f : B -> C -> B) (p : A -> C) (g : nat -> C)
    (l : list A) (n lo : nat) (a : B) :
  (forall k x, nth_error l k = Some x -> g k = p x) ->
  (lo + n <= length l)%nat ->
  fold_left (fun acc x => f acc (p x)) (firstn n (skipn lo l)) a =
  fold_left (fun acc k => f acc (g k)) (seq lo n) a.
Proof.
  intros Hg. revert lo a. induction n as [|n IH]; intros lo a Hlen.
  - reflexivity.
  - destruct (nth_error l lo) as [x|] eqn:Ex.
    2:{ apply nth_error_None in Ex. lia. }
    rewrite (skipn_nth_cons _ _ Ex).
    change (firstn (S n) (x :: skipn (S lo) l)) with (x :: firstn n (skipn (S lo) l)).
    cbn [fold_left seq]. rewrite (Hg lo x Ex). apply IH. lia.
Qed.

Lemma b64_window_sum (data : list Binary64.MarketData.t) (i : nat) (w : Z) :
  (0 < w)%Z -> (w - 1 <= Z.of_nat i)%Z -> (i < length data)%nat ->
  fold_left (fun acc curr => (acc + Binary64.MarketData.close curr)%b64)
            (Array.slice data (Z.of_nat i - w + 1) (Z.of_nat i + 1)) PrimFloat.zero
  = Binary64.window_sum data i (Z.to_nat w).
Proof.
  intros Hw Hi Hlen. rewrite slice_trailing by assumption.
  unfold Binary64.window_sum.
  apply (@fold_left_trailing _ _ _ PrimFloat.add Binary64.MarketData.close
           (Binary64.close_num data) data).
  - intros k x Hk. unfold Binary64.close_num. rewrite Hk. reflexivity.
  - lia.
Qed.

(** In exact arithmetic the entry at [i >= w - 1] is the arithmetic mean
    of the closes at indices [i-w+1] through [i]. *)
Lemma calculateSMA_exact_mean (data : list MarketData.t) (w : Z) (i : nat) :
  (0 < w)%Z -> finite_closes data -> (i < length data)%nat -> (w - 1 <= Z.of_nat i)%Z ->
  exists q, nth_error (calculateSMA data w) i = Some (Fin q) /\
            (q == mean_close data i (Z.to_nat w))%Q.
Proof.
  intros Hw Hfin Hlen Hi.
  destruct (nth_error data i) as [d|] eqn:Ed.
  2:{ apply nth_error_None in Ed. lia. }
  unfold calculateSMA. rewrite (nth_error_mapi _ _ _ Ed).
  destruct (Z.ltb_spec (Z.of_nat i) (w - 1)) as [Hlt|_]; [lia|].
  rewrite slice_window by assumption.
  destruct (@sum_of_finite_closes
              (firstn (Z.to_nat w) (skipn (i + 1 - Z.to_nat w) data)) 0)
    as [s [Hs Hsum]].
  { apply finite_closes_window. exact Hfin. }
  unfold zero. rewrite Hs. unfold of_Z.
  rewrite div_Fin_pos by (change 0%Q with (inject_Z 0); rewrite <- Zlt_Qlt; exact Hw).
  eexists. split; [reflexivity|].
  rewrite Qred_correct, Hsum, window_closes by lia.
  unfold mean_close. rewrite Z2Nat.id by lia. field.
  change 0%Q with (inject_Z 0). rewrite inject_Z_injective. lia.
Qed.

(** C5, as the specification words it, fails.  The three closes of
    [tenths] are the binary64 number nearest to 0.1, and so is their
    arithmetic mean; [calculateSMA] with [w = 3] adds them up with two
    roundings and returns 0.10000000000000002, the next binary64 number
    above it. *)
Lemma C5_mean_of_tenths_is_rounded :
  map (fun d => Binary64.to_number (Binary64.MarketData.close d)) Binary64.tenths
    = [Fin binary64_tenth; Fin binary64_tenth; Fin binary64_tenth] /\
  (mean_close (map to_exact Binary64.tenths) 2 3 == binary64_tenth)%Q /\
  exists x,
    nth_error (Binary64.calculateSMA Binary64.tenths 3) 2 = Some x /\
    (Fin (mean_close (map to_exact Binary64.tenths) 2 3) <? Binary64.to_number x) = true /\
    ~ (Binary64.to_number x ~~ Fin (mean_close (map to_exact Binary64.tenths) 2 3)).
Proof.
  split; [vm_compute; reflexivity|]. split; [vm_compute; reflexivity|].
  eexists. split; [vm_compute; reflexivity|]. split; [vm_compute; reflexivity|].
  vm_compute. discriminate.
Qed.

(** C5 (amended): [calculateSMA] returns a sequence of the length of the
    series; for a positive window [w] its entry [i] is [NaN] when
    [i < w - 1] and is otherwise the mean as binary64 computes it: the
    closes at indices [i-w+1] through [i] added one by one to 0, in index
    order, and the sum divided by [w].  Closes [10, 20, 30, 40] with
    [w = 2] give [NaN, 15, 25, 35].  On real closes the entry is [NaN]
    exactly when [i < w - 1]. *)
Theorem C5_sma_is_computed_trailing_mean :
  (forall (data : list Binary64.MarketData.t) (w : Z),
     length (Binary64.calculateSMA data w) = length data /\
     ((0 < w)%Z ->
      forall i, (i < length data)%nat ->
        ((Z.of_nat i < w - 1)%Z ->
           nth_error (Binary64.calculateSMA data w) i = Some PrimFloat.nan) /\
        ((w - 1 <= Z.of_nat i)%Z ->
           nth_error (Binary64.calculateSMA data w) i
           = Some (Binary64.window_sum data i (Z.to_nat w) / Binary64.of_Z w)%b64))) /\
  map Binary64.to_number (Binary64.calculateSMA Binary64.closes_10_to_40 2)
    = [NaN; Fin 15; Fin 25; Fin 35] /\
  (forall (data : list MarketData.t) (w : Z),
     (0 < w)%Z -> finite_closes data ->
     forall i, (i < length data)%nat ->
       ((Z.of_nat i < w - 1)%Z <->
        exists x, nth_error (calculateSMA data w) i = Some x /\ is_nan x)).
Proof.
  split; [|split].
  - intros data w. split.
    + unfold Binary64.calculateSMA, Array.mapi. apply mapi_from_length.
    + intros Hw i Hlen.
      destruct (nth_error data i) as [d|] eqn:Ed.
      2:{ apply nth_error_None in Ed. lia. }
      unfold Binary64.calculateSMA. rewrite (nth_error_mapi _ _ _ Ed). split.
      * intros Hi. destruct (Z.ltb_spec (Z.of_nat i) (w - 1)); [reflexivity | lia].
      * intros Hi. destruct (Z.ltb_spec (Z.of_nat i) (w - 1)) as [Hlt|_]; [lia|].
        rewrite b64_window_sum by assumption. reflexivity.
  - vm_compute. reflexivity.
  - intros data w Hw Hfin i Hlen.
    destruct (nth_error data i) as [d|] eqn:Ed.
    2:{ apply nth_error_None in Ed. lia. }
    split.
    + intros Hi. exists NaN. split; [|exact I].
      unfold calculateSMA. rewrite (nth_error_mapi _ _ _ Ed).
      destruct (Z.ltb_spec (Z.of_nat i) (w - 1)); [reflexivity | lia].
    + intros [x [Hx Hnan]].
      destruct (Z.lt_ge_cases (Z.of_nat i) (w - 1)) as [Hlt|Hge]; [exact Hlt|].
      destruct (@calculateSMA_exact_mean data w i Hw Hfin Hlen Hge) as [q [Hq _]].
      rewrite Hq in Hx. inversion Hx. subst x. contradiction Hnan.
Qed.

Lemma C5_sma_is_computed_trailing_mean_witness :
  (0 < 3)%Z /\ (2 < length Binary64.tenths)%nat /\ (3 - 1 <= Z.of_nat 2)%Z /\
  nth_error (Binary64.calculateSMA Binary64.tenths 3) 2
  = Some (Binary64.window_sum Binary64.tenths 2 (Z.to_nat 3) / Binary64.of_Z 3)%b64.
Proof.
  assert (Hw : (0 < 3)%Z) by lia.
  assert (Hlen : (2 < length Binary64.tenths)%nat) by (simpl; lia).
  assert (Hi : (3 - 1 <= Z.of_nat 2)%Z) by lia.
  split; [exact Hw|]. split; [exact Hlen|]. split; [exact Hi|].
  exact (proj2 (proj2 (proj1 C5_sma_is_computed_trailing_mean Binary64.tenths 3%Z)
                  Hw 2%nat Hlen) Hi).
Defined.

(* ------------------------------------------------------------------ *)
(** ** Configurations outside the constraints *)

Lemma Forall_mapi_from {A B : Type} (P : B -> Prop) (f : A -> nat -> B) (s : nat)
    (l : list A) :
  (forall x i, P (f x i)) -> Forall P (Array.mapi_from f s l).
Proof.
  intros H. revert s. induction l as [|x l IH]; intros s; simpl; constructor; auto.
Qed.

(** With a window that is not positive every slice is empty: the entries
    are [0 / 0], that is [NaN], for the window 0, and [0 / w], that is 0,
    for a negative one. *)
Lemma calculateSMA_nonpositive_window (data : list MarketData.t) (w : Z) :
  (w <= 0)%Z -> undefined_or_zero (calculateSMA data w).
Proof.
  intros Hw. unfold undefined_or_zero, calculateSMA, Array.mapi.
  apply Forall_mapi_from. intros d i.
  destruct (Z.ltb_spec (Z.of_nat i) (w - 1)) as [Hlt|_]; [lia|].
  rewrite slice_empty by lia. cbn [fold_left].
  destruct (Z.eq_dec w 0) as [->|Hne].
  - left. reflexivity.
  - right. unfold zero, of_Z.
    assert (Hsign : sign (inject_Z w) = Lt).
    { apply sign_Lt. change 0%Q with (inject_Z 0). rewrite <- Zlt_Qlt. lia. }
    cbn [div]. rewrite Hsign. unfold fin. f_equal.
Qed.

Lemma get_num_undefined_or_zero (arr : list number) (i : Z) :
  undefined_or_zero arr -> Array.get_num arr i = NaN \/ Array.get_num arr i = zero.
Proof.
  intros H. unfold Array.get_num, Array.get.
  destruct (i <? 0)%Z; [left; reflexivity|].
  destruct (nth_error arr (Z.to_nat i)) as [x|] eqn:E; [|left; reflexivity].
  exact (proj1 (Forall_forall _ _) H x (nth_error_In _ _ E)).
Qed.

(** Averages that are nowhere above or below one another show no
    crossover: in rule mode without the RSI filter every bar is decided
    HOLD. *)
Lemma decide_hold_without_averages config shortSMA longSMA rsi aiSignalMap
    (i : nat) (date : string) :
  StrategyConfig.mode config = ALGO ->
  StrategyConfig.useRsiFilter config = false ->
  undefined_or_zero shortSMA -> undefined_or_zero longSMA ->
  decide config shortSMA longSMA rsi aiSignalMap i date = (HOLD, "").
Proof.
  intros Hmode Hfilter Hshort Hlong. unfold decide.
  rewrite Hmode, Hfilter. cbn [Mode_eqb negb orb andb].
  destruct (@compare_undefined_or_zero _ _
              (@get_num_undefined_or_zero shortSMA (Z.of_nat i) Hshort)
              (@get_num_undefined_or_zero longSMA (Z.of_nat i) Hlong)) as [Hgt Hlt].
  rewrite Hgt, Hlt, !andb_false_r. reflexivity.
Qed.

Lemma run_loop_without_averages config shortSMA longSMA rsi aiSignalMap
    (bars : list (nat * MarketData.t)) (st : State.t) :
  StrategyConfig.mode config = ALGO ->
  StrategyConfig.useRsiFilter config = false ->
  undefined_or_zero shortSMA -> undefined_or_zero longSMA ->
  let st' := run_loop config shortSMA longSMA rsi aiSignalMap bars st in
  State.trades st' = State.trades st /\
  State.cash st' = State.cash st /\
  State.holdings st' = State.holdings st.
Proof.
  intros Hmode Hfilter Hshort Hlong. revert st.
  induction bars as [|[i d] bars IH]; intros st.
  - repeat split.
  - unfold run_loop in *. cbn [fold_left].
    destruct (IH (loop_body config shortSMA longSMA rsi aiSignalMap st (i, d)))
      as (Ht & Hc & Hh).
    rewrite Ht, Hc, Hh. unfold loop_body.
    destruct (in_warmup config i); [repeat split|].
    rewrite (@decide_hold_without_averages config shortSMA longSMA rsi aiSignalMap i
               (MarketData.date d) Hmode Hfilter Hshort Hlong).
    repeat split.
Qed.

(** C7, as the specification words it, fails: a configuration with capital
    [0], windows [0] and [-1] and RSI period [0] is not rejected, the run
    returns a report. *)
Lemma C7_invalid_config_accepted :
  ~ valid_config degenerate_config /\
  runBacktest one_bar degenerate_config None =
  Return (BacktestResult.mk [] zero NaN zero zero
            [HistoryEntry.mk "2024-01-01" zero]).
Proof.
  split.
  - intros [Hcap _]. discriminate Hcap.
  - vm_compute. reflexivity.
Qed.

(** C7 (amended): [runBacktest] does not validate its configuration and
    has no [InvalidConfig] error.  On a non-empty series every
    configuration with integer windows and an integer [rsiPeriod >= 0],
    whatever the windows and the capital, yields a [BacktestResult]; a
    negative [rsiPeriod] makes [calculateRSI] raise [TypeError] before the
    loop starts; no exception is ever named [InvalidConfig].  The report
    is computed from the values as given, not from clamped ones: a window
    that is not positive gives a moving average that is [NaN] or 0 at
    every index; in rule mode the history entry of a first bar within the
    warm-up carries the capital as given; and in rule mode with both
    windows not positive and the RSI filter off, the averages show no
    crossover, no trade is made and the cash stays at the capital as
    given. *)
Theorem C7_no_config_validation :
  forall (data : list MarketData.t) (config : StrategyConfig.t)
         (aiSignals : option (list AiSignal.t)),
    data <> [] ->
    ((0 <= StrategyConfig.rsiPeriod config)%Z ->
       exists r, runBacktest data config aiSignals = Return r) /\
    ((StrategyConfig.rsiPeriod config < 0)%Z ->
       calculateRSI data (StrategyConfig.rsiPeriod config) = Throw TypeError /\
       runBacktest data config aiSignals = Throw TypeError) /\
    (forall e, runBacktest data config aiSignals = Throw e ->
               error_name e <> "InvalidConfig") /\
    (forall w, (w <= 0)%Z -> undefined_or_zero (calculateSMA data w)) /\
    (forall r, runBacktest data config aiSignals = Return r ->
       (StrategyConfig.mode config = ALGO ->
        (0 < Z.max (StrategyConfig.longWindow config)
                   (StrategyConfig.rsiPeriod config))%Z ->
        exists d, nth_error data 0 = Some d /\
                  nth_error (BacktestResult.history r) 0 =
                    Some (HistoryEntry.mk (MarketData.date d)
                            (StrategyConfig.initialCapital config))) /\
       (StrategyConfig.mode config = ALGO ->
        StrategyConfig.useRsiFilter config = false ->
        (StrategyConfig.shortWindow config <= 0)%Z ->
        (StrategyConfig.longWindow config <= 0)%Z ->
        BacktestResult.trades r = [] /\
        forall rsi n,
          State.cash (simulate data config aiSignals rsi n)
            = StrategyConfig.initialCapital config /\
          State.holdings (simulate data config aiSignals rsi n) = zero)).
Proof.
  intros data config aiSignals Hne.
  split; [intros Hp; apply runBacktest_total; assumption|].
  split.
  { intros Hp. split; [apply calculateRSI_negative_period; assumption|].
    unfold runBacktest. rewrite calculateRSI_negative_period by assumption.
    reflexivity. }
  split; [intros e _; destruct e; discriminate|].
  split; [intros w Hw; apply calculateSMA_nonpositive_window; exact Hw|].
  intros r Hr.
  destruct (runBacktest_Return_inv _ _ _ Hr) as [rsi [_ [Htrades [Hhist _]]]].
  split.
  - intros Hmode Hwarm.
    destruct data as [|d rest]; [congruence|]. exists d. split; [reflexivity|].
    destruct (simulate_history_prefix (d :: rest) config aiSignals rsi 1) as [more Hmore].
    rewrite Hhist, Hmore.
    rewrite (@warmup_state (d :: rest) config aiSignals rsi 1 Hmode)
      by (simpl; lia).
    reflexivity.
  - intros Hmode Hfilter Hshort Hlong.
    assert (Hsim : forall rsi' n,
               State.trades (simulate data config aiSignals rsi' n) = [] /\
               State.cash (simulate data config aiSignals rsi' n)
                 = StrategyConfig.initialCapital config /\
               State.holdings (simulate data config aiSignals rsi' n) = zero).
    { intros rsi' n. unfold simulate.
      apply (@run_loop_without_averages config
               (calculateSMA data (StrategyConfig.shortWindow config))
               (calculateSMA data (StrategyConfig.longWindow config))
               rsi' (build_signal_map config aiSignals)
               (firstn n (Array.indexed data)) (initial_state config)
               Hmode Hfilter);
        apply calculateSMA_nonpositive_window; assumption. }
    split.
    + rewrite Htrades. apply Hsim.
    + intros rsi' n. split; apply Hsim.
Qed.

Lemma C7_no_config_validation_witness :
  one_bar <> [] /\
  (0 <= StrategyConfig.rsiPeriod degenerate_config)%Z /\
  exists r, runBacktest one_bar degenerate_config None = Return r.
Proof.
  assert (Hne : one_bar <> []) by discriminate.
  assert (Hp : (0 <= StrategyConfig.rsiPeriod degenerate_config)%Z) by (simpl; lia).
  split; [exact Hne|]. split; [exact Hp|].
  exact (proj1 (@C7_no_config_validation one_bar degenerate_config None Hne) Hp).
Defined.

(* ------------------------------------------------------------------ *)
(** ** Win rate *)
















(* ------------------------------------------------------------------ *)
(** ** calculateRSI on a rising series *)

Lemma ltb_fin_l (a b : Q) : (fin a <? Fin b) = (Fin a <? Fin b).
Proof. unfold fin, ltb. simpl. rewrite compare_Qred_l. reflexivity. Qed.

Lemma gtb_true_ltb_false (x y : number) : (x >? y) = true -> (x <? y) = false.
Proof. unfold gtb, ltb. destruct (cmp x y) as [[| |]|]; congruence. Qed.

(** With no loss the guard divides the average gain by [1]: the value is
    [100 - 100 / (1 + avgGain)], below [100] in exact arithmetic. *)
Lemma rsi_value_no_loss (g : Q) :
  (0 < g)%Q ->
  exists q, rsi_value (Fin g) zero = Fin q /\
            (q == 100 - 100 / (1 + g))%Q /\ (0 < q < 100)%Q.
Proof.
  intros Hg. unfold rsi_value.
  change (zero === zero) with true. cbn iota.
  unfold one, hundred. rewrite div_Fin_pos by reflexivity. cbn [add fin].
  assert (Hden : (Qred (1 + Qred (g / 1)) == 1 + g)%Q).
  { rewrite !Qred_correct. field. }
  unfold fin at 1. rewrite div_Fin_pos by (rewrite Hden; lra). cbn [sub fin].
  eexists. split; [reflexivity|].
  assert (Hval : (Qred (100 - Qred (100 / Qred (1 + Qred (g / 1))))
                  == 100 - 100 / (1 + g))%Q).
  { rewrite !Qred_correct. field. lra. }
  split; [exact Hval|]. rewrite Hval.
  assert (H1 : (0 < 100 / (1 + g))%Q) by (apply Qlt_shift_div_l; lra).
  assert (H2 : (100 / (1 + g) < 100)%Q) by (apply Qlt_shift_div_r; lra).
  lra.
Qed.

(** With no loss and a gain above 0, real or infinite, the value is a
    percentage; it is 100 when the gain is infinite. *)
Lemma rsi_value_positive_gain (g : number) :
  (g >? zero) = true ->
  rsi_value g zero = hundred - hundred / (one + g / one) /\
  exists q, rsi_value g zero = Fin q /\ (0 <= q <= 100)%Q.
Proof.
  intros Hg. split; [reflexivity|].
  apply positive_cases in Hg. destruct g as [a| | |]; try contradiction.
  - destruct (rsi_value_no_loss Hg) as [q [Hq [_ Hbounds]]].
    exists q. split; [exact Hq|]. split; apply Qlt_le_weak; apply Hbounds.
  - exists 100%Q. split; [reflexivity|]. split; discriminate.
Qed.

Lemma set_nat_length {A : Type} (hole : A) (arr : list A) (i : nat) (v : A) :
  (i < length arr)%nat -> length (Array.set_nat hole arr i v) = length arr.
Proof.
  revert i. induction arr as [|x arr IH]; intros i H; simpl in H; [lia|].
  destruct i as [|i]; simpl; [reflexivity|]. rewrite IH by lia. reflexivity.
Qed.

Lemma nth_error_set_nat {A : Type} (hole : A) (arr : list A) (i j : nat) (v : A) :
  (i < length arr)%nat ->
  nth_error (Array.set_nat hole arr i v) j =
  if Nat.eqb j i then Some v else nth_error arr j.
Proof.
  revert i j. induction arr as [|x arr IH]; intros i j H; simpl in H; [lia|].
  destruct i as [|i], j as [|j]; simpl; try reflexivity.
  apply IH. lia.
Qed.

Lemma set_in_range {A : Type} (hole : A) (arr : list A) (i : nat) (v : A) :
  Array.set hole arr (Z.of_nat i) v = Array.set_nat hole arr i v.
Proof.
  unfold Array.set. destruct (Z.ltb_spec (Z.of_nat i) 0); [lia|].
  rewrite Nat2Z.id. reflexivity.
Qed.

Lemma close_at_finite (data : list MarketData.t) (i : nat) :
  finite_closes data -> (i < length data)%nat ->
  close_at data (Z.of_nat i) = Return (Fin (close_nth data i)).
Proof.
  intros Hfin Hi. unfold close_at, close_nth, close_q. rewrite get_in_range.
  destruct (nth_error data i) as [d|] eqn:Ed.
  2:{ apply nth_error_None in Ed. lia. }
  pose proof (proj1 (Forall_forall _ _) Hfin d (nth_error_In _ _ Ed)) as Hd.
  simpl in Hd. destruct (MarketData.close d); try contradiction. reflexivity.
Qed.

Lemma close_at_num (data : list MarketData.t) (i : nat) :
  (i < length data)%nat -> close_at data (Z.of_nat i) = Return (close_num data i).
Proof.
  intros Hi. unfold close_at, close_num. rewrite get_in_range.
  destruct (nth_error data i) as [d|] eqn:Ed; [reflexivity|].
  apply nth_error_None in Ed. lia.
Qed.

(** On a rising series each day-over-day difference is above 0. *)
Lemma rising_gain (data : list MarketData.t) (i : nat) :
  strictly_rising data -> (S i < length data)%nat ->
  (close_num data (S i) - close_num data i >? zero) = true.
Proof.
  intros Hrise Hi. unfold close_num.
  destruct (nth_error data i) as [d|] eqn:Ed.
  2:{ apply nth_error_None in Ed. lia. }
  destruct (nth_error data (S i)) as [d'|] eqn:Ed'.
  2:{ apply nth_error_None in Ed'. lia. }
  apply ltb_sub_positive. exact (Hrise i d d' Ed Ed').
Qed.

(** One smoothing step on a rising series: no loss, and the average gain
    of the next index, above 0. *)
Lemma smooth_step_rising (data : list MarketData.t) (i : nat) (st : Rsi.t) :
  strictly_rising data -> (1 <= i)%nat -> (i < length data)%nat ->
  Rsi.avgLoss st = zero -> (Rsi.avgGain st >? zero) = true ->
  let g' := (Rsi.avgGain st * of_Z (2 - 1)
             + (close_num data i - close_num data (i - 1))) / of_Z 2 in
  rsi_smooth_body data 2 (Z.of_nat i) st =
    Return (Rsi.mk g' zero (Array.set_nat NaN (Rsi.rsiArray st) i (rsi_value g' zero))) /\
  (g' >? zero) = true.
Proof.
  intros Hrise Hi1 Hilen Hloss Hgain g'.
  pose proof (@rising_gain data (i - 1) Hrise) as Hup.
  replace (S (i - 1)) with i in Hup by lia. specialize (Hup Hilen).
  split.
  - unfold rsi_smooth_body.
    rewrite (close_at_num data Hilen).
    replace (Z.of_nat i - 1)%Z with (Z.of_nat (i - 1)) by lia.
    rewrite (@close_at_num data (i - 1)) by lia.
    cbn [bind]. rewrite Hup, (gtb_true_ltb_false _ _ Hup), Hloss, set_in_range.
    change ((zero * of_Z (2 - 1) + zero) / of_Z 2) with zero.
    reflexivity.
  - subst g'. apply positive_div_two. apply positive_add; [|exact Hup].
    apply positive_mul_one. exact Hgain.
Qed.

Lemma average_gain_S (data : list MarketData.t) (i : nat) :
  (2 <= i)%nat ->
  average_gain data (S i - 2) =
  (average_gain data (i - 2) * of_Z (2 - 1)
   + (close_num data (S i) - close_num data i)) / of_Z 2.
Proof.
  intros Hi. replace (S i - 2)%nat with (S (i - 2)) by lia. cbn [average_gain].
  replace (i - 2 + 3)%nat with (S i) by lia.
  replace (i - 2 + 2)%nat with i by lia. reflexivity.
Qed.

Lemma rsi_seeded_rising (data : list MarketData.t) :
  strictly_rising data -> (3 <= length data)%nat ->
  exists st, rsi_seeded data 2 = Return st /\ rsi_rising_state data 2 st.
Proof.
  intros Hrise Hlen.
  pose proof (@rising_gain data 0 Hrise ltac:(lia)) as H01.
  pose proof (@rising_gain data 1 Hrise ltac:(lia)) as H12.
  unfold rsi_seeded, rsi_seed.
  change (zrange 1 (2 + 1)) with [Z.of_nat 1; Z.of_nat 2].
  cbn [for_each]. unfold rsi_seed_body at 1.
  rewrite (@close_at_num data 1) by lia.
  change (Z.of_nat 1 - 1)%Z with (Z.of_nat 0).
  rewrite (@close_at_num data 0) by lia.
  cbn [bind]. rewrite H01. cbn [bind]. unfold rsi_seed_body.
  rewrite (@close_at_num data 2) by lia.
  change (Z.of_nat 2 - 1)%Z with (Z.of_nat 1).
  rewrite (@close_at_num data 1) by lia.
  cbn [bind]. rewrite H12. cbn [bind].
  change (zero / of_Z 2) with zero.
  change ((zero + (close_num data 1 - close_num data 0)
                + (close_num data 2 - close_num data 1)) / of_Z 2)
    with (average_gain data 0).
  assert (Hg : (average_gain data 0 >? zero) = true).
  { cbn [average_gain]. apply positive_div_two.
    apply positive_add; [|exact H12]. apply zero_add_positive. exact H01. }
  destruct (rsi_value_positive_gain _ Hg) as [Hformula Hbounds].
  change 2%Z with (Z.of_nat 2). rewrite set_in_range.
  eexists. split; [reflexivity|].
  assert (Hrep : (2 < length (repeat NaN (length data)))%nat)
    by (rewrite repeat_length; lia).
  unfold rsi_rising_state. cbn [Rsi.avgLoss Rsi.avgGain Rsi.rsiArray].
  split; [reflexivity|]. split; [reflexivity|]. split; [exact Hg|].
  split; [rewrite set_nat_length, repeat_length by exact Hrep; reflexivity|].
  split.
  - intros j Hj. rewrite nth_error_set_nat by exact Hrep.
    destruct (Nat.eqb_spec j 2); [lia|]. apply nth_error_repeat. lia.
  - intros j Hj. assert (j = 2%nat) by lia. subst j.
    rewrite nth_error_set_nat by exact Hrep. cbn [Nat.eqb Nat.sub].
    split; [rewrite Hformula; reflexivity|].
    destruct Hbounds as [q [Hq Hq0]]. exists q. rewrite Hq. split; [reflexivity | exact Hq0].
Qed.

Lemma rsi_smooth_loop_rising (data : list MarketData.t) :
  strictly_rising data ->
  forall (n i : nat) (st : Rsi.t),
    (2 <= i)%nat -> (i + n + 1 = length data)%nat ->
    rsi_rising_state data i st ->
    exists st',
      for_each (rsi_smooth_body data 2)
               (zrange (Z.of_nat i + 1) (Z.of_nat (length data))) st = Return st' /\
      rsi_rising_state data (length data - 1) st'.
Proof.
  intros Hrise. induction n as [|n IH]; intros i st Hi Hlen Hst.
  - rewrite zrange_empty by lia. exists st. split; [reflexivity|].
    replace (length data - 1)%nat with i by lia. exact Hst.
  - rewrite zrange_cons by lia. cbn [for_each].
    destruct Hst as (Hloss & Hgain & Hgpos & Harr & Hlow & Hvals).
    replace (Z.of_nat i + 1)%Z with (Z.of_nat (S i)) by lia.
    destruct (@smooth_step_rising data (S i) st Hrise ltac:(lia) ltac:(lia) Hloss Hgpos)
      as [Hstep Hg'pos].
    rewrite Hstep. cbn [bind].
    apply (IH (S i)); [lia | lia |].
    replace (S i - 1)%nat with i in * by lia.
    rewrite Hgain, <- (average_gain_S data Hi) in *.
    destruct (rsi_value_positive_gain _ Hg'pos) as [Hformula Hbounds].
    assert (Hin : (S i < length (Rsi.rsiArray st))%nat) by lia.
    unfold rsi_rising_state. cbn [Rsi.avgLoss Rsi.avgGain Rsi.rsiArray].
    split; [reflexivity|]. split; [reflexivity|]. split; [exact Hg'pos|].
    split; [rewrite set_nat_length by exact Hin; exact Harr|]. split.
    + intros j Hj. rewrite nth_error_set_nat by exact Hin.
      destruct (Nat.eqb_spec j (S i)); [lia|]. apply Hlow. exact Hj.
    + intros j Hj. rewrite nth_error_set_nat by exact Hin.
      destruct (Nat.eqb_spec j (S i)) as [->|Hne].
      * split; [rewrite Hformula; reflexivity|].
        destruct Hbounds as [q [Hq Hq0]]. exists q. rewrite Hq.
        split; [reflexivity | exact Hq0].
      * apply Hvals. lia.
Qed.

Lemma rising4_strictly_rising : strictly_rising rising4.
Proof.
  intros i d d' Hd Hd'.
  destruct i as [|[|[|i]]]; simpl in Hd, Hd';
    try (inversion Hd; inversion Hd'; reflexivity).
  destruct i; discriminate Hd'.
Qed.

(** C4, as the specification words it, fails: on the rising closes
    [1, 2, 3, 4] the RSI of period 2 is [50] at both defined indices, not
    [100]: with no loss the guard divides the average gain, [1], by [1]. *)
Lemma C4_rising_rsi_is_50 :
  strictly_rising rising4 /\ (4 <= length rising4)%nat /\
  calculateRSI rising4 2 = Return [NaN; NaN; Fin 50; Fin 50] /\
  ~ (forall rsi i,
       calculateRSI rising4 2 = Return rsi -> (2 <= i < 4)%nat ->
       nth_error rsi i = Some hundred).
Proof.
  split; [exact rising4_strictly_rising|]. split; [simpl; lia|].
  split; [vm_compute; reflexivity|].
  intros H.
  specialize (H [NaN; NaN; Fin 50; Fin 50] 2%nat ltac:(vm_compute; reflexivity)
                ltac:(lia)).
  discriminate H.
Qed.

(** C4 (amended): on a strictly rising series of at least 4 closes,
    [calculateRSI] with period 2 has [avgLoss = 0] at the seed step, leaves
    indices 0 and 1 undefined, and from the seed onward yields at index
    [i] the value [100 - 100 / (1 + avgGain_i / 1)], where [avgGain_i] is
    the average gain as the loop computes it and the guard has replaced
    the zero loss by 1: a percentage between 0 and 100, not 100 in
    general. *)
Theorem C4_rsi_on_rising_series :
  forall (data : list MarketData.t),
    strictly_rising data -> (4 <= length data)%nat ->
    (exists st, rsi_seeded data 2 = Return st /\ Rsi.avgLoss st = zero) /\
    exists rsi,
      calculateRSI data 2 = Return rsi /\
      length rsi = length data /\
      (forall i, (i < 2)%nat -> nth_error rsi i = Some NaN) /\
      (forall i, (2 <= i < length data)%nat ->
         nth_error rsi i
         = Some (hundred - hundred / (one + average_gain data (i - 2) / one)) /\
         exists q, nth_error rsi i = Some (Fin q) /\ (0 <= q <= 100)%Q).
Proof.
  intros data Hrise Hlen.
  destruct (@rsi_seeded_rising data Hrise ltac:(lia)) as [st [Hseed Hst]].
  split.
  - exists st. split; [exact Hseed | apply Hst].
  - destruct (@rsi_smooth_loop_rising data Hrise (length data - 3) 2 st
                ltac:(lia) ltac:(lia) Hst)
      as [st' [Hloop (_ & _ & _ & Harr & Hlow & Hvals)]].
    exists (Rsi.rsiArray st'). unfold calculateRSI.
    destruct (Z.leb_spec (Z.of_nat (length data)) 2) as [Hle|_]; [lia|].
    rewrite Hseed. cbn [bind].
    change (2 + 1)%Z with (Z.of_nat 2 + 1)%Z. rewrite Hloop. cbn [bind].
    split; [reflexivity|]. split; [exact Harr|]. split; [exact Hlow|].
    intros i Hi. apply Hvals. lia.
Qed.

Lemma C4_rsi_on_rising_series_witness :
  strictly_rising rising4 /\ (4 <= length rising4)%nat /\
  exists rsi,
    calculateRSI rising4 2 = Return rsi /\
    exists q, nth_error rsi 3 = Some (Fin q) /\ (0 <= q <= 100)%Q.
Proof.
  assert (Hlen : (4 <= length rising4)%nat) by (simpl; lia).
  split; [exact rising4_strictly_rising|]. split; [exact Hlen|].
  destruct (@C4_rsi_on_rising_series rising4 rising4_strictly_rising Hlen)
    as [_ [rsi (Hrsi & _ & _ & Hvals)]].
  exists rsi. split; [exact Hrsi|].
  exact (proj2 (Hvals 3%nat ltac:(simpl; lia))).
Defined.

(* ================================================================== *)
(** * Further properties of the engine and of its callers *)
(* ================================================================== *)

(* ------------------------------------------------------------------ *)
(** ** calculateRSI: shape of the result *)

Lemma set_length_below {A : Type} (hole : A) (arr : list A) (i : Z) (v : A) :
  (i < Z.of_nat (length arr))%Z -> length (Array.set hole arr i v) = length arr.
Proof.
  intros H. unfold Array.set. destruct (Z.ltb_spec i 0); [reflexivity|].
  apply set_nat_length. lia.
Qed.

Lemma nth_error_set_other {A : Type} (hole : A) (arr : list A) (i : Z) (j : nat) (v : A) :
  (i < Z.of_nat (length arr))%Z -> Z.of_nat j <> i ->
  nth_error (Array.set hole arr i v) j = nth_error arr j.
Proof.
  intros H Hne. unfold Array.set. destruct (Z.ltb_spec i 0); [reflexivity|].
  rewrite nth_error_set_nat by lia.
  destruct (Nat.eqb_spec j (Z.to_nat i)); [lia | reflexivity].
Qed.

Lemma nth_error_set_same {A : Type} (hole : A) (arr : list A) (i : nat) (v : A) :
  (i < length arr)%nat ->
  nth_error (Array.set hole arr (Z.of_nat i) v) i = Some v.
Proof.
  intros H. rewrite set_in_range, nth_error_set_nat by exact H.
  rewrite Nat.eqb_refl. reflexivity.
Qed.

Lemma rsi_seeded_array (data : list MarketData.t) (period : Z) (st : Rsi.t) :
  rsi_seeded data period = Return st ->
  exists v, Rsi.rsiArray st = Array.set NaN (repeat NaN (length data)) period v.
Proof.
  unfold rsi_seeded. intros H. apply bind_Return_inv in H.
  destruct H as [[gains losses] [_ H]]. inversion H. eexists. reflexivity.
Qed.

Lemma rsi_smooth_body_array (data : list MarketData.t) (period i : Z) (st st' : Rsi.t) :
  rsi_smooth_body data period i st = Return st' ->
  (0 <= i - 1)%Z /\
  exists v, Rsi.rsiArray st' = Array.set NaN (Rsi.rsiArray st) i v.
Proof.
  unfold rsi_smooth_body. intros H.
  apply bind_Return_inv in H. destruct H as [ci [_ H]].
  apply bind_Return_inv in H. destruct H as [cp [Hcp H]].
  split.
  - destruct (Z.lt_ge_cases (i - 1) 0) as [Hneg|Hge]; [|exact Hge].
    rewrite close_at_negative in Hcp by exact Hneg. discriminate Hcp.
  - inversion H. eexists. reflexivity.
Qed.

(** X1: whenever [calculateRSI] returns, its array has the length of the
    series and every entry below [period] is [NaN]; so the whole array is
    [NaN] when the series has at most [period] bars. *)
Theorem calculateRSI_shape :
  forall (data : list MarketData.t) (period : Z) (rsi : list number),
    calculateRSI data period = Return rsi ->
    length rsi = length data /\
    (forall i, (i < length data)%nat -> (Z.of_nat i < period)%Z ->
               nth_error rsi i = Some NaN) /\
    ((Z.of_nat (length data) <= period)%Z -> rsi = repeat NaN (length data)).
Proof.
  intros data period rsi. unfold calculateRSI.
  destruct (Z.leb_spec (Z.of_nat (length data)) period) as [Hle|Hlt].
  - intros H. inversion H. subst rsi. split; [apply repeat_length|]. split.
    + intros i Hi _. apply nth_error_repeat. exact Hi.
    + reflexivity.
  - intros H. apply bind_Return_inv in H. destruct H as [st [Hseed H]].
    apply bind_Return_inv in H. destruct H as [st' [Hloop H]].
    inversion H. subst rsi. clear H.
    assert (Hinv : length (Rsi.rsiArray st') = length data /\
                   forall i, (i < length data)%nat -> (Z.of_nat i < period)%Z ->
                             nth_error (Rsi.rsiArray st') i = Some NaN).
    { refine (@for_each_invariant Z Rsi.t
                (fun s => length (Rsi.rsiArray s) = length data /\
                          forall i, (i < length data)%nat -> (Z.of_nat i < period)%Z ->
                                    nth_error (Rsi.rsiArray s) i = Some NaN)
                (rsi_smooth_body data period) _ _ st st' _ Hloop).
      - intros i s s' Hi [Hlen Hnan] Hbody. apply in_zrange in Hi.
        destruct (rsi_smooth_body_array _ _ _ _ Hbody) as [_ [v Hv]].
        rewrite Hv. split.
        + rewrite set_length_below by lia. exact Hlen.
        + intros j Hj Hjp. rewrite nth_error_set_other by lia. apply Hnan; assumption.
      - destruct (rsi_seeded_array _ _ Hseed) as [v Hv]. rewrite Hv. split.
        + rewrite set_length_below by (rewrite repeat_length; lia).
          apply repeat_length.
        + intros j Hj Hjp.
          rewrite nth_error_set_other by (rewrite ?repeat_length; lia).
          apply nth_error_repeat. exact Hj. }
    destruct Hinv as [Hlen Hnan]. split; [exact Hlen|]. split; [exact Hnan|]. lia.
Qed.

Lemma calculateRSI_shape_witness :
  calculateRSI rising4 14 = Return (repeat NaN 4) /\
  length (repeat NaN 4 : list number) = length rising4.
Proof.
  assert (H : calculateRSI rising4 14 = Return (repeat NaN 4))
    by (vm_compute; reflexivity).
  split; [exact H|].
  exact (proj1 (@calculateRSI_shape rising4 14 (repeat NaN 4) H)).
Defined.

(* ------------------------------------------------------------------ *)
(** ** calculateRSI: the values lie in [0, 100] *)

Lemma for_each_total_invariant {I S : Type} (P : S -> Prop)
    (body : I -> S -> Result S) (idxs : list I) :
  (forall i s, In i idxs -> P s -> exists s', body i s = Return s' /\ P s') ->
  forall s, P s -> exists s', for_each body idxs s = Return s' /\ P s'.
Proof.
  induction idxs as [|i idxs IH]; intros Hbody s Hs; simpl.
  - exists s. split; [reflexivity | exact Hs].
  - destruct (Hbody i s (or_introl eq_refl) Hs) as [s1 [H1 HP1]].
    rewrite H1. cbn [bind]. apply IH; [|exact HP1].
    intros j t Hj. apply Hbody. right. exact Hj.
Qed.

Lemma inject_Z_pos (z : Z) : (0 < z)%Z -> (0 < inject_Z z)%Q.
Proof. intros H. change 0%Q with (inject_Z 0). rewrite <- Zlt_Qlt. exact H. Qed.

Lemma inject_Z_nonneg (z : Z) : (0 <= z)%Z -> (0 <= inject_Z z)%Q.
Proof. intros H. change 0%Q with (inject_Z 0). rewrite <- Zle_Qle. exact H. Qed.

Lemma loss_nonneg (d : Q) :
  exists x, (if Fin d <? zero then abs (Fin d) else zero) = Fin x /\ (0 <= x)%Q.
Proof.
  destruct (Fin d <? zero).
  - eexists. split; [reflexivity|]. rewrite Qred_correct. apply Qabs_nonneg.
  - exists 0%Q. split; [reflexivity | lra].
Qed.

(** [(avg * (period - 1) + x) / period] stays real and non-negative. *)
Lemma wilder_nonneg (g x : Q) (period : Z) :
  (0 <= g)%Q -> (0 <= x)%Q -> (1 <= period)%Z ->
  exists g', (Fin g * of_Z (period - 1) + Fin x) / of_Z period = Fin g' /\ (0 <= g')%Q.
Proof.
  intros Hg Hx Hp. unfold of_Z.
  change (Fin g * Fin (inject_Z (period - 1)) + Fin x)
    with (Fin (Qred (Qred (g * inject_Z (period - 1)) + x))).
  rewrite div_Fin_pos by (apply inject_Z_pos; lia).
  eexists. split; [reflexivity|].
  pose proof (@inject_Z_pos period ltac:(lia)) as Hpos.
  pose proof (@inject_Z_nonneg (period - 1) ltac:(lia)) as Hnn.
  rewrite !Qred_correct. apply Qle_shift_div_l; [exact Hpos|].
  assert (0 <= g * inject_Z (period - 1))%Q by (apply Qmult_le_0_compat; assumption).
  lra.
Qed.

Lemma rsi_value_range (g l : Q) :
  (0 <= g)%Q -> (0 <= l)%Q ->
  exists q, rsi_value (Fin g) (Fin l) = Fin q /\ (0 <= q <= 100)%Q.
Proof.
  intros Hg Hl. unfold rsi_value.
  assert (Hrs : exists r, Fin g / (if Fin l === zero then one else Fin l) = Fin r
                          /\ (0 <= r)%Q).
  { destruct (Fin l === zero) eqn:E.
    - unfold one. rewrite div_Fin_pos by reflexivity.
      eexists. split; [reflexivity|]. rewrite Qred_correct.
      apply Qle_shift_div_l; lra.
    - assert (Hlpos : (0 < l)%Q).
      { destruct (Qle_lt_or_eq _ _ Hl) as [Hlt|Heq]; [exact Hlt|].
        assert (Ht : (Fin l === zero) = true) by (apply eqb_Fin; symmetry; exact Heq).
        rewrite Ht in E. discriminate E. }
      rewrite div_Fin_pos by exact Hlpos.
      eexists. split; [reflexivity|]. rewrite Qred_correct.
      apply Qle_shift_div_l; lra. }
  destruct Hrs as [r [Hr Hr0]]. rewrite Hr. unfold one, hundred.
  change (Fin 1 + Fin r) with (Fin (Qred (1 + r))).
  assert (Hden : (1 <= Qred (1 + r))%Q) by (rewrite Qred_correct; lra).
  rewrite div_Fin_pos by lra.
  change (Fin 100 - fin (100 / Qred (1 + r)))
    with (Fin (Qred (100 - Qred (100 / Qred (1 + r))))).
  eexists. split; [reflexivity|]. rewrite !Qred_correct.
  assert (H1 : (0 <= 100 / (1 + r))%Q) by (apply Qle_shift_div_l; lra).
  assert (H2 : (100 / (1 + r) <= 100)%Q) by (apply Qle_shift_div_r; lra).
  lra.
Qed.

Lemma percentage_Fin (q : Q) : (0 <= q <= 100)%Q -> percentage_or_NaN (Fin q).
Proof. intros H. right. exists q. split; [reflexivity | exact H]. Qed.

(** Averages that are not negative, be they real, infinite or [NaN], give
    a percentage or [NaN]. *)
Lemma rsi_value_percentage (g l : number) :
  not_negative g -> not_negative l -> percentage_or_NaN (rsi_value g l).
Proof.
  intros Hg Hl. apply not_negative_cases in Hg. apply not_negative_cases in Hl.
  destruct l as [b| | |]; try contradiction.
  - destruct g as [a| | |]; try contradiction.
    + destruct (rsi_value_range Hg Hl) as [q [Hq Hq0]]. rewrite Hq.
      apply percentage_Fin. exact Hq0.
    + unfold rsi_value, eqb. cbn [cmp zero]. fold (sign b).
      destruct (sign b) eqn:E.
      * apply (percentage_Fin (q := 100)). split; discriminate.
      * apply (proj1 (sign_Lt _)) in E. lra.
      * cbn [div]. rewrite E. apply (percentage_Fin (q := 100)). split; discriminate.
    + left. unfold rsi_value. destruct (Fin b === zero); exact I.
  - destruct g as [a| | |]; try contradiction.
    + apply (percentage_Fin (q := 0)). split; discriminate.
    + left. exact I.
    + left. exact I.
  - left. unfold rsi_value. cbn [eqb cmp]. destruct g; exact I.
Qed.

Lemma Forall_set_nat {A : Type} (P : A -> Prop) (hole : A) (arr : list A) (i : nat) (v : A) :
  Forall P arr -> P hole -> P v -> Forall P (Array.set_nat hole arr i v).
Proof.
  intros Harr Hhole Hv. revert arr Harr.
  induction i as [|i IH]; intros arr Harr.
  - destruct arr as [|x arr]; simpl; constructor; auto.
    inversion Harr. assumption.
  - destruct arr as [|x arr]; simpl; constructor; auto.
    + inversion Harr. assumption.
    + apply IH. inversion Harr. assumption.
Qed.

Lemma Forall_set {A : Type} (P : A -> Prop) (hole : A) (arr : list A) (i : Z) (v : A) :
  Forall P arr -> P hole -> P v -> Forall P (Array.set hole arr i v).
Proof.
  intros Harr Hhole Hv. unfold Array.set.
  destruct (i <? 0)%Z; [exact Harr|]. apply Forall_set_nat; assumption.
Qed.

Lemma Forall_repeat {A : Type} (P : A -> Prop) (x : A) (n : nat) :
  P x -> Forall P (repeat x n).
Proof. intros H. induction n; simpl; constructor; auto. Qed.

Lemma rsi_seed_body_not_negative (data : list MarketData.t) (i : Z)
    (acc acc' : number * number) :
  not_negative (fst acc) /\ not_negative (snd acc) ->
  rsi_seed_body data i acc = Return acc' ->
  not_negative (fst acc') /\ not_negative (snd acc').
Proof.
  destruct acc as [gains losses]. cbn [fst snd]. intros [Hg Hl] H.
  unfold rsi_seed_body in H.
  apply bind_Return_inv in H. destruct H as [ci [_ H]].
  apply bind_Return_inv in H. destruct H as [cp [_ H]].
  destruct (ci - cp >? zero) eqn:E; inversion H; subst acc'; cbn [fst snd]; split;
    try assumption.
  - apply not_negative_add; [exact Hg|].
    apply nonneg_not_negative. apply positive_nonneg. exact E.
  - apply not_negative_add; [exact Hl | apply not_negative_abs].
Qed.

(** The loop of [calculateRSI]: both averages are not negative and every
    entry written so far is a percentage or [NaN]. *)
Lemma rsi_smooth_body_percentages (data : list MarketData.t) (period i : Z)
    (st st' : Rsi.t) :
  (1 <= period)%Z ->
  not_negative (Rsi.avgGain st) /\ not_negative (Rsi.avgLoss st) /\
    Forall percentage_or_NaN (Rsi.rsiArray st) ->
  rsi_smooth_body data period i st = Return st' ->
  not_negative (Rsi.avgGain st') /\ not_negative (Rsi.avgLoss st') /\
    Forall percentage_or_NaN (Rsi.rsiArray st').
Proof.
  intros Hp (Hg & Hl & Harr) H. unfold rsi_smooth_body in H.
  apply bind_Return_inv in H. destruct H as [ci [_ H]].
  apply bind_Return_inv in H. destruct H as [cp [_ H]].
  inversion H. subst st'. clear H. cbn [Rsi.avgGain Rsi.avgLoss Rsi.rsiArray].
  assert (Hgain : not_negative (if ci - cp >? zero then ci - cp else zero)).
  { destruct (ci - cp >? zero) eqn:E; [|reflexivity].
    apply nonneg_not_negative. apply positive_nonneg. exact E. }
  assert (Hloss : not_negative (if ci - cp <? zero then abs (ci - cp) else zero)).
  { destruct (ci - cp <? zero); [apply not_negative_abs | reflexivity]. }
  assert (Hg' : not_negative
                  ((Rsi.avgGain st * of_Z (period - 1)
                    + (if ci - cp >? zero then ci - cp else zero)) / of_Z period)).
  { apply not_negative_div_of_Z; [|lia]. apply not_negative_add; [|exact Hgain].
    apply not_negative_mul_of_Z; [exact Hg | lia]. }
  assert (Hl' : not_negative
                  ((Rsi.avgLoss st * of_Z (period - 1)
                    + (if ci - cp <? zero then abs (ci - cp) else zero)) / of_Z period)).
  { apply not_negative_div_of_Z; [|lia]. apply not_negative_add; [|exact Hloss].
    apply not_negative_mul_of_Z; [exact Hl | lia]. }
  split; [exact Hg'|]. split; [exact Hl'|].
  apply Forall_set; [exact Harr | left; exact I |].
  apply rsi_value_percentage; assumption.
Qed.

(** X2: with a period of at least 1 and whatever the closes, every entry
    of [calculateRSI] is [NaN] or a real number between 0 and 100: the
    indicator never leaves its range. *)
Theorem calculateRSI_in_range :
  forall (data : list MarketData.t) (period : Z) (rsi : list number),
    (1 <= period)%Z ->
    calculateRSI data period = Return rsi ->
    forall i x, nth_error rsi i = Some x ->
      is_nan x \/ exists q, x = Fin q /\ (0 <= q <= 100)%Q.
Proof.
  intros data period rsi Hp Hrsi.
  assert (Hall : Forall percentage_or_NaN rsi).
  { unfold calculateRSI in Hrsi.
    destruct (Z.of_nat (length data) <=? period)%Z.
    - inversion Hrsi. apply Forall_repeat. left. exact I.
    - apply bind_Return_inv in Hrsi. destruct Hrsi as [st [Hseed Hrsi]].
      apply bind_Return_inv in Hrsi. destruct Hrsi as [st' [Hloop Hrsi]].
      inversion Hrsi. subst rsi. clear Hrsi.
      refine (proj2 (proj2 (@for_each_invariant Z Rsi.t
                (fun s => not_negative (Rsi.avgGain s) /\ not_negative (Rsi.avgLoss s) /\
                          Forall percentage_or_NaN (Rsi.rsiArray s))
                (rsi_smooth_body data period) _ _ st st' _ Hloop))).
      + intros i s s' _ Hs Hbody.
        exact (@rsi_smooth_body_percentages data period i s s' Hp Hs Hbody).
      + unfold rsi_seeded in Hseed.
        apply bind_Return_inv in Hseed. destruct Hseed as [[gains losses] [Hsum Hseed]].
        inversion Hseed. clear Hseed. cbn [Rsi.avgGain Rsi.avgLoss Rsi.rsiArray].
        assert (Hacc : not_negative (fst (gains, losses)) /\
                       not_negative (snd (gains, losses))).
        { refine (@for_each_invariant Z (number * number)
                    (fun acc => not_negative (fst acc) /\ not_negative (snd acc))
                    (rsi_seed_body data) _ _ (zero, zero) (gains, losses) _ Hsum).
          - intros i acc acc' _ Hacc Hbody.
            exact (@rsi_seed_body_not_negative data i acc acc' Hacc Hbody).
          - split; reflexivity. }
        destruct Hacc as [Hg Hl]. cbn [fst snd] in Hg, Hl.
        assert (Hg' : not_negative (gains / of_Z period))
          by (apply not_negative_div_of_Z; [exact Hg | lia]).
        assert (Hl' : not_negative (losses / of_Z period))
          by (apply not_negative_div_of_Z; [exact Hl | lia]).
        split; [exact Hg'|]. split; [exact Hl'|].
        apply Forall_set; [apply Forall_repeat; left; exact I | left; exact I |].
        apply rsi_value_percentage; assumption. }
  intros i x Hx.
  exact (proj1 (Forall_forall _ _) Hall x (nth_error_In _ _ Hx)).
Qed.

Lemma calculateRSI_in_range_witness :
  exists rsi x,
    calculateRSI up_and_down 2 = Return rsi /\
    nth_error rsi 4 = Some x /\
    (is_nan x \/ exists q, x = Fin q /\ (0 <= q <= 100)%Q).
Proof.
  destruct (calculateRSI up_and_down 2) as [rsi|e] eqn:Hrsi.
  2:{ vm_compute in Hrsi. discriminate Hrsi. }
  destruct (nth_error rsi 4) as [x|] eqn:Hx.
  2:{ vm_compute in Hrsi. inversion Hrsi. subst rsi. discriminate Hx. }
  exists rsi, x. split; [reflexivity|]. split; [exact Hx|].
  exact (@calculateRSI_in_range up_and_down 2 rsi ltac:(lia) Hrsi 4%nat x Hx).
Defined.

(* ------------------------------------------------------------------ *)
(** ** calculateSMA: windows that fit no bar *)

(** X3: [calculateSMA] never fails on a window that fits no bar: a window
    longer than the series, or the window 0, gives [NaN] at every index,
    and a negative window gives 0 at every index. *)
Theorem calculateSMA_degenerate_windows :
  forall (data : list MarketData.t) (w : Z),
    ((Z.of_nat (length data) < w)%Z \/ w = 0%Z ->
       calculateSMA data w = repeat NaN (length data)) /\
    ((w < 0)%Z -> calculateSMA data w = repeat zero (length data)).
Proof.
  intros data w. unfold calculateSMA, Array.mapi. split.
  - intros Hw. apply mapi_from_constant. intros k d Hk. simpl.
    assert (Hlen : (k < length data)%nat).
    { apply nth_error_Some. rewrite Hk. discriminate. }
    destruct (Z.ltb_spec (Z.of_nat k) (w - 1)) as [_|Hge]; [reflexivity|].
    destruct Hw as [Hw|Hw]; [lia|]. subst w.
    rewrite slice_empty by lia. reflexivity.
  - intros Hw. apply mapi_from_constant. intros k d Hk. simpl.
    destruct (Z.ltb_spec (Z.of_nat k) (w - 1)) as [Hlt|_]; [lia|].
    rewrite slice_empty by lia. cbn [fold_left]. unfold zero, of_Z.
    assert (Hsign : sign (inject_Z w) = Lt).
    { apply sign_Lt. change 0%Q with (inject_Z 0). rewrite <- Zlt_Qlt. exact Hw. }
    cbn [div]. rewrite Hsign. unfold fin. f_equal.
Qed.

Lemma calculateSMA_degenerate_windows_witness :
  calculateSMA rising4 5 = repeat NaN 4 /\
  calculateSMA rising4 (-3) = repeat zero 4.
Proof.
  assert (Hlong : (Z.of_nat (length rising4) < 5)%Z \/ 5%Z = 0%Z)
    by (left; simpl; lia).
  assert (Hneg : (-3 < 0)%Z) by lia.
  split.
  - exact (proj1 (@calculateSMA_degenerate_windows rising4 5) Hlong).
  - exact (proj2 (@calculateSMA_degenerate_windows rising4 (-3)) Hneg).
Defined.

(* ------------------------------------------------------------------ *)
(** ** The running maximum drawdown *)

Lemma leb_refl_defined (x y : number) : (y <=? x) = true -> (x <=? x) = true.
Proof.
  unfold leb. destruct x as [a| | |], y as [b| | |]; simpl; try discriminate;
    try reflexivity; intros _; rewrite (proj1 (Qeq_alt a a) (Qeq_refl a)); reflexivity.
Qed.

Lemma gtb_leb (x y : number) : (y >? x) = true -> (x <=? y) = true.
Proof.
  unfold gtb, leb. destruct x as [a| | |], y as [b| | |]; simpl; try discriminate;
    try reflexivity.
  rewrite <- (Qcompare_antisym a b). destruct (a ?= b)%Q; simpl; congruence.
Qed.

Lemma leb_gtb_trans (x y z : number) :
  (x <=? y) = true -> (z >? y) = true -> (x <=? z) = true.
Proof.
  destruct x as [a| | |], y as [b| | |], z as [c| | |];
    try discriminate; try reflexivity.
  intros H1 H2. apply leb_Fin in H1. apply gtb_Fin in H2. apply leb_Fin. lra.
Qed.

Lemma leb_zero_times_hundred (x : number) :
  (zero <=? x) = true -> (zero <=? x * hundred) = true.
Proof.
  destruct x as [a| | |]; try discriminate; [|reflexivity].
  intros H. apply leb_Fin in H. unfold hundred, zero.
  change (Fin a * Fin 100) with (Fin (Qred (a * 100))).
  apply leb_Fin. rewrite Qred_correct. lra.
Qed.

Lemma loop_body_maxDrawdown config shortSMA longSMA rsi aiSignalMap
    (st : State.t) (bar : nat * MarketData.t) :
  let st' := loop_body config shortSMA longSMA rsi aiSignalMap st bar in
  State.maxDrawdown st' = State.maxDrawdown st \/
  (State.maxDrawdown st' >? State.maxDrawdown st) = true.
Proof.
  destruct bar as [i d]. unfold loop_body.
  destruct (in_warmup config i); [left; reflexivity|].
  destruct (decide config shortSMA longSMA rsi aiSignalMap i (MarketData.date d))
    as [signal reason].
  assert (Hdd : State.maxDrawdown
                  (execute_trade signal reason (MarketData.close d) (MarketData.date d) st)
                = State.maxDrawdown st).
  { unfold execute_trade.
    repeat match goal with |- context [if ?c then _ else _] => destruct c end;
      reflexivity. }
  unfold record_equity. cbn [State.maxDrawdown]. rewrite Hdd.
  match goal with |- context [if ?c then _ else _] => destruct c eqn:E end.
  - right. exact E.
  - left. reflexivity.
Qed.

Lemma simulate_beyond data config aiSignals rsi (n : nat) :
  (length data <= n)%nat ->
  simulate data config aiSignals rsi (S n) = simulate data config aiSignals rsi n.
Proof.
  intros H. unfold simulate.
  rewrite !firstn_all2 by (rewrite indexed_length; lia). reflexivity.
Qed.

Lemma simulate_maxDrawdown_step data config aiSignals rsi (n : nat) :
  State.maxDrawdown (simulate data config aiSignals rsi (S n))
    = State.maxDrawdown (simulate data config aiSignals rsi n) \/
  (State.maxDrawdown (simulate data config aiSignals rsi (S n))
     >? State.maxDrawdown (simulate data config aiSignals rsi n)) = true.
Proof.
  destruct (nth_error data n) as [d|] eqn:Ed.
  - rewrite (simulate_S _ _ _ _ _ Ed). apply loop_body_maxDrawdown.
  - apply nth_error_None in Ed. rewrite simulate_beyond by exact Ed.
    left. reflexivity.
Qed.

Lemma simulate_maxDrawdown_nonneg data config aiSignals rsi (n : nat) :
  (zero <=? State.maxDrawdown (simulate data config aiSignals rsi n)) = true.
Proof.
  induction n as [|n IH]; [reflexivity|].
  destruct (simulate_maxDrawdown_step data config aiSignals rsi n) as [Heq|Hgt].
  - rewrite Heq. exact IH.
  - exact (leb_gtb_trans _ _ _ IH Hgt).
Qed.

(** X4: whatever the inputs, the running maximum drawdown starts at 0 and
    is never [NaN], never negative and never decreases from one bar to
    the next; the reported [maxDrawdown] is therefore never negative. *)
Theorem maxDrawdown_never_decreases :
  forall (data : list MarketData.t) (config : StrategyConfig.t)
         (aiSignals : option (list AiSignal.t)) (rsi : list number) (n : nat),
    State.maxDrawdown (simulate data config aiSignals rsi 0) = zero /\
    (zero <=? State.maxDrawdown (simulate data config aiSignals rsi n)) = true /\
    (State.maxDrawdown (simulate data config aiSignals rsi n)
       <=? State.maxDrawdown (simulate data config aiSignals rsi (S n))) = true /\
    (forall r, runBacktest data config aiSignals = Return r ->
               (zero <=? BacktestResult.maxDrawdown r) = true).
Proof.
  intros data config aiSignals rsi n. split; [reflexivity|].
  split; [apply simulate_maxDrawdown_nonneg|]. split.
  - destruct (simulate_maxDrawdown_step data config aiSignals rsi n) as [Heq|Hgt].
    + rewrite Heq.
      apply (leb_refl_defined _ zero). rewrite <- Heq.
      apply simulate_maxDrawdown_nonneg.
    + apply gtb_leb. exact Hgt.
  - intros r Hr. unfold runBacktest in Hr.
    apply bind_Return_inv in Hr. destruct Hr as [rsi' [_ Hr]].
    apply bind_Return_inv in Hr. destruct Hr as [lastClose [_ Hr]].
    inversion Hr. cbn [BacktestResult.maxDrawdown].
    apply leb_zero_times_hundred. apply simulate_maxDrawdown_nonneg.
Qed.

Lemma maxDrawdown_never_decreases_witness :
  exists r,
    runBacktest round_trip (algo_config 1000 1 2 1) None = Return r /\
    (zero <=? BacktestResult.maxDrawdown r) = true /\
    BacktestResult.maxDrawdown r = Fin (4950 # 199).
Proof.
  destruct (runBacktest round_trip (algo_config 1000 1 2 1) None) as [r|e] eqn:Hr.
  2:{ vm_compute in Hr. discriminate Hr. }
  exists r. split; [reflexivity|]. split.
  - exact (proj2 (proj2 (proj2 (@maxDrawdown_never_decreases round_trip
                                  (algo_config 1000 1 2 1) None [] 0%nat))) r Hr).
  - vm_compute in Hr. inversion Hr. reflexivity.
Defined.

Lemma execute_trade_peak_drawdown signal reason price date (st : State.t) :
  State.peakBalance (execute_trade signal reason price date st) = State.peakBalance st /\
  State.maxDrawdown (execute_trade signal reason price date st) = State.maxDrawdown st.
Proof.
  unfold execute_trade.
  repeat match goal with |- context [if ?c then _ else _] => destruct c end;
    split; reflexivity.
Qed.

Lemma record_equity_drawdown_bounded (c0 p : Q) date (st : State.t) :
  (0 < c0)%Q -> (0 <= p)%Q ->
  drawdown_bounded c0 st -> drawdown_bounded c0 (record_equity (Fin p) date st).
Proof.
  intros Hc0 Hp ((c & h & Hc & Hh & Hcn & Hhn) & (pk & Hpk & Hpk0) & (m & Hm & Hm01)).
  unfold record_equity. rewrite Hc, Hh, Hpk, Hm.
  change (Fin c + Fin h * Fin p) with (Fin (Qred (c + Qred (h * p)))).
  set (v := Qred (c + Qred (h * p))).
  assert (Hv : (0 <= v)%Q).
  { unfold v. rewrite !Qred_correct.
    assert (0 <= h * p)%Q by (apply Qmult_le_0_compat; assumption). lra. }
  assert (Hpeak : exists pk', (if Fin v >? Fin pk then Fin v else Fin pk) = Fin pk'
                              /\ (c0 <= pk')%Q /\ (v <= pk')%Q).
  { destruct (Fin v >? Fin pk) eqn:E.
    - exists v. apply gtb_Fin in E. split; [reflexivity|]. split; lra.
    - exists pk. split; [reflexivity|]. split; [exact Hpk0|].
      apply Qnot_lt_le. intros Hlt. apply gtb_Fin in Hlt. congruence. }
  destruct Hpeak as (pk' & -> & Hpk'0 & Hvpk).
  change (Fin pk' - Fin v) with (Fin (Qred (pk' - v))).
  rewrite div_Fin_pos by lra.
  set (dd := Qred (Qred (pk' - v) / pk')).
  assert (Hdd : (0 <= dd <= 1)%Q).
  { unfold dd. rewrite !Qred_correct. split.
    - apply Qle_shift_div_l; lra.
    - apply Qle_shift_div_r; lra. }
  unfold fin. fold dd.
  split; [exists c, h; auto|]. split; [exists pk'; auto|].
  cbn [State.maxDrawdown].
  destruct (Fin dd >? Fin m); [exists dd | exists m]; auto.
Qed.

Lemma loop_body_drawdown_bounded (c0 : Q) config shortSMA longSMA rsi aiSignalMap
    (st : State.t) (bar : nat * MarketData.t) :
  (0 < c0)%Q -> priced (snd bar) -> drawdown_bounded c0 st ->
  drawdown_bounded c0 (loop_body config shortSMA longSMA rsi aiSignalMap st bar).
Proof.
  destruct bar as [i d]. simpl. intros Hc0 (p & Hp & Hp0) Hst. unfold loop_body.
  destruct (in_warmup config i).
  - destruct Hst as ((c & h & Hc & Hh & Hcn & Hhn) & Hpeak & Hdd).
    split; [exists c, h; auto|]. split; assumption.
  - destruct (decide config shortSMA longSMA rsi aiSignalMap i (MarketData.date d))
      as [signal reason].
    rewrite Hp. apply record_equity_drawdown_bounded; [exact Hc0 | exact Hp0 |].
    destruct Hst as (Hsol & Hpeak & Hdd).
    destruct (execute_trade_peak_drawdown signal reason (Fin p) (MarketData.date d) st)
      as [Epk Edd].
    split; [apply execute_trade_solvent; assumption|].
    rewrite Epk, Edd. split; assumption.
Qed.

(** X5: on real, non-negative closes and from a real capital above 0, the
    reported [maxDrawdown] is a percentage between 0 and 100. *)
Theorem maxDrawdown_at_most_100 :
  forall (data : list MarketData.t) (config : StrategyConfig.t)
         (aiSignals : option (list AiSignal.t)) (capital : Q) (r : BacktestResult.t),
    finite_closes data -> nonneg_closes data ->
    StrategyConfig.initialCapital config = Fin capital -> (0 < capital)%Q ->
    runBacktest data config aiSignals = Return r ->
    exists m, BacktestResult.maxDrawdown r = Fin m /\ (0 <= m <= 100)%Q.
Proof.
  intros data config aiSignals capital r Hfin Hnn Hcap Hpos Hr.
  unfold runBacktest in Hr.
  apply bind_Return_inv in Hr. destruct Hr as [rsi [_ Hr]].
  apply bind_Return_inv in Hr. destruct Hr as [lastClose [_ Hr]].
  inversion Hr. cbn [BacktestResult.maxDrawdown]. clear Hr.
  assert (Hinv : drawdown_bounded capital
                   (simulate data config aiSignals rsi (length data))).
  { unfold simulate.
    assert (Hbars : Forall (fun bar : nat * MarketData.t => priced (snd bar))
                      (firstn (length data) (Array.indexed data))).
    { apply Forall_forall. intros bar Hin.
      apply (@priced_of_closes data (snd bar) Hfin Hnn).
      apply (@in_firstn_indexed _ data (length data) bar Hin). }
    assert (Hinit : drawdown_bounded capital (initial_state config)).
    { unfold initial_state. rewrite Hcap.
      split; [exists capital, 0%Q; simpl; repeat split; lra|].
      split; [exists capital; simpl; split; [reflexivity | lra]|].
      exists 0%Q. simpl. split; [reflexivity | lra]. }
    revert Hinit. generalize (initial_state config).
    induction Hbars as [|bar bars Hbar _ IH]; intros st Hst; [exact Hst|].
    unfold run_loop in *. simpl fold_left. apply IH.
    apply loop_body_drawdown_bounded; assumption. }
  destruct Hinv as (_ & _ & (m & Hm & Hm01)). rewrite Hm. unfold hundred.
  change (Fin m * Fin 100) with (Fin (Qred (m * 100))).
  eexists. split; [reflexivity|]. rewrite Qred_correct. lra.
Qed.

Lemma maxDrawdown_at_most_100_witness :
  exists r m,
    runBacktest round_trip (algo_config 1000 1 2 1) None = Return r /\
    BacktestResult.maxDrawdown r = Fin m /\ (0 <= m <= 100)%Q.
Proof.
  assert (Hfin : finite_closes round_trip) by (repeat constructor).
  assert (Hnn : nonneg_closes round_trip) by (repeat constructor).
  assert (Hcap : StrategyConfig.initialCapital (algo_config 1000 1 2 1) = Fin 1000)
    by reflexivity.
  assert (Hpos : (0 < 1000)%Q) by reflexivity.
  destruct (runBacktest round_trip (algo_config 1000 1 2 1) None) as [r|e] eqn:Hr.
  2:{ vm_compute in Hr. discriminate Hr. }
  destruct (@maxDrawdown_at_most_100 round_trip (algo_config 1000 1 2 1) None 1000%Q r
              Hfin Hnn Hcap Hpos Hr) as [m [Hm Hm0]].
  exists r, m. split; [reflexivity|]. split; assumption.
Defined.

(* ------------------------------------------------------------------ *)
(** ** The trade log agrees with the equity curve *)

Lemma not_snoc_self {A : Type} (l : list A) (x : A) : l <> l ++ [x].
Proof.
  intros H. apply (f_equal (@length A)) in H. rewrite length_app in H. simpl in H. lia.
Qed.

Lemma execute_trade_balanceAfter signal reason price date (st : State.t) (t : Trade.t) :
  let st' := execute_trade signal reason price date st in
  State.trades st' = State.trades st ++ [t] ->
  (Trade.type t = BUY /\
   Trade.balanceAfter t = State.cash st' + State.holdings st' * price) \/
  (Trade.type t = SELL /\
   Trade.balanceAfter t = State.cash st' /\ State.holdings st' = zero).
Proof.
  unfold execute_trade.
  destruct (SignalType_eqb signal BUY && (State.cash st >? price)).
  - match goal with |- context [if ?c then _ else st] => destruct c end.
    2:{ intros H. exfalso. exact (@not_snoc_self _ _ _ H). }
    match goal with |- context [if ?c then _ else st] => destruct c end.
    2:{ intros H. exfalso. exact (@not_snoc_self _ _ _ H). }
    cbn [State.trades State.cash State.holdings]. intros H.
    apply app_inv_head in H. inversion H. left. split; reflexivity.
  - destruct (SignalType_eqb signal SELL && (State.holdings st >? zero)).
    2:{ intros H. exfalso. exact (@not_snoc_self _ _ _ H). }
    cbn [State.trades State.cash State.holdings]. intros H.
    apply app_inv_head in H. inversion H. right. repeat split.
Qed.

(** X6: at a bar past the warm-up, a trade recorded at the bar carries as
    [balanceAfter] the balance that the bar appends to the history: for a
    BUY the two are the same expression on the same values, for a SELL
    (at a close that is a real number) the history adds the value of the
    holdings, which are 0 by then. *)
Theorem trade_balance_is_the_recorded_equity :
  forall config shortSMA longSMA rsi aiSignalMap (st : State.t)
         (i : nat) (d : MarketData.t) (t : Trade.t),
    in_warmup config i = false ->
    let st' := loop_body config shortSMA longSMA rsi aiSignalMap st (i, d) in
    State.trades st' = State.trades st ++ [t] ->
    exists balance,
      State.history st' =
        State.history st ++ [HistoryEntry.mk (MarketData.date d) balance] /\
      (Trade.type t = BUY -> Trade.balanceAfter t = balance) /\
      (is_finite (MarketData.close d) -> Trade.balanceAfter t ~~ balance).
Proof.
  intros config shortSMA longSMA rsi aiSignalMap st i d t Hwarm st'.
  subst st'. unfold loop_body. rewrite Hwarm.
  destruct (decide config shortSMA longSMA rsi aiSignalMap i (MarketData.date d))
    as [signal reason].
  unfold record_equity. cbn [State.trades State.history].
  rewrite execute_trade_history. intros Ht.
  eexists. split; [reflexivity|].
  destruct (@execute_trade_balanceAfter signal reason (MarketData.close d)
              (MarketData.date d) st t Ht) as [[Hty Hbal]|[Hty [Hbal Hflat]]].
  - rewrite Hbal. split; [reflexivity|]. intros _. reflexivity.
  - split; [rewrite Hty; discriminate|].
    intros Hfin. rewrite Hbal, Hflat.
    destruct (MarketData.close d) as [p| | |]; try contradiction.
    symmetry. apply add_zero_same. rewrite Qred_correct. ring.
Qed.

Lemma trade_balance_is_the_recorded_equity_witness :
  let config := algo_config 1000 1 2 1 in
  let st := simulate round_trip config None [] 4 in
  let st' := loop_body config (calculateSMA round_trip 1) (calculateSMA round_trip 2)
                       [] [] st (4%nat, bar "2024-01-05" 3) in
  exists t balance,
    State.trades st' = State.trades st ++ [t] /\
    Trade.type t = SELL /\
    State.history st' = State.history st ++ [HistoryEntry.mk "2024-01-05" balance] /\
    Trade.balanceAfter t ~~ balance.
Proof.
  intros config st st'.
  assert (Hwarm : in_warmup config 4 = false) by reflexivity.
  assert (Ht : State.trades st' =
               State.trades st ++ [Trade.mk "2024-01-05" SELL (Fin 3) (Fin 495) (Fin 1495)
                                     "Technical Signal"])
    by (vm_compute; reflexivity).
  destruct (@trade_balance_is_the_recorded_equity config (calculateSMA round_trip 1)
              (calculateSMA round_trip 2) [] [] st 4%nat (bar "2024-01-05" 3) _ Hwarm Ht)
    as (balance & Hhist & _ & Hsame).
  eexists. exists balance. split; [exact Ht|]. split; [reflexivity|].
  split; [exact Hhist|]. apply Hsame. exact I.
Defined.

(* ------------------------------------------------------------------ *)
(** ** The final balance closes the equity curve *)

(** X7: when the last bar is past the warm-up (always so in AI mode), the
    [finalBalance] of the report is exactly the balance of the last
    history entry. *)
Theorem finalBalance_is_last_history_balance :
  forall (data : list MarketData.t) (config : StrategyConfig.t)
         (aiSignals : option (list AiSignal.t)) (r : BacktestResult.t),
    runBacktest data config aiSignals = Return r ->
    in_warmup config (length data - 1) = false ->
    exists earlier last,
      BacktestResult.history r = earlier ++ [last] /\
      HistoryEntry.balance last = BacktestResult.finalBalance r.
Proof.
  intros data config aiSignals r Hr Hwarm. unfold runBacktest in Hr.
  apply bind_Return_inv in Hr. destruct Hr as [rsi [_ Hr]].
  apply bind_Return_inv in Hr. destruct Hr as [lastClose [Hlast Hr]].
  inversion Hr. cbn [BacktestResult.history BacktestResult.finalBalance]. clear Hr.
  unfold close_at in Hlast.
  destruct (Array.get data (Z.of_nat (length data) - 1)) as [d|] eqn:Ed;
    [|discriminate Hlast].
  inversion Hlast. subst lastClose. clear Hlast.
  assert (Hne : (0 < length data)%nat).
  { destruct data; [discriminate Ed | simpl; lia]. }
  replace (Z.of_nat (length data) - 1)%Z with (Z.of_nat (length data - 1)) in Ed by lia.
  rewrite get_in_range in Ed.
  assert (E : simulate data config aiSignals rsi (length data)
              = simulate data config aiSignals rsi (S (length data - 1)))
    by (f_equal; lia).
  rewrite E, (simulate_S _ _ _ _ _ Ed). unfold loop_body. rewrite Hwarm.
  destruct (decide _ _ _ _ _ _ _) as [signal reason].
  unfold record_equity. cbn [State.history State.cash State.holdings].
  eexists. eexists. split; reflexivity.
Qed.

Lemma finalBalance_is_last_history_balance_witness :
  exists r earlier last,
    runBacktest round_trip (algo_config 1000 1 2 1) None = Return r /\
    BacktestResult.history r = earlier ++ [last] /\
    HistoryEntry.balance last = BacktestResult.finalBalance r.
Proof.
  destruct (runBacktest round_trip (algo_config 1000 1 2 1) None) as [r|e] eqn:Hr.
  2:{ vm_compute in Hr. discriminate Hr. }
  assert (Hwarm : in_warmup (algo_config 1000 1 2 1) (length round_trip - 1) = false)
    by reflexivity.
  destruct (@finalBalance_is_last_history_balance round_trip (algo_config 1000 1 2 1)
              None r Hr Hwarm) as (earlier & last & Hhist & Hbal).
  exists r, earlier, last. split; [reflexivity|]. split; assumption.
Defined.

(* ------------------------------------------------------------------ *)
(** ** Where the trades come from *)

Lemma subseq_length {A : Type} (s l : list A) : subseq s l -> (length s <= length l)%nat.
Proof. induction 1; simpl; lia. Qed.

Lemma subseq_In {A : Type} (s l : list A) (x : A) : subseq s l -> In x s -> In x l.
Proof.
  induction 1 as [l|y s l _ IH|y s l _ IH]; intros Hin.
  - destruct Hin.
  - destruct Hin as [->|Hin]; [left; reflexivity | right; apply IH; exact Hin].
  - right. apply IH. exact Hin.
Qed.

Lemma reason_or_default_nonempty (reason : string) : reason_or_default reason <> "".
Proof.
  unfold reason_or_default. destruct (String.eqb_spec reason ""); [discriminate | assumption].
Qed.

(** The "Execute Trade" block records nothing or one well-formed trade at
    the bar's date and close. *)
Lemma execute_trade_one_trade signal reason price date (st : State.t) :
  State.trades (execute_trade signal reason price date st) = State.trades st \/
  exists t,
    State.trades (execute_trade signal reason price date st) = State.trades st ++ [t] /\
    trade_key t = (date, price) /\ well_formed_trade t /\ Trade.type t = signal.
Proof.
  unfold execute_trade.
  destruct signal; cbn [SignalType_eqb andb].
  - destruct (State.cash st >? price); [|left; reflexivity].
    destruct (_ >? zero); [|left; reflexivity].
    destruct (_ <=? State.cash st); [|left; reflexivity].
    right. eexists. split; [reflexivity|]. split; [reflexivity|]. split; [|reflexivity].
    split; [left; reflexivity | apply reason_or_default_nonempty].
  - destruct (State.holdings st >? zero); [|left; reflexivity].
    right. eexists. split; [reflexivity|]. split; [reflexivity|]. split; [|reflexivity].
    split; [right; reflexivity | apply reason_or_default_nonempty].
  - left. reflexivity.
Qed.

Lemma run_loop_trades config shortSMA longSMA rsi aiSignalMap
    (bars : list (nat * MarketData.t)) (st : State.t) :
  exists ts,
    State.trades (run_loop config shortSMA longSMA rsi aiSignalMap bars st)
      = State.trades st ++ ts /\
    subseq (map trade_key ts) (map bar_key (map snd bars)) /\
    Forall well_formed_trade ts.
Proof.
  revert st. induction bars as [|[i d] bars IH]; intros st.
  - exists []. rewrite app_nil_r. split; [reflexivity|]. split; constructor.
  - unfold run_loop in *. cbn [fold_left].
    destruct (IH (loop_body config shortSMA longSMA rsi aiSignalMap st (i, d)))
      as (ts & Hts & Hsub & Hwf).
    assert (Hbody :
      State.trades (loop_body config shortSMA longSMA rsi aiSignalMap st (i, d))
        = State.trades st \/
      exists t,
        State.trades (loop_body config shortSMA longSMA rsi aiSignalMap st (i, d))
          = State.trades st ++ [t] /\
        trade_key t = bar_key d /\ well_formed_trade t).
    { unfold loop_body. destruct (in_warmup config i); [left; reflexivity|].
      destruct (decide _ _ _ _ _ _ _) as [signal reason].
      destruct (record_equity_position (MarketData.close d) (MarketData.date d)
                  (execute_trade signal reason (MarketData.close d)
                     (MarketData.date d) st)) as (_ & _ & ->).
      destruct (execute_trade_one_trade signal reason (MarketData.close d)
                  (MarketData.date d) st) as [Hnone | (t & Ht & Hkey & Hwft & _)].
      - left. exact Hnone.
      - right. exists t. auto. }
    destruct Hbody as [Hnone | (t & Ht & Hkey & Hwft)].
    + exists ts. rewrite Hts, Hnone. split; [reflexivity|].
      split; [|exact Hwf]. cbn [map snd]. apply subseq_skip. exact Hsub.
    + exists (t :: ts). rewrite Hts, Ht, <- app_assoc. split; [reflexivity|].
      split; [|constructor; assumption].
      cbn [map snd]. rewrite Hkey. apply subseq_take. exact Hsub.
Qed.

Lemma trades_of_run (data : list MarketData.t) (config : StrategyConfig.t)
    (aiSignals : option (list AiSignal.t)) (r : BacktestResult.t) :
  runBacktest data config aiSignals = Return r ->
  subseq (map trade_key (BacktestResult.trades r)) (map bar_key data) /\
  Forall well_formed_trade (BacktestResult.trades r).
Proof.
  intros Hr.
  destruct (runBacktest_Return_inv _ _ _ Hr) as [rsi [_ [Htrades _]]].
  rewrite Htrades. unfold simulate.
  destruct (run_loop_trades config
              (calculateSMA data (StrategyConfig.shortWindow config))
              (calculateSMA data (StrategyConfig.longWindow config))
              rsi (build_signal_map config aiSignals)
              (firstn (length data) (Array.indexed data)) (initial_state config))
    as (ts & Hts & Hsub & Hwf).
  rewrite Hts. cbn [initial_state State.trades app].
  rewrite <- (indexed_length data), firstn_all, map_snd_indexed in Hsub.
  split; assumption.
Qed.

(** X8: the trades of a report, read as (date, price) pairs, are a
    subsequence of the (date, close) pairs of the series: each bar trades
    at most once, at its own date and close, in chronological order; so
    there are at most as many trades as bars.  Every trade is a BUY or a
    SELL (never a HOLD) and carries a non-empty reason. *)
Theorem trades_follow_the_series :
  forall (data : list MarketData.t) (config : StrategyConfig.t)
         (aiSignals : option (list AiSignal.t)) (r : BacktestResult.t),
    runBacktest data config aiSignals = Return r ->
    subseq (map trade_key (BacktestResult.trades r)) (map bar_key data) /\
    Forall well_formed_trade (BacktestResult.trades r) /\
    (length (BacktestResult.trades r) <= length data)%nat.
Proof.
  intros data config aiSignals r Hr.
  destruct (trades_of_run _ _ _ Hr) as [Hsub Hwf].
  split; [exact Hsub|]. split; [exact Hwf|].
  apply subseq_length in Hsub. rewrite !length_map in Hsub. exact Hsub.
Qed.

Lemma trades_follow_the_series_witness :
  exists r,
    runBacktest round_trip (algo_config 1000 1 2 1) None = Return r /\
    map trade_key (BacktestResult.trades r)
      = [("2024-01-03", Fin 2); ("2024-01-05", Fin 3)] /\
    subseq (map trade_key (BacktestResult.trades r)) (map bar_key round_trip).
Proof.
  destruct (runBacktest round_trip (algo_config 1000 1 2 1) None) as [r|e] eqn:Hr.
  2:{ vm_compute in Hr. discriminate Hr. }
  exists r. split; [reflexivity|]. split.
  - vm_compute in Hr. inversion Hr. reflexivity.
  - exact (proj1 (@trades_follow_the_series round_trip (algo_config 1000 1 2 1) None
                    r Hr)).
Defined.

(* ------------------------------------------------------------------ *)
(** ** The signal map *)

Lemma SignalMap_get_set (m : SignalMap.t) (k k' : string) (v : AiSignal.t) :
  SignalMap.get (SignalMap.set m k v) k' =
  if String.eqb k k' then Some v else SignalMap.get m k'.
Proof.
  induction m as [|[k0 v0] m IH]; simpl.
  - reflexivity.
  - destruct (String.eqb_spec k0 k) as [->|Hne]; simpl.
    + destruct (String.eqb k k'); reflexivity.
    + rewrite IH. destruct (String.eqb_spec k0 k') as [->|Hne'].
      * destruct (String.eqb_spec k k') as [->|_]; [congruence | reflexivity].
      * reflexivity.
Qed.

Lemma find_snoc {A : Type} (p : A -> bool) (l : list A) (x : A) :
  find p (l ++ [x]) =
  match find p l with
  | Some y => Some y
  | None => if p x then Some x else None
  end.
Proof.
  induction l as [|y l IH]; simpl; [reflexivity|].
  destruct (p y); [reflexivity | exact IH].
Qed.

Lemma SignalMap_get_fold (signals : list AiSignal.t) (m : SignalMap.t) (date : string) :
  SignalMap.get
    (fold_left (fun m s => SignalMap.set m (AiSignal.date s) s) signals m) date =
  match find (fun s => String.eqb (AiSignal.date s) date) (rev signals) with
  | Some s => Some s
  | None => SignalMap.get m date
  end.
Proof.
  revert m. induction signals as [|s signals IH]; intros m.
  - reflexivity.
  - cbn [fold_left rev]. rewrite IH, find_snoc, SignalMap_get_set.
    destruct (find _ (rev signals)); [reflexivity|].
    destruct (String.eqb (AiSignal.date s) date); reflexivity.
Qed.

(** X9: in AI mode the decision at a bar is the action (and reason) of the
    last signal of the list that carries the bar's date, and HOLD when
    there is none: of several signals for one date the last one wins. *)
Theorem last_signal_for_a_date_wins :
  forall (config : StrategyConfig.t) (shortSMA longSMA rsi : list number)
         (signals : list AiSignal.t) (i : nat) (date : string),
    StrategyConfig.mode config = AI ->
    decide config shortSMA longSMA rsi (build_signal_map config (Some signals)) i date =
    match find (fun s => String.eqb (AiSignal.date s) date) (rev signals) with
    | Some s => (AiSignal.action s, AiSignal.reason s)
    | None => (HOLD, "")
    end.
Proof.
  intros config shortSMA longSMA rsi signals i date Hmode.
  unfold decide, build_signal_map. rewrite Hmode. cbn [Mode_eqb].
  rewrite SignalMap_get_fold.
  destruct (find _ (rev signals)); reflexivity.
Qed.

Lemma last_signal_for_a_date_wins_witness :
  decide (ai_config 1000 2 3 14) [] [] []
         (build_signal_map (ai_config 1000 2 3 14) (Some sample_signals))
         2 "2024-01-03"
  = (BUY, "second thought").
Proof.
  assert (Hmode : StrategyConfig.mode (ai_config 1000 2 3 14) = AI) by reflexivity.
  rewrite (@last_signal_for_a_date_wins (ai_config 1000 2 3 14) [] [] []
             sample_signals 2%nat "2024-01-03" Hmode).
  reflexivity.
Defined.

(* ------------------------------------------------------------------ *)
(** ** What each mode reads *)

Lemma run_loop_ext (f g : State.t -> nat * MarketData.t -> State.t)
    (bars : list (nat * MarketData.t)) (st : State.t) :
  (forall s bar, f s bar = g s bar) -> fold_left f bars st = fold_left g bars st.
Proof.
  intros H. revert st. induction bars as [|bar bars IH]; intros st; simpl.
  - reflexivity.
  - rewrite H. apply IH.
Qed.

Lemma loop_body_AI (c1 c2 : StrategyConfig.t) (s1 l1 r1 s2 l2 r2 : list number)
    (m : SignalMap.t) (st : State.t) (bar : nat * MarketData.t) :
  StrategyConfig.mode c1 = AI -> StrategyConfig.mode c2 = AI ->
  loop_body c1 s1 l1 r1 m st bar = loop_body c2 s2 l2 r2 m st bar.
Proof.
  intros H1 H2. destruct bar as [i d].
  unfold loop_body, in_warmup, decide. rewrite H1, H2. reflexivity.
Qed.

(** X10: each mode reads only its own inputs.  In ALGO mode the report
    does not depend on the AI signals passed; in AI mode it does not
    depend on the windows, the RSI thresholds or the RSI filter (two AI
    configurations with the same capital and RSI period give the same
    outcome). *)
Theorem modes_read_their_own_inputs :
  forall (data : list MarketData.t) (config : StrategyConfig.t)
         (aiSignals : option (list AiSignal.t)),
    (StrategyConfig.mode config = ALGO ->
       runBacktest data config aiSignals = runBacktest data config None) /\
    (forall config',
       StrategyConfig.mode config = AI -> StrategyConfig.mode config' = AI ->
       StrategyConfig.initialCapital config' = StrategyConfig.initialCapital config ->
       StrategyConfig.rsiPeriod config' = StrategyConfig.rsiPeriod config ->
       runBacktest data config' aiSignals = runBacktest data config aiSignals).
Proof.
  intros data config aiSignals. split.
  - intros Hmode. unfold runBacktest, simulate, build_signal_map.
    rewrite Hmode. reflexivity.
  - intros config' H1 H2 Hcap Hrsi. unfold runBacktest. rewrite Hrsi.
    destruct (calculateRSI data (StrategyConfig.rsiPeriod config)) as [rsi|e];
      [|reflexivity].
    cbn [bind].
    assert (Hsim : simulate data config' aiSignals rsi (length data)
                   = simulate data config aiSignals rsi (length data)).
    { unfold simulate, run_loop, initial_state, build_signal_map.
      rewrite H1, H2, Hcap. apply run_loop_ext.
      intros s bar. apply loop_body_AI; assumption. }
    rewrite Hsim, Hcap. reflexivity.
Qed.

Lemma modes_read_their_own_inputs_witness :
  runBacktest round_trip (algo_config 1000 1 2 1) (Some sample_signals)
  = runBacktest round_trip (algo_config 1000 1 2 1) None /\
  runBacktest round_trip (ai_config 1000 50 (-7) 14) (Some sample_signals)
  = runBacktest round_trip (ai_config 1000 2 3 14) (Some sample_signals).
Proof.
  assert (Halgo : StrategyConfig.mode (algo_config 1000 1 2 1) = ALGO) by reflexivity.
  assert (H1 : StrategyConfig.mode (ai_config 1000 2 3 14) = AI) by reflexivity.
  assert (H2 : StrategyConfig.mode (ai_config 1000 50 (-7) 14) = AI) by reflexivity.
  split.
  - exact (proj1 (@modes_read_their_own_inputs round_trip (algo_config 1000 1 2 1)
                    (Some sample_signals)) Halgo).
  - exact (proj2 (@modes_read_their_own_inputs round_trip (ai_config 1000 2 3 14)
                    (Some sample_signals))
             (ai_config 1000 50 (-7) 14) H1 H2 eq_refl eq_refl).
Defined.

(* ------------------------------------------------------------------ *)
(** ** Runs that cannot trade *)

Lemma build_signal_map_no_match (config : StrategyConfig.t)
    (aiSignals : option (list AiSignal.t)) (date : string) :
  (forall signals s, aiSignals = Some signals -> In s signals ->
                     AiSignal.date s <> date) ->
  SignalMap.get (build_signal_map config aiSignals) date = None.
Proof.
  intros H. unfold build_signal_map.
  destruct (StrategyConfig.mode config); [reflexivity|].
  destruct aiSignals as [signals|]; [|reflexivity].
  rewrite SignalMap_get_fold.
  destruct (find _ (rev signals)) as [s|] eqn:E; [|reflexivity].
  apply find_some in E. destruct E as [Hin Heq].
  apply String.eqb_eq in Heq. apply in_rev in Hin.
  exfalso. exact (H signals s eq_refl Hin Heq).
Qed.

Lemma run_loop_AI_no_match config shortSMA longSMA rsi aiSignalMap
    (bars : list (nat * MarketData.t)) (st : State.t) :
  StrategyConfig.mode config = AI ->
  (forall bar, In bar bars ->
               SignalMap.get aiSignalMap (MarketData.date (snd bar)) = None) ->
  let st' := run_loop config shortSMA longSMA rsi aiSignalMap bars st in
  State.trades st' = State.trades st /\
  State.cash st' = State.cash st /\
  State.holdings st' = State.holdings st.
Proof.
  intros Hmode. revert st. induction bars as [|[i d] bars IH]; intros st Hbars.
  - repeat split.
  - unfold run_loop in *. cbn [fold_left].
    assert (Hbody : loop_body config shortSMA longSMA rsi aiSignalMap st (i, d)
                    = record_equity (MarketData.close d) (MarketData.date d) st).
    { unfold loop_body, in_warmup, decide. rewrite Hmode. cbn [Mode_eqb andb].
      pose proof (Hbars (i, d) (or_introl eq_refl)) as Hget. cbn [snd] in Hget.
      rewrite Hget. reflexivity. }
    rewrite Hbody.
    destruct (IH (record_equity (MarketData.close d) (MarketData.date d) st)
                 (fun bar Hin => Hbars bar (or_intror Hin))) as (Ht & Hc & Hh).
    rewrite Ht, Hc, Hh. repeat split.
Qed.

(** X11: in AI mode, signals whose dates are not dates of the series are
    ignored: when no signal (or no signal list at all) matches a bar, the
    run records no trade, keeps the cash at the initial capital and
    reports a win rate of 0. *)
Theorem unmatched_signals_never_trade :
  forall (data : list MarketData.t) (config : StrategyConfig.t)
         (aiSignals : option (list AiSignal.t)) (r : BacktestResult.t),
    StrategyConfig.mode config = AI ->
    (forall signals s d, aiSignals = Some signals -> In s signals -> In d data ->
                         AiSignal.date s <> MarketData.date d) ->
    runBacktest data config aiSignals = Return r ->
    BacktestResult.trades r = [] /\
    BacktestResult.winRate r = zero /\
    (forall rsi n, State.cash (simulate data config aiSignals rsi n)
                   = StrategyConfig.initialCapital config).
Proof.
  intros data config aiSignals r Hmode Hdates Hr.
  assert (Hsim : forall rsi n,
             State.trades (simulate data config aiSignals rsi n) = [] /\
             State.cash (simulate data config aiSignals rsi n)
               = StrategyConfig.initialCapital config).
  { intros rsi n. unfold simulate.
    destruct (@run_loop_AI_no_match config
                (calculateSMA data (StrategyConfig.shortWindow config))
                (calculateSMA data (StrategyConfig.longWindow config))
                rsi (build_signal_map config aiSignals)
                (firstn n (Array.indexed data)) (initial_state config) Hmode)
      as (Ht & Hc & _).
    - intros bar Hin. apply build_signal_map_no_match.
      intros signals s Hsome Hs.
      apply (Hdates signals s (snd bar) Hsome Hs).
      apply (@in_firstn_indexed _ data n bar Hin).
    - split; assumption. }
  destruct (runBacktest_Return_inv _ _ _ Hr) as [rsi [_ [Htrades [_ Hwin]]]].
  assert (Hnone : BacktestResult.trades r = []).
  { rewrite Htrades. apply Hsim. }
  split; [exact Hnone|]. split.
  - rewrite Hwin, Hnone. reflexivity.
  - intros rsi' n. apply Hsim.
Qed.

Lemma unmatched_signals_never_trade_witness :
  exists r,
    runBacktest rising4 (ai_config 1000 2 3 2)
                (Some [AiSignal.mk "2023-12-31" BUY "too early"]) = Return r /\
    BacktestResult.trades r = [].
Proof.
  assert (Hmode : StrategyConfig.mode (ai_config 1000 2 3 2) = AI) by reflexivity.
  assert (Hdates : forall signals s d,
             Some [AiSignal.mk "2023-12-31" BUY "too early"] = Some signals ->
             In s signals -> In d rising4 ->
             AiSignal.date s <> MarketData.date d).
  { intros signals s d Hsome Hs Hd. inversion Hsome. subst signals.
    destruct Hs as [<-|[]]. simpl in Hd.
    destruct Hd as [<-|[<-|[<-|[<-|[]]]]]; discriminate. }
  destruct (runBacktest rising4 (ai_config 1000 2 3 2)
              (Some [AiSignal.mk "2023-12-31" BUY "too early"])) as [r|e] eqn:Hr.
  2:{ vm_compute in Hr. discriminate Hr. }
  exists r. split; [reflexivity|].
  exact (proj1 (@unmatched_signals_never_trade rising4 (ai_config 1000 2 3 2)
                  (Some [AiSignal.mk "2023-12-31" BUY "too early"]) r
                  Hmode Hdates Hr)).
Defined.

(** X12: in ALGO mode a non-empty series with no more bars than
    [max(longWindow, rsiPeriod)] (RSI period not negative) yields a flat
    report: no trade, every history balance equal to the initial capital,
    win rate 0 and maximum drawdown 0. *)
Theorem short_series_gives_flat_report :
  forall (data : list MarketData.t) (config : StrategyConfig.t)
         (aiSignals : option (list AiSignal.t)),
    StrategyConfig.mode config = ALGO ->
    data <> [] -> (0 <= StrategyConfig.rsiPeriod config)%Z ->
    (Z.of_nat (length data) <= Z.max (StrategyConfig.longWindow config)
                                     (StrategyConfig.rsiPeriod config))%Z ->
    exists r,
      runBacktest data config aiSignals = Return r /\
      BacktestResult.trades r = [] /\
      BacktestResult.history r =
        map (fun d => HistoryEntry.mk (MarketData.date d)
                        (StrategyConfig.initialCapital config)) data /\
      BacktestResult.winRate r = zero /\
      BacktestResult.maxDrawdown r = zero.
Proof.
  intros data config aiSignals Hmode Hne Hp Hshort.
  destruct (@runBacktest_total data config aiSignals Hne Hp) as [r Hr].
  exists r. split; [exact Hr|].
  unfold runBacktest in Hr.
  apply bind_Return_inv in Hr. destruct Hr as [rsi [_ Hr]].
  apply bind_Return_inv in Hr. destruct Hr as [lastClose [_ Hr]].
  rewrite (@warmup_state data config aiSignals rsi (length data) Hmode (le_n _) Hshort)
    in Hr.
  inversion Hr. cbn. rewrite firstn_all. repeat split.
Qed.

Lemma short_series_gives_flat_report_witness :
  exists r,
    runBacktest rising4 (algo_config 1000 10 50 14) None = Return r /\
    BacktestResult.trades r = [] /\
    BacktestResult.maxDrawdown r = zero.
Proof.
  assert (Hmode : StrategyConfig.mode (algo_config 1000 10 50 14) = ALGO) by reflexivity.
  assert (Hne : rising4 <> []) by discriminate.
  assert (Hp : (0 <= StrategyConfig.rsiPeriod (algo_config 1000 10 50 14))%Z)
    by (simpl; lia).
  assert (Hshort : (Z.of_nat (length rising4)
                    <= Z.max (StrategyConfig.longWindow (algo_config 1000 10 50 14))
                             (StrategyConfig.rsiPeriod (algo_config 1000 10 50 14)))%Z)
    by (simpl; lia).
  destruct (@short_series_gives_flat_report rising4 (algo_config 1000 10 50 14) None
              Hmode Hne Hp Hshort) as (r & Hr & Htrades & _ & _ & Hdd).
  exists r. split; [exact Hr|]. split; assumption.
Defined.

(* ------------------------------------------------------------------ *)
(** ** Undefined averages decide nothing *)

Lemma sma_undefined (data : list MarketData.t) (w : Z) (i : nat) :
  (i < length data)%nat -> (Z.of_nat i < w - 1)%Z ->
  Array.get_num (calculateSMA data w) (Z.of_nat i) = NaN.
Proof.
  intros Hlen Hi. unfold Array.get_num. rewrite get_in_range.
  destruct (nth_error data i) as [d|] eqn:Ed.
  2:{ apply nth_error_None in Ed. lia. }
  unfold calculateSMA. rewrite (nth_error_mapi _ _ _ Ed).
  destruct (Z.ltb_spec (Z.of_nat i) (w - 1)); [reflexivity | lia].
Qed.

Lemma compare_with_NaN (x : number) :
  (NaN >? x) = false /\ (NaN <? x) = false /\ (x >? NaN) = false /\ (x <? NaN) = false.
Proof. destruct x; repeat split. Qed.

(** X13: in ALGO mode without the RSI filter, a bar at which the short or
    the long moving average is still undefined ([i < shortWindow - 1] or
    [i < longWindow - 1]) is decided HOLD: it records no trade and leaves
    cash and holdings as they are. *)
Theorem undefined_average_never_trades :
  forall (data : list MarketData.t) (config : StrategyConfig.t)
         (aiSignals : option (list AiSignal.t)) (rsi : list number)
         (i : nat) (d : MarketData.t),
    StrategyConfig.mode config = ALGO ->
    StrategyConfig.useRsiFilter config = false ->
    nth_error data i = Some d ->
    ((Z.of_nat i < StrategyConfig.shortWindow config - 1)%Z \/
     (Z.of_nat i < StrategyConfig.longWindow config - 1)%Z) ->
    let before := simulate data config aiSignals rsi i in
    let after := simulate data config aiSignals rsi (S i) in
    State.trades after = State.trades before /\
    State.cash after = State.cash before /\
    State.holdings after = State.holdings before.
Proof.
  intros data config aiSignals rsi i d Hmode Hfilter Hd Hi before after.
  subst before after. rewrite (simulate_S _ _ _ _ _ Hd).
  assert (Hlen : (i < length data)%nat).
  { apply nth_error_Some. rewrite Hd. discriminate. }
  unfold loop_body. destruct (in_warmup config i); [repeat split|].
  assert (Hdecide : decide config
                      (calculateSMA data (StrategyConfig.shortWindow config))
                      (calculateSMA data (StrategyConfig.longWindow config))
                      rsi (build_signal_map config aiSignals) i (MarketData.date d)
                    = (HOLD, "")).
  { unfold decide. rewrite Hmode, Hfilter. cbn [Mode_eqb negb orb andb].
    destruct Hi as [Hs|Hl].
    - rewrite (sma_undefined _ _ Hlen Hs).
      destruct (compare_with_NaN
                  (Array.get_num (calculateSMA data (StrategyConfig.longWindow config))
                     (Z.of_nat i))) as (-> & -> & _).
      rewrite !andb_false_r. reflexivity.
    - rewrite (sma_undefined _ _ Hlen Hl).
      destruct (compare_with_NaN
                  (Array.get_num (calculateSMA data (StrategyConfig.shortWindow config))
                     (Z.of_nat i))) as (_ & _ & -> & ->).
      rewrite !andb_false_r. reflexivity. }
  rewrite Hdecide. repeat split.
Qed.

Lemma undefined_average_never_trades_witness :
  let config := algo_config 1000 4 2 1 in
  nth_error round_trip 2 = Some (bar "2024-01-03" 2) /\
  in_warmup config 2 = false /\
  State.trades (simulate round_trip config None [] 3)
  = State.trades (simulate round_trip config None [] 2).
Proof.
  intros config.
  assert (Hmode : StrategyConfig.mode config = ALGO) by reflexivity.
  assert (Hfilter : StrategyConfig.useRsiFilter config = false) by reflexivity.
  assert (Hd : nth_error round_trip 2 = Some (bar "2024-01-03" 2)) by reflexivity.
  assert (Hi : (Z.of_nat 2 < StrategyConfig.shortWindow config - 1)%Z \/
               (Z.of_nat 2 < StrategyConfig.longWindow config - 1)%Z)
    by (left; simpl; lia).
  split; [exact Hd|]. split; [reflexivity|].
  exact (proj1 (@undefined_average_never_trades round_trip config None [] 2%nat
                  (bar "2024-01-03" 2) Hmode Hfilter Hd Hi)).
Defined.

(* ------------------------------------------------------------------ *)
(** ** getExchangeSymbol *)

Lemma list_ascii_of_append (a b : string) :
  list_ascii_of_string (String.append a b)
  = list_ascii_of_string a ++ list_ascii_of_string b.
Proof. induction a as [|c a IH]; simpl; [reflexivity|]. rewrite IH. reflexivity. Qed.

Lemma list_ascii_of_string_inj (a b : string) :
  list_ascii_of_string a = list_ascii_of_string b -> a = b.
Proof.
  intros H. rewrite <- (string_of_list_ascii_of_string a),
              <- (string_of_list_ascii_of_string b), H. reflexivity.
Qed.

Lemma append_inj_l (a b s : string) : String.append a s = String.append b s -> a = b.
Proof.
  intros H. apply list_ascii_of_string_inj.
  apply (f_equal list_ascii_of_string) in H. rewrite !list_ascii_of_append in H.
  exact (app_inv_tail _ _ _ H).
Qed.

Lemma append_inj_r (a s t : string) : String.append a s = String.append a t -> s = t.
Proof.
  intros H. apply list_ascii_of_string_inj.
  apply (f_equal list_ascii_of_string) in H. rewrite !list_ascii_of_append in H.
  exact (app_inv_head _ _ _ H).
Qed.

(** X14: on one exchange [getExchangeSymbol] maps different assets to
    different symbols, and one asset gets different symbols on different
    exchanges. *)
Theorem getExchangeSymbol_injective :
  forall (asset asset' : string) (exchange exchange' : Exchange),
    (asset <> asset' ->
     getExchangeSymbol asset exchange <> getExchangeSymbol asset' exchange) /\
    (exchange <> exchange' ->
     getExchangeSymbol asset exchange <> getExchangeSymbol asset exchange').
Proof.
  intros asset asset' exchange exchange'. split.
  - intros Hne H. apply Hne. destruct exchange; simpl in H; exact (append_inj_l _ _ _ H).
  - intros Hne H. apply Hne.
    destruct exchange, exchange'; simpl in H; try reflexivity;
      apply append_inj_r in H; discriminate H.
Qed.

Lemma getExchangeSymbol_injective_witness :
  getExchangeSymbol "BTC" OKX = "BTC-USDT" /\
  getExchangeSymbol "BTC" OKX <> getExchangeSymbol "ETH" OKX /\
  getExchangeSymbol "BTC" OKX <> getExchangeSymbol "BTC" COINBASE.
Proof.
  assert (Hassets : "BTC" <> "ETH") by discriminate.
  assert (Hexchanges : OKX <> COINBASE) by discriminate.
  split; [reflexivity|]. split.
  - exact (proj1 (@getExchangeSymbol_injective "BTC" "ETH" OKX OKX) Hassets).
  - exact (proj2 (@getExchangeSymbol_injective "BTC" "BTC" OKX COINBASE) Hexchanges).
Defined.

(* ------------------------------------------------------------------ *)
(** ** Visualizer: the markers of the chart *)

Lemma in_mapi_from {A B : Type} (f : A -> nat -> B) (s : nat) (l : list A) (y : B) :
  In y (Array.mapi_from f s l) -> exists x i, In x l /\ y = f x i.
Proof.
  revert s. induction l as [|x l IH]; intros s Hin; simpl in Hin.
  - destruct Hin.
  - destruct Hin as [<-|Hin].
    + exists x, s. split; [left; reflexivity | reflexivity].
    + destruct (IH (S s) Hin) as (x' & i & Hx' & Hy).
      exists x', i. split; [right; exact Hx' | exact Hy].
Qed.

Lemma NoDup_map_injective {A B : Type} (f : A -> B) (l : list A) (x y : A) :
  NoDup (map f l) -> In x l -> In y l -> f x = f y -> x = y.
Proof.
  induction l as [|z l IH]; intros Hnd Hx Hy Hf; [destruct Hx|].
  simpl in Hnd. inversion Hnd as [|? ? Hnotin Hnd']. subst.
  destruct Hx as [->|Hx], Hy as [->|Hy].
  - reflexivity.
  - exfalso. apply Hnotin. rewrite Hf. apply in_map. exact Hy.
  - exfalso. apply Hnotin. rewrite <- Hf. apply in_map. exact Hx.
  - apply IH; assumption.
Qed.

(** A trade found for the date of a bar was made on that bar, when the
    dates of the series are all different. *)
Lemma found_trade_is_of_the_bar (data : list MarketData.t) (config : StrategyConfig.t)
    (aiSignals : option (list AiSignal.t)) (r : BacktestResult.t)
    (d : MarketData.t) (ty : SignalType) (t : Trade.t) :
  runBacktest data config aiSignals = Return r ->
  NoDup (map MarketData.date data) -> In d data ->
  find_trade (Some r) (MarketData.date d) ty = Some t ->
  Trade.price t = MarketData.close d /\ Trade.type t = ty /\ Trade.reason t <> "".
Proof.
  intros Hr Hnd Hd Hfind. unfold find_trade in Hfind.
  apply find_some in Hfind. destruct Hfind as [Hin Hp].
  apply andb_true_iff in Hp. destruct Hp as [Hdate Hty].
  apply String.eqb_eq in Hdate.
  destruct (trades_of_run _ _ _ Hr) as [Hsub Hwf].
  assert (Hkey : In (trade_key t) (map bar_key data)).
  { apply (@subseq_In _ _ _ (trade_key t) Hsub). apply in_map. exact Hin. }
  apply in_map_iff in Hkey. destruct Hkey as (d' & Hkey & Hd').
  unfold bar_key, trade_key in Hkey. inversion Hkey as [[Hdate' Hclose']].
  assert (d' = d).
  { apply (NoDup_map_injective MarketData.date data); try assumption. congruence. }
  subst d'. split; [congruence|]. split.
  - destruct (Trade.type t), ty; simpl in Hty; congruence.
  - apply (proj1 (Forall_forall _ _) Hwf t Hin).
Qed.

(** X15: composed with [runBacktest], and on a series whose dates are all
    different, the chart has one point per bar; a buy or sell marker, when
    present, has the value of the close of its own bar; and a point shows
    a trade reason exactly when it shows a marker. *)
Theorem chart_markers_sit_on_the_close :
  forall (data : list MarketData.t) (config : StrategyConfig.t)
         (aiSignals : option (list AiSignal.t)) (r : BacktestResult.t)
         (shortMA longMA : list number),
    runBacktest data config aiSignals = Return r ->
    NoDup (map MarketData.date data) ->
    length (chartData data shortMA longMA (Some r)) = length data /\
    forall pt, In pt (chartData data shortMA longMA (Some r)) ->
      (forall x, ChartPoint.buySignal pt = Some x ->
                 x = MarketData.close (ChartPoint.data pt)) /\
      (forall x, ChartPoint.sellSignal pt = Some x ->
                 x = MarketData.close (ChartPoint.data pt)) /\
      (ChartPoint.tradeReason pt = None <->
       ChartPoint.buySignal pt = None /\ ChartPoint.sellSignal pt = None).
Proof.
  intros data config aiSignals r shortMA longMA Hr Hnd. split.
  - unfold chartData, Array.mapi. apply mapi_from_length.
  - intros pt Hin. unfold chartData, Array.mapi in Hin.
    apply in_mapi_from in Hin. destruct Hin as (d & i & Hd & ->).
    cbn [ChartPoint.buySignal ChartPoint.sellSignal ChartPoint.data
         ChartPoint.tradeReason].
    pose proof (@found_trade_is_of_the_bar data config aiSignals r d BUY) as Hbuy.
    pose proof (@found_trade_is_of_the_bar data config aiSignals r d SELL) as Hsell.
    destruct (find_trade (Some r) (MarketData.date d) BUY) as [b|];
      destruct (find_trade (Some r) (MarketData.date d) SELL) as [s|];
      cbn [option_map reason_of].
    + destruct (Hbuy b Hr Hnd Hd eq_refl) as (Hpb & _ & Hrb).
      destruct (Hsell s Hr Hnd Hd eq_refl) as (Hps & _ & _).
      destruct (String.eqb_spec (Trade.reason b) ""); [contradiction|].
      repeat split; try (intros x Hx; inversion Hx; congruence);
        try discriminate. intros [H _]. discriminate H.
    + destruct (Hbuy b Hr Hnd Hd eq_refl) as (Hpb & _ & Hrb).
      destruct (String.eqb_spec (Trade.reason b) ""); [contradiction|].
      repeat split; try (intros x Hx; inversion Hx; congruence);
        try discriminate. intros [H _]. discriminate H.
    + destruct (Hsell s Hr Hnd Hd eq_refl) as (Hps & _ & _).
      repeat split; try (intros x Hx; inversion Hx; congruence);
        try discriminate. intros [_ H]. discriminate H.
    + repeat split; try discriminate.
Qed.

Lemma chart_markers_sit_on_the_close_witness :
  exists r,
    runBacktest round_trip (algo_config 1000 1 2 1) None = Return r /\
    NoDup (map MarketData.date round_trip) /\
    length (chartData round_trip [] [] (Some r)) = length round_trip /\
    map ChartPoint.buySignal (chartData round_trip [] [] (Some r))
      = [None; None; Some (Fin 2); None; None].
Proof.
  destruct (runBacktest round_trip (algo_config 1000 1 2 1) None) as [r|e] eqn:Hr.
  2:{ vm_compute in Hr. discriminate Hr. }
  assert (Hnd : NoDup (map MarketData.date round_trip)).
  { simpl. repeat constructor; simpl; intuition discriminate. }
  exists r. split; [reflexivity|]. split; [exact Hnd|]. split.
  - exact (proj1 (@chart_markers_sit_on_the_close round_trip (algo_config 1000 1 2 1)
                    None r [] [] Hr Hnd)).
  - vm_compute in Hr. inversion Hr. vm_compute. reflexivity.
Defined.

(* ------------------------------------------------------------------ *)
(** ** The loss is bounded by the capital *)

(** A balance that is not negative is a return of at least -100 percent
    on a positive capital, or an undefined one. *)
Lemma totalReturn_floor (balance capital : number) :
  not_negative balance -> (zero <? capital) = true ->
  (((balance - capital) / capital) * hundred <? Fin (- (100))) = false.
Proof.
  intros Hb Hc. apply not_negative_cases in Hb.
  destruct capital as [c| | |]; try discriminate Hc.
  - apply ltb_Fin in Hc.
    destruct balance as [b| | |]; try contradiction; try reflexivity.
    + change (Fin b - Fin c) with (Fin (Qred (b - c))).
      rewrite div_Fin_pos by exact Hc. unfold hundred.
      change (fin (Qred (b - c) / c) * Fin 100)
        with (fin (Qred (Qred (b - c) / c) * 100)).
      rewrite ltb_fin_l.
      destruct (Fin (Qred (Qred (b - c) / c) * 100) <? Fin (- (100))) eqn:E;
        [|reflexivity].
      apply ltb_Fin in E. rewrite !Qred_correct in E.
      assert (Hfrac : (- (1) <= (b - c) / c)%Q).
      { apply Qle_shift_div_l; [exact Hc | lra]. }
      lra.
    + cbn [sub div]. rewrite (sign_pos Hc). reflexivity.
  - destruct balance as [b| | |]; try contradiction; reflexivity.
Qed.

(** X16: on closes that are not negative and from a positive capital, the
    report's [finalBalance] is never negative and its [totalReturn],
    [(finalBalance - capital) / capital * 100], is never below -100
    percent (either may be [NaN] or infinite). *)
Theorem loss_is_bounded_by_capital :
  forall (data : list MarketData.t) (config : StrategyConfig.t)
         (aiSignals : option (list AiSignal.t)) (r : BacktestResult.t),
    nonneg_closes data ->
    (zero <? StrategyConfig.initialCapital config) = true ->
    runBacktest data config aiSignals = Return r ->
    (BacktestResult.finalBalance r <? zero) = false /\
    BacktestResult.totalReturn r =
      ((BacktestResult.finalBalance r - StrategyConfig.initialCapital config)
       / StrategyConfig.initialCapital config) * hundred /\
    (BacktestResult.totalReturn r <? Fin (- (100))) = false.
Proof.
  intros data config aiSignals r Hnn Hcap Hr.
  unfold runBacktest in Hr.
  apply bind_Return_inv in Hr. destruct Hr as [rsi [_ Hr]].
  apply bind_Return_inv in Hr. destruct Hr as [lastClose [Hlast Hr]].
  inversion Hr. cbn [BacktestResult.finalBalance BacktestResult.totalReturn]. clear Hr.
  destruct (@simulate_never_short data config aiSignals rsi (length data) Hnn Hcap)
    as [Hc Hh].
  assert (Hprice : nonneg lastClose).
  { unfold close_at in Hlast.
    destruct (Array.get data (Z.of_nat (length data) - 1)) as [d|] eqn:Ed;
      [|discriminate Hlast].
    inversion Hlast. unfold Array.get in Ed.
    destruct (Z.of_nat (length data) - 1 <? 0)%Z; [discriminate Ed|].
    apply (proj1 (Forall_forall _ _) Hnn d). apply (nth_error_In _ _ Ed). }
  assert (Hbal : not_negative
                   (State.cash (simulate data config aiSignals rsi (length data))
                    + State.holdings (simulate data config aiSignals rsi (length data))
                      * lastClose)).
  { apply not_negative_add; [exact Hc|]. apply nonneg_mul; assumption. }
  split; [exact Hbal|]. split; [reflexivity|].
  apply totalReturn_floor; assumption.
Qed.

Lemma loss_is_bounded_by_capital_witness :
  exists r,
    runBacktest up_and_down (algo_config 1000 1 2 1) None = Return r /\
    (BacktestResult.finalBalance r <? zero) = false /\
    (BacktestResult.totalReturn r <? Fin (- (100))) = false.
Proof.
  assert (Hnn : nonneg_closes up_and_down) by (repeat constructor).
  assert (Hcap : (zero <? StrategyConfig.initialCapital (algo_config 1000 1 2 1)) = true)
    by reflexivity.
  destruct (runBacktest up_and_down (algo_config 1000 1 2 1) None) as [r|e] eqn:Hr.
  2:{ vm_compute in Hr. discriminate Hr. }
  destruct (@loss_is_bounded_by_capital up_and_down (algo_config 1000 1 2 1) None
              r Hnn Hcap Hr) as (Hb & _ & Hret).
  exists r. split; [reflexivity|]. split; assumption.
Defined.

(* ------------------------------------------------------------------ *)
(** ** calculateRSI on a series that never rises *)

Lemma close_at_nth (data : list MarketData.t) (i : Z) :
  finite_closes data -> (0 <= i < Z.of_nat (length data))%Z ->
  close_at data i = Return (Fin (close_nth data (Z.to_nat i))).
Proof.
  intros Hfin Hi.
  rewrite <- (close_at_finite Hfin (i := Z.to_nat i)) by lia.
  rewrite Z2Nat.id by lia. reflexivity.
Qed.

Lemma no_gain_diff (data : list MarketData.t) (i : Z) :
  never_rising data -> (1 <= i < Z.of_nat (length data))%Z ->
  (Fin (Qred (close_nth data (Z.to_nat i) - close_nth data (Z.to_nat (i - 1))))
   >? zero) = false.
Proof.
  intros Hfall Hi.
  pose proof (Hfall (Z.to_nat (i - 1)) ltac:(lia)) as Hle.
  replace (S (Z.to_nat (i - 1))) with (Z.to_nat i) in Hle by lia.
  destruct (Fin _ >? zero) eqn:E; [|reflexivity].
  apply gtb_Fin in E. rewrite Qred_correct in E. lra.
Qed.

Lemma wilder_zero (g : Q) (period : Z) :
  (g == 0)%Q -> (1 <= period)%Z ->
  exists g', (Fin g * of_Z (period - 1) + zero) / of_Z period = Fin g' /\ (g' == 0)%Q.
Proof.
  intros Hg Hp. unfold of_Z, zero.
  change (Fin g * Fin (inject_Z (period - 1)) + Fin 0)
    with (Fin (Qred (Qred (g * inject_Z (period - 1)) + 0))).
  pose proof (@inject_Z_pos period ltac:(lia)) as Hpos.
  rewrite div_Fin_pos by exact Hpos.
  eexists. split; [reflexivity|]. rewrite !Qred_correct, Hg. field. lra.
Qed.

Lemma rsi_value_zero (g l : Q) :
  (g == 0)%Q -> (0 <= l)%Q ->
  exists q, rsi_value (Fin g) (Fin l) = Fin q /\ (q == 0)%Q.
Proof.
  intros Hg Hl. unfold rsi_value.
  assert (Hrs : exists r, Fin g / (if Fin l === zero then one else Fin l) = Fin r
                          /\ (r == 0)%Q).
  { destruct (Fin l === zero) eqn:E.
    - unfold one. rewrite div_Fin_pos by reflexivity.
      eexists. split; [reflexivity|]. rewrite Qred_correct, Hg. reflexivity.
    - assert (Hlpos : (0 < l)%Q).
      { destruct (Qle_lt_or_eq _ _ Hl) as [Hlt|Heq]; [exact Hlt|].
        assert (Ht : (Fin l === zero) = true) by (apply eqb_Fin; symmetry; exact Heq).
        rewrite Ht in E. discriminate E. }
      rewrite div_Fin_pos by exact Hlpos.
      eexists. split; [reflexivity|]. rewrite Qred_correct, Hg. field. lra. }
  destruct Hrs as [r [Hr Hr0]]. rewrite Hr. unfold one, hundred.
  change (Fin 1 + Fin r) with (Fin (Qred (1 + r))).
  assert (Hden : (Qred (1 + r) == 1)%Q) by (rewrite Qred_correct, Hr0; reflexivity).
  rewrite div_Fin_pos by (rewrite Hden; reflexivity).
  change (Fin 100 - fin (100 / Qred (1 + r)))
    with (Fin (Qred (100 - Qred (100 / Qred (1 + r))))).
  eexists. split; [reflexivity|]. rewrite !Qred_correct, Hr0. reflexivity.
Qed.

Lemma rsi_seed_body_no_gain (data : list MarketData.t) (i : Z) (l : Q) :
  finite_closes data -> never_rising data ->
  (1 <= i < Z.of_nat (length data))%Z -> (0 <= l)%Q ->
  exists l', rsi_seed_body data i (zero, Fin l) = Return (zero, Fin l') /\ (0 <= l')%Q.
Proof.
  intros Hfin Hfall Hi Hl. unfold rsi_seed_body.
  rewrite (@close_at_nth data i Hfin) by lia.
  rewrite (@close_at_nth data (i - 1) Hfin) by lia.
  cbn [bind sub]. unfold fin at 1 2.
  rewrite (no_gain_diff Hfall Hi).
  eexists. split; [reflexivity|]. rewrite !Qred_correct.
  pose proof (Qabs_nonneg
                (close_nth data (Z.to_nat i) - close_nth data (Z.to_nat (i - 1)))).
  lra.
Qed.

Lemma rsi_smooth_body_no_gain (data : list MarketData.t) (period : Z) (k : nat)
    (st : Rsi.t) :
  finite_closes data -> never_rising data -> (1 <= period)%Z ->
  (period < Z.of_nat k)%Z -> (k < length data)%nat ->
  rsi_no_gain_state data period k st ->
  exists st', rsi_smooth_body data period (Z.of_nat k) st = Return st' /\
              rsi_no_gain_state data period (S k) st'.
Proof.
  intros Hfin Hfall Hp Hk Hlen ((g & Hg & Hg0) & (l & Hl & Hl0) & Harr & Hvals).
  unfold rsi_smooth_body.
  rewrite (@close_at_nth data (Z.of_nat k) Hfin) by lia.
  rewrite (@close_at_nth data (Z.of_nat k - 1) Hfin) by lia.
  cbn [bind sub].
  set (d := (close_nth data (Z.to_nat (Z.of_nat k))
             - close_nth data (Z.to_nat (Z.of_nat k - 1)))%Q).
  change (fin d) with (Fin (Qred d)).
  assert (Hnogain : (Fin (Qred d) >? zero) = false).
  { apply (@no_gain_diff data (Z.of_nat k) Hfall). lia. }
  rewrite Hnogain.
  destruct (loss_nonneg (Qred d)) as [ls [Hls Hls0]].
  rewrite Hls, Hg, Hl.
  destruct (wilder_zero Hg0 Hp) as [g' [Hg' Hg'0]].
  destruct (wilder_nonneg Hl0 Hls0 Hp) as [l' [Hl' Hl'0]].
  rewrite Hg', Hl'.
  destruct (rsi_value_zero Hg'0 Hl'0) as [q [Hq Hq0]]. rewrite Hq.
  eexists. split; [reflexivity|].
  unfold rsi_no_gain_state. cbn [Rsi.avgGain Rsi.avgLoss Rsi.rsiArray].
  split; [exists g'; auto|]. split; [exists l'; auto|].
  split; [rewrite set_length_below by lia; exact Harr|].
  intros j Hj Hjk. destruct (Nat.eq_dec j k) as [->|Hne].
  - rewrite nth_error_set_same by lia. exists q. auto.
  - rewrite nth_error_set_other by lia. apply Hvals; [exact Hj | lia].
Qed.

Lemma rsi_smooth_loop_no_gain (data : list MarketData.t) (period : Z) :
  finite_closes data -> never_rising data -> (1 <= period)%Z ->
  forall (n k : nat) (st : Rsi.t),
    (period < Z.of_nat k)%Z -> (k + n = length data)%nat ->
    rsi_no_gain_state data period k st ->
    exists st',
      for_each (rsi_smooth_body data period)
               (zrange (Z.of_nat k) (Z.of_nat (length data))) st = Return st' /\
      rsi_no_gain_state data period (length data) st'.
Proof.
  intros Hfin Hfall Hp. induction n as [|n IH]; intros k st Hk Hlen Hst.
  - rewrite zrange_empty by lia. exists st. split; [reflexivity|].
    replace (length data) with k by lia. exact Hst.
  - rewrite zrange_cons by lia. cbn [for_each].
    destruct (@rsi_smooth_body_no_gain data period k st Hfin Hfall Hp Hk ltac:(lia) Hst)
      as [st1 [Hstep Hst1]].
    rewrite Hstep. cbn [bind].
    replace (Z.of_nat k + 1)%Z with (Z.of_nat (S k)) by lia.
    apply IH; [lia | lia | exact Hst1].
Qed.

Lemma rsi_seeded_no_gain (data : list MarketData.t) (period : Z) :
  finite_closes data -> never_rising data ->
  (1 <= period)%Z -> (period < Z.of_nat (length data))%Z ->
  exists st, rsi_seeded data period = Return st /\
             rsi_no_gain_state data period (S (Z.to_nat period)) st.
Proof.
  intros Hfin Hfall Hp Hlen. unfold rsi_seeded, rsi_seed.
  destruct (@for_each_total_invariant Z (number * number)
              (fun acc => exists l, acc = (zero, Fin l) /\ (0 <= l)%Q)
              (rsi_seed_body data) (zrange 1 (period + 1))) with (s := (zero, zero))
    as [acc [Hseed (l & -> & Hl)]].
  - intros i acc Hi (l & -> & Hl). apply in_zrange in Hi.
    destruct (@rsi_seed_body_no_gain data i l Hfin Hfall ltac:(lia) Hl)
      as (l' & Hbody & Hl').
    exists (zero, Fin l'). split; [exact Hbody|]. exists l'. auto.
  - exists 0%Q. split; [reflexivity | lra].
  - rewrite Hseed. cbn [bind]. unfold of_Z, zero.
    pose proof (@inject_Z_pos period ltac:(lia)) as Hpos.
    rewrite !div_Fin_pos by exact Hpos.
    assert (Hg' : (Qred (0 / inject_Z period) == 0)%Q).
    { rewrite Qred_correct. field. lra. }
    assert (Hl' : (0 <= Qred (l / inject_Z period))%Q).
    { rewrite Qred_correct. apply Qle_shift_div_l; [exact Hpos | lra]. }
    unfold fin. destruct (rsi_value_zero Hg' Hl') as [q [Hq Hq0]]. rewrite Hq.
    eexists. split; [reflexivity|].
    unfold rsi_no_gain_state. cbn [Rsi.avgGain Rsi.avgLoss Rsi.rsiArray].
    split; [eexists; split; [reflexivity | exact Hg']|].
    split; [eexists; split; [reflexivity | exact Hl']|].
    split; [rewrite set_length_below by (rewrite repeat_length; lia);
            apply repeat_length|].
    intros j Hj Hjk. assert (j = Z.to_nat period) by lia. subst j.
    assert (E : Array.set NaN (repeat NaN (length data)) period (Fin q) =
                Array.set NaN (repeat NaN (length data)) (Z.of_nat (Z.to_nat period))
                          (Fin q))
      by (rewrite Z2Nat.id by lia; reflexivity).
    rewrite E, nth_error_set_same by (rewrite repeat_length; lia).
    exists q. auto.
Qed.

(** X17: on real closes that never rise (a flat or falling market) and
    with a period of at least 2, every entry of [calculateRSI] from index
    [period] onward is 0: with no gain the value is [100 - 100 / (1 + 0)],
    also when there is no loss either. *)
Theorem calculateRSI_zero_without_gains :
  forall (data : list MarketData.t) (period : Z) (rsi : list number),
    finite_closes data -> never_rising data -> (2 <= period)%Z ->
    calculateRSI data period = Return rsi ->
    forall i, (period <= Z.of_nat i)%Z -> (i < length data)%nat ->
      exists q, nth_error rsi i = Some (Fin q) /\ (q == 0)%Q.
Proof.
  intros data period rsi Hfin Hfall Hp2 Hrsi i Hi Hlen.
  assert (Hp : (1 <= period)%Z) by lia. unfold calculateRSI in Hrsi.
  destruct (Z.leb_spec (Z.of_nat (length data)) period) as [Hle|Hlt]; [lia|].
  destruct (rsi_seeded_no_gain Hfin Hfall Hp Hlt) as [st [Hseed Hst]].
  destruct (@rsi_smooth_loop_no_gain data period Hfin Hfall Hp
              (length data - S (Z.to_nat period)) (S (Z.to_nat period)) st
              ltac:(lia) ltac:(lia) Hst) as [st' [Hloop Hst']].
  rewrite Hseed in Hrsi. cbn [bind] in Hrsi.
  replace (Z.of_nat (S (Z.to_nat period))) with (period + 1)%Z in Hloop by lia.
  rewrite Hloop in Hrsi. cbn [bind] in Hrsi. inversion Hrsi. subst rsi.
  destruct Hst' as (_ & _ & _ & Hvals). apply Hvals; assumption.
Qed.

Lemma sliding_never_rising : never_rising sliding.
Proof.
  intros i Hi. simpl in Hi.
  destruct i as [|[|[|[|i]]]]; try (vm_compute; discriminate). lia.
Qed.

Lemma calculateRSI_zero_without_gains_witness :
  calculateRSI sliding 2 = Return [NaN; NaN; Fin 0; Fin 0; Fin 0] /\
  exists q, nth_error [NaN; NaN; Fin 0; Fin 0; Fin 0] 3 = Some (Fin q) /\ (q == 0)%Q.
Proof.
  assert (Hfin : finite_closes sliding) by (repeat constructor).
  assert (Hrsi : calculateRSI sliding 2 = Return [NaN; NaN; Fin 0; Fin 0; Fin 0])
    by (vm_compute; reflexivity).
  split; [exact Hrsi|].
  exact (@calculateRSI_zero_without_gains sliding 2 [NaN; NaN; Fin 0; Fin 0; Fin 0]
           Hfin sliding_never_rising ltac:(lia) Hrsi 3%nat
           ltac:(simpl; lia) ltac:(simpl; lia)).
Defined.
